(** * github_mcp_server: context store and atomic commit builder

    A shallow embedding of the two servers of the repository,

    - [src/unnamed/part_000], the validated server (Joi schemas, encoded
      file contents, blob/tree/commit/ref commit sequence), module
      [Part000];
    - [src/server.js], the plain server (no request validation, hourly
      context cleanup), module [ServerJs];
    - the commit messages of the validated server, module
      [CommitMessage], and the branch and repository-file routes of both
      servers, module [Github];

    followed by the properties of the context store, of the commit
    sequence and of these routes.

    Conventions of the embedding.

    - A JavaScript string is a Rocq [string] read as its sequence of code
      units; the text is taken to be ASCII, so that a string, its UTF-8
      bytes and its UTF-16 code units coincide ([Buffer.byteLength] is the
      length, [toLowerCase] folds [A-Z]).  A statement that depends on
      what is read back from the codec, on the letter case or on the
      length of a line carries [is_ascii] as a hypothesis; a statement
      about printed JSON values carries [safe_integers].
    - A request field that is absent ([undefined]) is [None]; the handlers
      that do not go through Joi receive fields that are strings when
      present.
    - A [Date] is its number of milliseconds, a [Z]; the clock reading of a
      handler is an argument [now].
    - [context.files] is a plain object: its own properties are a [gmap],
      its prototype is [Object.prototype] or, after an assignment to the
      key [__proto__], the assigned entry.  [Object.entries] lists the own
      properties; the order of the listing is the map's, not JavaScript's
      insertion order.
    - The octokit client is the environment: a handler is a tree of calls,
      run against any backend [octokit_backend] (a state and a reply to
      each call), which also stands for whatever other writers do to the
      repository between two calls. *)

From Stdlib Require Import ZArith NArith String Ascii List Lia Bool DecimalString DecimalZ.
From stdpp Require Import gmap strings list fin_maps.
Import ListNotations.

Set Warnings "-register-all".

Local Open Scope string_scope.
Local Open Scope Z_scope.

(** ** JavaScript strings *)

Module JsString.

Definition newline : ascii := ascii_of_nat 10.

Definition lower_ascii (c : ascii) : ascii :=
  let n := N_of_ascii c in
  if ((65 <=? n) && (n <=? 90))%N then ascii_of_N (n + 32) else c.

(** [s.toLowerCase()], on ASCII text: the letters [A-Z] are folded. *)
Fixpoint toLowerCase (s : string) : string :=
  match s with
  | EmptyString => EmptyString
  | String c s' => String (lower_ascii c) (toLowerCase s')
  end.

(** [s.includes(q)] *)
Fixpoint includes (s q : string) : bool :=
  String.prefix q s ||
  match s with
  | EmptyString => false
  | String _ s' => includes s' q
  end.

(** [s.split('\n')] *)
Fixpoint split_lines (s : string) : list string :=
  match s with
  | EmptyString => [EmptyString]
  | String c s' =>
      if Ascii.eqb c newline then EmptyString :: split_lines s'
      else match split_lines s' with
           | l :: ls => String c l :: ls
           | [] => [String c EmptyString]
           end
  end.

(** [s.slice(0, n)] *)
Definition slice0 (n : nat) (s : string) : string := String.substring 0 n s.

(** [Buffer.byteLength(s, 'utf8')], on ASCII text *)
Definition byteLength (s : string) : Z := Z.of_nat (String.length s).

(** [lines.join('\n')], to write down contents of several lines. *)
Fixpoint join_lines (ls : list string) : string :=
  match ls with
  | [] => EmptyString
  | [l] => l
  | l :: ls' => l ++ String newline (join_lines ls')
  end.

(** The text is ASCII.  On such text a Rocq [string] and the JavaScript
    string it stands for have the same characters, the same [length] and
    the same UTF-8 bytes, and [toLowerCase] folds [A-Z] and nothing else.
    The statements that depend on one of these carry it as a hypothesis. *)
Definition is_ascii (s : string) : bool :=
  forallb (fun c => (N_of_ascii c <? 128)%N) (list_ascii_of_string s).

End JsString.

(** ** The content codec: [encodeContent] and [decodeContent] *)

Module Base64.

Definition alphabet : string :=
  "ABCDEFGHIJKLMNOPQRSTUVWXYZabcdefghijklmnopqrstuvwxyz0123456789+/".

Definition pad : ascii := "="%char.

Definition char_of_sextet (i : N) : ascii :=
  match String.get (N.to_nat i) alphabet with
  | Some c => c
  | None => pad
  end.

Fixpoint index_from (i : N) (tbl : string) (c : ascii) : option N :=
  match tbl with
  | EmptyString => None
  | String d tbl' => if Ascii.eqb c d then Some i else index_from (N.succ i) tbl' c
  end.

Definition sextet_of_char (c : ascii) : option N := index_from 0 alphabet c.

(** [buf.toString('base64')] on the bytes of [s]. *)
Fixpoint encode (s : string) : string :=
  match s with
  | EmptyString => EmptyString
  | String a EmptyString =>
      let x := N_of_ascii a in
      String (char_of_sextet (x / 4))
        (String (char_of_sextet ((x mod 4) * 16))
           (String pad (String pad EmptyString)))
  | String a (String b EmptyString) =>
      let x := N_of_ascii a in
      let y := N_of_ascii b in
      String (char_of_sextet (x / 4))
        (String (char_of_sextet ((x mod 4) * 16 + y / 16))
           (String (char_of_sextet ((y mod 16) * 4))
              (String pad EmptyString)))
  | String a (String b (String c rest)) =>
      let x := N_of_ascii a in
      let y := N_of_ascii b in
      let z := N_of_ascii c in
      String (char_of_sextet (x / 4))
        (String (char_of_sextet ((x mod 4) * 16 + y / 16))
           (String (char_of_sextet ((y mod 16) * 4 + z / 64))
              (String (char_of_sextet (z mod 64)) (encode rest))))
  end.

(** [Buffer.from(t, 'base64')] on padded input, four characters at a
    time; decoding stops at the padding. *)
Fixpoint decode (t : string) : string :=
  match t with
  | String c1 (String c2 (String c3 (String c4 rest))) =>
      match sextet_of_char c1, sextet_of_char c2 with
      | Some x1, Some x2 =>
          let b1 := ascii_of_N (x1 * 4 + x2 / 16) in
          match sextet_of_char c3 with
          | Some x3 =>
              let b2 := ascii_of_N ((x2 mod 16) * 16 + x3 / 4) in
              match sextet_of_char c4 with
              | Some x4 =>
                  let b3 := ascii_of_N ((x3 mod 4) * 64 + x4) in
                  String b1 (String b2 (String b3 (decode rest)))
              | None => String b1 (String b2 EmptyString)
              end
          | None => String b1 EmptyString
          end
      | _, _ => EmptyString
      end
  | _ => EmptyString
  end.

End Base64.

(** [const encodeContent = (content) => Buffer.from(content, 'utf8').toString('base64')],
    on ASCII text, whose UTF-8 bytes are its characters. *)
Definition encodeContent (content : string) : string := Base64.encode content.

(** [const decodeContent = (content) => Buffer.from(content, 'base64').toString('utf8')],
    on the encoded form of an ASCII text. *)
Definition decodeContent (content : string) : string := Base64.decode content.

(** A stored content that is the encoded form of an ASCII text, as
    [add_file] stores such a text. *)
Definition stored_ascii (stored : string) : bool :=
  JsString.is_ascii (decodeContent stored)
  && String.eqb (encodeContent (decodeContent stored)) stored.

(** ** Plain objects used as maps: [context.files] *)

Module JsObject.

(** The property names of [Object.prototype] (Node 18).  All are
    functions, but [__proto__], an accessor whose getter returns the
    prototype and whose setter replaces it. *)
Definition object_prototype_names : list string :=
  [ "constructor"; "__defineGetter__"; "__defineSetter__"; "hasOwnProperty";
    "__lookupGetter__"; "__lookupSetter__"; "isPrototypeOf";
    "propertyIsEnumerable"; "toString"; "valueOf"; "__proto__";
    "toLocaleString" ].

Definition on_object_prototype (k : string) : bool :=
  existsb (String.eqb k) object_prototype_names.

Section Obj.
Context {V : Type}.
(** [field_truthy v k]: the entry object [v] has an own property [k]
    and its value is truthy. *)
Variable field_truthy : V -> string -> bool.

Record obj := { own : gmap string V; proto : option V }.

(** [{}] *)
Definition empty : obj := {| own := ∅; proto := None |}.

(** [o[k] = v].  The key [__proto__] reaches the setter inherited from
    [Object.prototype]: the object gets [v] as prototype and no own
    property.  Every other key defines or overwrites an own property. *)
Definition set (k : string) (v : V) (o : obj) : obj :=
  if String.eqb k "__proto__"
  then {| own := own o; proto := Some v |}
  else {| own := <[k := v]> (own o); proto := proto o |}.

(** The key is found up the prototype chain, with a truthy value: on the
    entry that was made the prototype, or on [Object.prototype]. *)
Definition inherited (k : string) (o : obj) : bool :=
  match proto o with
  | Some e => field_truthy e k
  | None => false
  end || on_object_prototype k.

(** The truthiness of [o[k]]: an own entry is an object; otherwise the
    lookup follows the prototype chain. *)
Definition get_truthy (k : string) (o : obj) : bool :=
  match own o !! k with
  | Some _ => true
  | None => inherited k o
  end.

(** [delete o[k]] removes an own property and nothing else. *)
Definition delete_key (k : string) (o : obj) : obj :=
  {| own := delete k (own o); proto := proto o |}.

(** [Object.entries(o)] *)
Definition entries (o : obj) : list (string * V) := map_to_list (own o).

(** [Object.keys(o)] *)
Definition keys (o : obj) : list string := (entries o).*1.
End Obj.

Arguments obj V : clear implicits.

End JsObject.

(** ** Request bodies and Joi *)

(** A parsed body.  An object lists its own properties, each key once;
    a number is an integer. *)
Inductive json :=
| JNull
| JBool (b : bool)
| JNum (n : Z)
| JStr (s : string)
| JArr (items : list json)
| JObj (fields : list (string * json)).

(** [o[k]] on a parsed body: [None] is [undefined]. *)
Fixpoint assoc {A : Type} (k : string) (l : list (string * A)) : option A :=
  match l with
  | [] => None
  | (k', v) :: l' => if String.eqb k k' then Some v else assoc k l'
  end.

Definition prop (k : string) (v : json) : option json :=
  match v with
  | JObj fields => assoc k fields
  | _ => None
  end.

(** A destructured field that validation has made a string. *)
Definition str_of (v : option json) : string :=
  match v with
  | Some (JStr s) => s
  | _ => EmptyString
  end.

(** A destructured optional string field. *)
Definition opt_str_of (v : option json) : option string :=
  match v with
  | Some (JStr s) => Some s
  | _ => None
  end.

(** Joi 17 with its default preferences ([abortEarly], [convert], no
    unknown keys), for the schema constructors the server uses on the
    context and commit routes. *)
Module Joi.

Inductive presence := Optional | Required.

Inductive schema :=
| SString (p : presence) (allow_empty : bool) (dflt : option string)
| SArray (p : presence) (items : schema)
| SObject (p : presence) (keys : list (string * schema)).

(** [.required()], [.optional()], [.default(d)], [.allow('')] *)
Definition required (s : schema) : schema :=
  match s with
  | SString _ ae d => SString Required ae d
  | SArray _ it => SArray Required it
  | SObject _ ks => SObject Required ks
  end.
Definition optional (s : schema) : schema :=
  match s with
  | SString _ ae d => SString Optional ae d
  | SArray _ it => SArray Optional it
  | SObject _ ks => SObject Optional ks
  end.
Definition default (d : string) (s : schema) : schema :=
  match s with
  | SString p ae _ => SString p ae (Some d)
  | _ => s
  end.
Definition allow_empty (s : schema) : schema :=
  match s with
  | SString p _ d => SString p true d
  | _ => s
  end.

(** Error type codes of Joi, with the path of the offending value. *)
Inductive code :=
| any_required | string_base | string_empty
| array_base | object_base | object_unknown.

Inductive seg := Key (k : string) | Idx (i : nat).

Record error := { type : code; path : list seg }.

Definition missing (p : presence) (at_ : list seg) : error + option json :=
  match p with
  | Required => inl {| type := any_required; path := at_ |}
  | Optional => inr None
  end.

Section Loops.
(** The validator of a child value. *)
Variable child : schema -> list seg -> option json -> error + option json.

(** The items of an array, in order; the first error ends the run. *)
Fixpoint each (items : schema) (at_ : list seg) (i : nat) (l : list json)
  : error + list json :=
  match l with
  | [] => inr []
  | x :: l' =>
      match child items (at_ ++ [Idx i]) (Some x) with
      | inl e => inl e
      | inr x' =>
          match each items at_ (S i) l' with
          | inl e => inl e
          | inr l'' => inr (match x' with Some y => y | None => x end :: l'')
          end
      end
  end.

(** The keys of the schema, in the order of their declaration. *)
Fixpoint known (at_ : list seg) (fields : list (String.string * json))
    (ks : list (String.string * schema)) : error + list (String.string * json) :=
  match ks with
  | [] => inr []
  | (k, sk) :: ks' =>
      match child sk (at_ ++ [Key k]) (assoc k fields) with
      | inl e => inl e
      | inr v' =>
          match known at_ fields ks' with
          | inl e => inl e
          | inr out => inr (match v' with Some y => (k, y) :: out | None => out end)
          end
      end
  end.
End Loops.

(** The first key of the body that the schema does not declare. *)
Definition unknown_key (keys : list (String.string * schema))
    (fields : list (String.string * json)) : option String.string :=
  fst <$> find (fun kv => negb (existsb (fun ks => String.eqb (fst kv) (fst ks)) keys))
            fields.

Fixpoint validate (sc : schema) (at_ : list seg) (v : option json)
  : error + option json :=
  match sc with
  | SString p ae d =>
      match v with
      | None =>
          match d with
          | Some s => inr (Some (JStr s))
          | None => missing p at_
          end
      | Some (JStr s) =>
          if String.eqb s EmptyString && negb ae
          then inl {| type := string_empty; path := at_ |}
          else inr (Some (JStr s))
      | Some _ => inl {| type := string_base; path := at_ |}
      end
  | SArray p items =>
      match v with
      | None => missing p at_
      | Some (JArr l) =>
          match each validate items at_ 0 l with
          | inl e => inl e
          | inr l' => inr (Some (JArr l'))
          end
      | Some _ => inl {| type := array_base; path := at_ |}
      end
  | SObject p keys =>
      match v with
      | None => missing p at_
      | Some (JObj fields) =>
          match known validate at_ fields keys with
          | inl e => inl e
          | inr out =>
              match unknown_key keys fields with
              | Some k => inl {| type := object_unknown; path := at_ ++ [Key k] |}
              | None => inr (Some (JObj out))
              end
          end
      | Some _ => inl {| type := object_base; path := at_ |}
      end
  end.

(** [Joi.object({...})], [Joi.array().items(s)], [Joi.string()] *)
Definition object (keys : list (String.string * schema)) : schema := SObject Optional keys.
Definition array_items (s : schema) : schema := SArray Optional s.
Definition string : schema := SString Optional false None.

End Joi.

(** ** Shared vocabulary of the two servers *)

Record RepoInfo := { repo : string; branch : string }.

(** Truthiness of a string, and of a field that may be absent. *)
Definition truthy (s : string) : bool := negb (String.eqb s EmptyString).

Definition present (v : option string) : bool :=
  match v with
  | Some s => truthy s
  | None => false
  end.

(** [`${n}`] for the integer [n] *)
Definition decimal (n : Z) : string := NilZero.string_of_int (Z.to_int n).

(** [`ctx_${Date.now()}_${Math.random().toString(36).slice(2, 9)}`]; [rnd]
    is the random suffix. *)
Definition new_context_id (now : Z) (rnd : string) : string :=
  "ctx_" ++ decimal now ++ "_" ++ rnd.

(** The failure kinds of the specification, as the servers report them by
    HTTP status. *)
Inductive Kind := Validation | NotFound | Conflict | Upstream.

Definition kind_of_status (status : Z) : option Kind :=
  if status =? 400 then Some Validation
  else if status =? 404 then Some NotFound
  else if status =? 409 then Some Conflict
  else if status =? 500 then Some Upstream
  else None.

(** ** The octokit client as environment *)

Module Octokit.

(** What the handlers read of a rejected request. *)
Record RequestError := { err_status : option Z; err_message : string }.

Record TreeEntry :=
  { te_path : string; te_mode : string; te_type : string; te_sha : string }.

(** [latestCommit.data.sha] and [latestCommit.data.tree.sha] *)
Record CommitData := { cd_sha : string; cd_tree_sha : string }.

(** [commit.data.sha], [commit.data.message], [commit.data.html_url] *)
Record NewCommit := { nc_sha : string; nc_message : string; nc_html_url : string }.

(** The calls of the commit routes, with the arguments the source passes
    and the part of the reply it reads. *)
Inductive Call : Type -> Type :=
| repos_get (owner repo : string) : Call unit
| git_getRef (owner repo ref : string) : Call string
| git_getCommit (owner repo commit_sha : string) : Call CommitData
| git_createBlob (owner repo content encoding : string) : Call string
| git_createTree (owner repo base_tree : string) (tree : list TreeEntry) : Call string
| git_createCommit (owner repo message tree : string) (parents : list string)
  : Call NewCommit
| git_updateRef (owner repo ref sha : string) : Call unit.

(** An [async] body: it returns, throws, or awaits a call and goes on
    with the settled promise. *)
Inductive Prog (A : Type) : Type :=
| Ret (a : A)
| Throw (e : RequestError)
| Do {X : Type} (c : Call X) (k : RequestError + X -> Prog A).
Arguments Ret {A} a.
Arguments Throw {A} e.
Arguments Do {A X} c k.

Fixpoint bind {A B : Type} (p : Prog A) (f : A -> Prog B) : Prog B :=
  match p with
  | Ret a => f a
  | Throw e => Throw e
  | Do c k => Do c (fun r => bind (k r) f)
  end.

(** [await c]: a rejection is thrown. *)
Definition call {X : Type} (c : Call X) : Prog X :=
  Do c (fun r => match r with inl e => Throw e | inr x => Ret x end).

(** [try { p } catch (err) { h err }] *)
Fixpoint catch {A : Type} (p : Prog A) (h : RequestError -> Prog A) : Prog A :=
  match p with
  | Ret a => Ret a
  | Throw e => h e
  | Do c k => Do c (fun r => catch (k r) h)
  end.

(** One call as it was issued and as it settled. *)
Inductive Event : Type :=
| Ev : forall X : Type, Call X -> RequestError + X -> Event.
Arguments Ev {X} c r.

(** A backend: a state of the remote repository and what each call does
    to it and replies. *)
Record octokit_backend :=
  { world : Type;
    reply : forall X : Type, Call X -> world -> (RequestError + X) * world }.

Fixpoint run {A : Type} (B : octokit_backend) (p : Prog A) (w : world B)
  : (RequestError + A) * world B * list Event :=
  match p with
  | Ret a => (inr a, w, [])
  | Throw e => (inl e, w, [])
  | Do c k =>
      let '(r, w1) := reply B _ c w in
      let '(out, w2, tr) := run B (k r) w1 in
      (out, w2, Ev c r :: tr)
  end.

Definition is_updateRef (e : Event) : bool :=
  match e with
  | Ev (git_updateRef _ _ _ _) _ => true
  | Ev _ _ => false
  end.

Definition rejected (e : Event) : bool :=
  match e with
  | Ev _ (inl _) => true
  | Ev _ (inr _) => false
  end.

(** The string arguments of a call. *)
Definition call_args {X : Type} (c : Call X) : list string :=
  match c with
  | repos_get o r => [o; r]
  | git_getRef o r f => [o; r; f]
  | git_getCommit o r s => [o; r; s]
  | git_createBlob o r c e => [o; r; c; e]
  | git_createTree o r b t =>
      o :: r :: b :: concat (List.map (fun e => [te_path e; te_mode e; te_type e; te_sha e]) t)
  | git_createCommit o r m t ps => o :: r :: m :: t :: ps
  | git_updateRef o r f s => [o; r; f; s]
  end.

Definition event_args (e : Event) : list string :=
  match e with
  | Ev c _ => call_args c
  end.

End Octokit.

(** [const x = await p; q] *)
Notation "'let!' x ':=' p 'in' q" := (Octokit.bind p (fun x => q))
  (at level 10, x name, p at level 100, q at level 200, only parsing).

(** ** The validated server, [src/unnamed/part_000] *)

Module Part000.
Import JsString Octokit.

(** *** Schemas *)

Definition schemas_commit : Joi.schema :=
  Joi.object
    [ ("repoName", Joi.required Joi.string);
      ("branch", Joi.default "main" Joi.string);
      ("path", Joi.required Joi.string);
      ("content", Joi.required Joi.string);
      ("message", Joi.required Joi.string) ].

Definition schemas_addFile : Joi.schema :=
  Joi.object
    [ ("context_id", Joi.required Joi.string);
      ("path", Joi.required Joi.string);
      ("content", Joi.required Joi.string);
      ("repo", Joi.optional Joi.string);
      ("branch", Joi.default "main" Joi.string) ].

Definition schemas_pushFiles : Joi.schema :=
  Joi.object
    [ ("repoName", Joi.required Joi.string);
      ("branch", Joi.default "main" Joi.string);
      ("files",
        Joi.required
          (Joi.array_items
             (Joi.object
                [ ("path", Joi.required Joi.string);
                  ("content", Joi.required Joi.string) ])));
      ("message", Joi.required Joi.string) ].

(** [schema.validate(req.body)]: the error, or the value that replaces
    [req.body]. *)
Definition validateInput (schema : Joi.schema) (body : json) : Joi.error + json :=
  match Joi.validate schema [] (Some body) with
  | inl e => inl e
  | inr (Some value) => inr value
  | inr None => inr body
  end.

(** *** Context store *)

Record FileEntry := { content : string; added : Z; size : Z }.

Definition field_truthy (e : FileEntry) (k : string) : bool :=
  if String.eqb k "content" then truthy (content e)
  else if String.eqb k "added" then true
  else if String.eqb k "size" then negb (size e =? 0)
  else false.

Record Context :=
  { created : Z; files : JsObject.obj FileEntry; repoInfo : option RepoInfo }.

(** *** Responses *)

Record FileView :=
  { fv_path : string; fv_content : string; fv_added : Z; fv_size : Z }.

Record Match := { line : nat; m_content : string; preview : string }.

Record FileMatches :=
  { fm_path : string; matches : list Match; match_count : nat }.

Inductive Body :=
| BError (error : string) (details : option string)
| BValidation (details : Joi.error)
| BInit (context_id : string)
| BAddFile (message : string) (file_count : nat)
| BRemoveFile (message : string)
| BContext (context_id : string) (created : Z) (files : list FileView)
    (repo_info : option RepoInfo) (file_count : nat)
| BSearch (results : list FileMatches) (total_matches files_searched : nat)
| BPushFiles (commit : NewCommit) (files : list (string * string))
    (repository branch : string)
| BCommit (commit_sha message url : string).

Record Response := { status : Z; body : Body }.

(** [res.json(b)] and [res.status(n).json(b)] *)
Definition json_ (b : Body) : Response := {| status := 200; body := b |}.
Definition status_json (n : Z) (b : Body) : Response := {| status := n; body := b |}.

Definition kind_of (r : Response) : option Kind := kind_of_status (status r).

(** *** MCP routes *)

(** [app.post('/v1/init')] *)
Definition init (now : Z) (rnd : string) (contextStore : gmap string Context)
  : Response * gmap string Context :=
  let contextId := new_context_id now rnd in
  (json_ (BInit contextId),
   <[contextId := {| created := now; files := JsObject.empty; repoInfo := None |}]>
     contextStore).

(** [app.post('/v1/add_file', validateInput(schemas.addFile))] *)
Definition add_file (now : Z) (body : json) (contextStore : gmap string Context)
  : Response * gmap string Context :=
  match validateInput schemas_addFile body with
  | inl e => (status_json 400 (BValidation e), contextStore)
  | inr value =>
      let context_id := str_of (prop "context_id" value) in
      let path := str_of (prop "path" value) in
      let content := str_of (prop "content" value) in
      let repo := opt_str_of (prop "repo" value) in
      let branch := str_of (prop "branch" value) in
      match contextStore !! context_id with
      | None => (status_json 404 (BError "Context not found" None), contextStore)
      | Some context =>
          let files' :=
            JsObject.set path
              {| content := encodeContent content;
                 added := now;
                 size := byteLength content |}
              (files context) in
          let repoInfo' :=
            match repo with
            | Some r =>
                if truthy r
                then Some {| repo := r; branch := if truthy branch then branch else "main" |}
                else repoInfo context
            | None => repoInfo context
            end in
          (json_ (BAddFile ("File " ++ path ++ " added") (length (JsObject.keys files'))),
           <[context_id := {| created := created context;
                              files := files';
                              repoInfo := repoInfo' |}]> contextStore)
      end
  end.

(** [app.post('/v1/remove_file')] *)
Definition remove_file (context_id path : option string)
    (contextStore : gmap string Context) : Response * gmap string Context :=
  if negb (present context_id) || negb (present path)
  then (status_json 400 (BError "context_id and path required" None), contextStore)
  else
    let context_id := default EmptyString context_id in
    let path := default EmptyString path in
    match contextStore !! context_id with
    | None => (status_json 404 (BError "Context not found" None), contextStore)
    | Some context =>
        if JsObject.get_truthy field_truthy path (files context)
        then (json_ (BRemoveFile ("File " ++ path ++ " removed")),
              <[context_id := {| created := created context;
                                 files := JsObject.delete_key path (files context);
                                 repoInfo := repoInfo context |}]> contextStore)
        else (status_json 404 (BError "File not found in context" None), contextStore)
    end.

Definition file_view (kv : string * FileEntry) : FileView :=
  {| fv_path := kv.1;
     fv_content := decodeContent (content kv.2);
     fv_added := added kv.2;
     fv_size := size kv.2 |}.

(** [app.get('/v1/get_context')] *)
Definition get_context (context_id : option string)
    (contextStore : gmap string Context) : Response :=
  if negb (present context_id)
  then status_json 400 (BError "context_id required" None)
  else
    let context_id := default EmptyString context_id in
    match contextStore !! context_id with
    | None => status_json 404 (BError "Context not found" None)
    | Some context =>
        json_ (BContext context_id (created context)
                 (file_view <$> JsObject.entries (files context))
                 (repoInfo context)
                 (length (JsObject.keys (files context))))
    end.

(** [line.length > 100 ? line.slice(0, 100) + '...' : line], on ASCII
    text, whose [length] is its number of characters *)
Definition preview_of (line : string) : string :=
  if (100 <? String.length line)%nat then slice0 100 line ++ "..." else line.

(** The [lines.forEach((line, i) => ...)] loop, from index [i]. *)
Fixpoint matches_from (i : nat) (query : string) (lines : list string) : list Match :=
  match lines with
  | [] => []
  | line :: rest =>
      (if includes (toLowerCase line) (toLowerCase query)
       then [ {| line := i + 1; m_content := line; preview := preview_of line |} ]
       else [])
      ++ matches_from (S i) query rest
  end.

(** The body of the [for (const [path, data] of Object.entries(...))] loop. *)
Definition search_file (query : string) (kv : string * FileEntry) : list FileMatches :=
  let content := decodeContent (content kv.2) in
  let lines := split_lines content in
  let matches := matches_from 0 query lines in
  if (0 <? length matches)%nat
  then [ {| fm_path := kv.1; matches := matches; match_count := length matches |} ]
  else [].

(** [app.post('/v1/search')] *)
Definition search (context_id query : option string)
    (contextStore : gmap string Context) : Response :=
  if negb (present context_id) || negb (present query)
  then status_json 400 (BError "context_id and query required" None)
  else
    let context_id := default EmptyString context_id in
    let query := default EmptyString query in
    match contextStore !! context_id with
    | None => status_json 404 (BError "Context not found" None)
    | Some context =>
        let results := concat (search_file query <$> JsObject.entries (files context)) in
        json_ (BSearch results
                 (fold_left (fun a b => (a + match_count b)%nat) results 0%nat)
                 (length (JsObject.keys (files context))))
    end.

(** *** Commit routes *)

Section Commit.
(** [const OWNER = process.env.GITHUB_USERNAME || 'MostafaSwaisy'] *)
Variable OWNER : string.

(** [async function checkRepoExists(repoName)] *)
Definition checkRepoExists (repoName : string) : Prog bool :=
  Do (repos_get OWNER repoName)
    (fun r =>
       match r with
       | inr _ => Ret true
       | inl err =>
           if bool_decide (err_status err = Some 404) then Ret false else Throw err
       end).

Record File := { f_path : string; f_content : string }.

Definition file_of (j : json) : File :=
  {| f_path := str_of (prop "path" j); f_content := str_of (prop "content" j) |}.

Definition files_of (v : option json) : list File :=
  match v with
  | Some (JArr items) => file_of <$> items
  | _ => []
  end.

(** [files.map(async (file) => { const blob = await createBlob(...);
    return {...} })]: every request is issued, in the order of the
    files, whatever becomes of the others. *)
Fixpoint blob_promises (repoName : string) (files : list File)
  : Prog (list (RequestError + TreeEntry)) :=
  match files with
  | [] => Ret []
  | file :: rest =>
      Do (git_createBlob OWNER repoName (encodeContent (f_content file)) "base64")
        (fun r =>
           let! settled := blob_promises repoName rest in
           Ret (match r with
                | inl e => inl e
                | inr sha =>
                    inr {| te_path := f_path file; te_mode := "100644";
                           te_type := "blob"; te_sha := sha |}
                end :: settled))
  end.

(** [await Promise.all(promises)]: the values, or the rejection of a
    promise that rejected (here the first in the order of the files;
    which one wins is a matter of timing). *)
Fixpoint Promise_all {A : Type} (settled : list (RequestError + A)) : Prog (list A) :=
  match settled with
  | [] => Ret []
  | inl e :: _ => Throw e
  | inr a :: rest => let! values := Promise_all rest in Ret (a :: values)
  end.

(** [app.post('/v1/push_files', validateInput(schemas.pushFiles))] *)
Definition push_files (body : json) : Prog Response :=
  match validateInput schemas_pushFiles body with
  | inl e => Ret (status_json 400 (BValidation e))
  | inr value =>
      let repoName := str_of (prop "repoName" value) in
      let branch := str_of (prop "branch" value) in
      let files := files_of (prop "files" value) in
      let message := str_of (prop "message" value) in
      catch
        (let! exists_ := checkRepoExists repoName in
         if negb exists_
         then Ret (status_json 404
                     (BError ("Repository " ++ repoName ++ " not found") None))
         else
           let! latestCommitSha := call (git_getRef OWNER repoName ("heads/" ++ branch)) in
           let! latestCommit := call (git_getCommit OWNER repoName latestCommitSha) in
           let! settled := blob_promises repoName files in
           let! blobs := Promise_all settled in
           let! tree :=
             call (git_createTree OWNER repoName (cd_tree_sha latestCommit) blobs) in
           let! commit :=
             call (git_createCommit OWNER repoName message tree [cd_sha latestCommit]) in
           let! _ := call (git_updateRef OWNER repoName ("heads/" ++ branch) (nc_sha commit)) in
           Ret (json_ (BPushFiles commit
                         ((fun b => (te_path b, te_sha b)) <$> blobs)
                         (OWNER ++ "/" ++ repoName) branch)))
        (fun err =>
           Ret (status_json 500 (BError "Failed to push files" (Some (err_message err)))))
  end.

(** [app.put('/commit', validateInput(schemas.commit))] *)
Definition commit (body : json) : Prog Response :=
  match validateInput schemas_commit body with
  | inl e => Ret (status_json 400 (BValidation e))
  | inr value =>
      let repoName := str_of (prop "repoName" value) in
      let branch := str_of (prop "branch" value) in
      let path := str_of (prop "path" value) in
      let content := str_of (prop "content" value) in
      let message := str_of (prop "message" value) in
      catch
        (let! exists_ := checkRepoExists repoName in
         if negb exists_
         then Ret (status_json 404 (BError "Repository not found" None))
         else
           let! latestCommitSha := call (git_getRef OWNER repoName ("heads/" ++ branch)) in
           let! latestCommit := call (git_getCommit OWNER repoName latestCommitSha) in
           let baseTreeSha := cd_tree_sha latestCommit in
           let! blob :=
             call (git_createBlob OWNER repoName (encodeContent content) "base64") in
           let! newTree :=
             call (git_createTree OWNER repoName baseTreeSha
                     [ {| te_path := path; te_mode := "100644";
                          te_type := "blob"; te_sha := blob |} ]) in
           let! commit :=
             call (git_createCommit OWNER repoName message newTree [latestCommitSha]) in
           let! _ := call (git_updateRef OWNER repoName ("heads/" ++ branch) (nc_sha commit)) in
           Ret (json_ (BCommit (nc_sha commit) (nc_message commit) (nc_html_url commit))))
        (fun err =>
           Ret (status_json 500 (BError "Failed to commit file" (Some (err_message err)))))
  end.

End Commit.

End Part000.

(** ** The plain server, [src/server.js] *)

Module ServerJs.
Import JsString.

Record FileEntry := { content : string; added : Z }.

Definition field_truthy (e : FileEntry) (k : string) : bool :=
  if String.eqb k "content" then truthy (content e)
  else if String.eqb k "added" then true
  else false.

Record Context :=
  { created : Z; files : JsObject.obj FileEntry; repoInfo : option RepoInfo }.

Record Match := { line : nat; m_content : string }.

Record FileMatches := { fm_path : string; matches : list Match }.

Inductive Body :=
| BError (error : string)
| BInit (context_id : string)
| BSuccess
| BContext (files : list (string * string)) (repo_info : option RepoInfo)
| BSearch (results : list FileMatches).

Record Response := { status : Z; body : Body }.

Definition json_ (b : Body) : Response := {| status := 200; body := b |}.
Definition status_json (n : Z) (b : Body) : Response := {| status := n; body := b |}.

Definition kind_of (r : Response) : option Kind := kind_of_status (status r).

(** [app.post('/v1/init')] *)
Definition init (now : Z) (rnd : string) (contextStore : gmap string Context)
  : Response * gmap string Context :=
  let contextId := new_context_id now rnd in
  (json_ (BInit contextId),
   <[contextId := {| created := now; files := JsObject.empty; repoInfo := None |}]>
     contextStore).

(** [app.post('/v1/add_file')] *)
Definition add_file (now : Z) (context_id path content : string)
    (repo branch : option string) (contextStore : gmap string Context)
  : Response * gmap string Context :=
  match contextStore !! context_id with
  | None => (status_json 404 (BError "Context not found"), contextStore)
  | Some context =>
      let files' := JsObject.set path {| content := content; added := now |} (files context) in
      let repoInfo' :=
        match repo with
        | Some r =>
            if truthy r
            then Some {| repo := r;
                         branch := if present branch then default EmptyString branch
                                   else "main" |}
            else repoInfo context
        | None => repoInfo context
        end in
      (json_ BSuccess,
       <[context_id := {| created := created context;
                          files := files';
                          repoInfo := repoInfo' |}]> contextStore)
  end.

(** [app.post('/v1/remove_file')] *)
Definition remove_file (context_id path : string) (contextStore : gmap string Context)
  : Response * gmap string Context :=
  match contextStore !! context_id with
  | None => (status_json 404 (BError "Context not found"), contextStore)
  | Some context =>
      let files' :=
        if JsObject.get_truthy field_truthy path (files context)
        then JsObject.delete_key path (files context)
        else files context in
      (json_ BSuccess,
       <[context_id := {| created := created context;
                          files := files';
                          repoInfo := repoInfo context |}]> contextStore)
  end.

(** [app.get('/v1/get_context')] *)
Definition get_context (context_id : string) (contextStore : gmap string Context)
  : Response :=
  match contextStore !! context_id with
  | None => status_json 404 (BError "Context not found")
  | Some context =>
      json_ (BContext ((fun kv : string * FileEntry => (kv.1, content kv.2))
                         <$> JsObject.entries (files context))
               (repoInfo context))
  end.

(** [.map((line, idx) => ({ line: idx + 1, content: line }))] from index [i] *)
Fixpoint number_lines (i : nat) (lines : list string) : list Match :=
  match lines with
  | [] => []
  | l :: rest => {| line := i + 1; m_content := l |} :: number_lines (S i) rest
  end.

Definition search_file (query : string) (kv : string * FileEntry) : list FileMatches :=
  if includes (content kv.2) query
  then [ {| fm_path := kv.1;
            matches :=
              List.filter (fun item => includes (m_content item) query)
                (number_lines 0 (split_lines (content kv.2))) |} ]
  else [].

(** [app.post('/v1/search')] *)
Definition search (context_id query : string) (contextStore : gmap string Context)
  : Response :=
  match contextStore !! context_id with
  | None => status_json 404 (BError "Context not found")
  | Some context =>
      json_ (BSearch (concat (search_file query <$> JsObject.entries (files context))))
  end.

(** [24 * 60 * 60 * 1000] and the period of the timer, [60 * 60 * 1000] *)
Definition RETENTION_MS : Z := 24 * 60 * 60 * 1000.
Definition CLEANUP_PERIOD_MS : Z := 60 * 60 * 1000.

(** The callback of [setInterval]: one pass over [contextStore.entries()]. *)
Definition cleanup (now : Z) (contextStore : gmap string Context)
  : gmap string Context :=
  filter (fun kv => ¬ (now - created kv.2 > RETENTION_MS)) contextStore.

(** What happens to the store over time: the requests that write to it
    and the ticks of the cleanup timer, each with its clock reading. *)
Inductive Event :=
| OnInit (now : Z) (rnd : string)
| OnAddFile (now : Z) (context_id path content : string) (repo branch : option string)
| OnRemoveFile (now : Z) (context_id path : string)
| OnCleanup (now : Z).

Definition time_of (e : Event) : Z :=
  match e with
  | OnInit now _ | OnAddFile now _ _ _ _ _ | OnRemoveFile now _ _ | OnCleanup now => now
  end.

Definition step (e : Event) (contextStore : gmap string Context) : gmap string Context :=
  match e with
  | OnInit now rnd => (init now rnd contextStore).2
  | OnAddFile now c p v r b => (add_file now c p v r b contextStore).2
  | OnRemoveFile _ c p => (remove_file c p contextStore).2
  | OnCleanup now => cleanup now contextStore
  end.

Definition run (es : list Event) (contextStore : gmap string Context)
  : gmap string Context :=
  fold_left (fun st e => step e st) es contextStore.

(** The event creates the context [id] (an init that draws this id). *)
Definition creates (e : Event) (id : string) : Prop :=
  match e with
  | OnInit now rnd => new_context_id now rnd = id
  | _ => False
  end.

End ServerJs.

(** ** Requests and backends used as examples *)

Module Scenario.
Import Octokit.

Definition addFile_body (context_id path content : string) : json :=
  JObj [ ("context_id", JStr context_id); ("path", JStr path); ("content", JStr content) ].

Definition file_json (f : string * string) : json :=
  JObj [ ("path", JStr f.1); ("content", JStr f.2) ].

Definition pushFiles_body (repoName : string) (files : list (string * string))
    (message : string) : json :=
  JObj [ ("repoName", JStr repoName);
         ("files", JArr (file_json <$> files));
         ("message", JStr message) ].

Definition commit_body (repoName path content message : string) : json :=
  JObj [ ("repoName", JStr repoName); ("path", JStr path);
         ("content", JStr content); ("message", JStr message) ].

(** A repository at head [h0] that accepts every call. *)
Definition steady_reply (X : Type) (c : Call X) : RequestError + X :=
  match c in Call X return RequestError + X with
  | repos_get _ _ => inr tt
  | git_getRef _ _ _ => inr "h0"
  | git_getCommit _ _ s => inr {| cd_sha := s; cd_tree_sha := "t0" |}
  | git_createBlob _ _ content _ => inr ("blob-" ++ content)
  | git_createTree _ _ _ _ => inr "t1"
  | git_createCommit _ _ m _ _ =>
      inr {| nc_sha := "c1"; nc_message := m; nc_html_url := "https://example/c1" |}
  | git_updateRef _ _ _ _ => inr tt
  end.

Definition steady : octokit_backend :=
  {| world := unit; reply := fun X c w => (steady_reply X c, w) |}.

(** The same repository, the state being the head of the branch.  While
    the handler creates its tree another writer moves the head to [h1];
    the backend then refuses the update of the ref, which is no longer a
    fast-forward. *)
Definition racing_reply (X : Type) (c : Call X) (head : string)
  : (RequestError + X) * string :=
  match c in Call X return (RequestError + X) * string with
  | git_getRef _ _ _ => (inr head, head)
  | git_createTree _ _ _ _ => (inr "t1", "h1")
  | git_updateRef _ _ _ sha =>
      if String.eqb head "h0" then (inr tt, sha)
      else (inl {| err_status := Some 422;
                   err_message := "Update is not a fast forward" |}, head)
  | c' => (steady_reply _ c', head)
  end.

Definition racing : octokit_backend :=
  {| world := string; reply := racing_reply |}.

(** A backend that is down when the tree is created. *)
Definition no_tree_reply (X : Type) (c : Call X) : RequestError + X :=
  match c in Call X return RequestError + X with
  | git_createTree _ _ _ _ =>
      inl {| err_status := Some 502; err_message := "Bad Gateway" |}
  | c' => steady_reply _ c'
  end.

Definition no_tree : octokit_backend :=
  {| world := unit; reply := fun X c w => (no_tree_reply X c, w) |}.

(** A context with two files, and its counterpart on the plain server. *)
Definition ctx0 : string := new_context_id 0 "abc".

Definition sample_store : gmap string Part000.Context :=
  let s0 := (Part000.init 0 "abc" ∅).2 in
  let s1 :=
    (Part000.add_file 1
       (addFile_body ctx0 "a.txt" (JsString.join_lines ["Hello"; "say hello"; "bye"]))
       s0).2 in
  (Part000.add_file 2 (addFile_body ctx0 "b.txt" "nothing here") s1).2.

Definition plain_store : gmap string ServerJs.Context :=
  let s0 := (ServerJs.init 0 "abc" ∅).2 in
  let s1 :=
    (ServerJs.add_file 1 ctx0 "a.txt" (JsString.join_lines ["Hello"; "say hello"; "bye"])
       None None s0).2 in
  (ServerJs.add_file 2 ctx0 "b.txt" "nothing here" None None s1).2.

End Scenario.

(** How a handler ran: its outcome and the calls it issued. *)
Definition outcome {A : Type} (B : Octokit.octokit_backend) (p : Octokit.Prog A)
    (w : Octokit.world B) : Octokit.RequestError + A :=
  (Octokit.run B p w).1.1.

Definition trace {A : Type} (B : Octokit.octokit_backend) (p : Octokit.Prog A)
    (w : Octokit.world B) : list Octokit.Event :=
  (Octokit.run B p w).2.

(** The calls of one commit attempt, as the commit routes can issue them:
    either the ref is never updated, or the update of the ref is the last
    call, every call before it was accepted, its arguments are the owner,
    the repository, the branch ref and the sha that [createCommit] returned,
    and a rejected update is answered with status 500 and [fail]. *)
Definition commit_attempt (OWNER repoName branch fail : string)
    (out : Octokit.RequestError + Part000.Response) (tr : list Octokit.Event) : Prop :=
  Forall (fun e => Octokit.is_updateRef e = false) tr
  \/ exists tr0 nc m t ps r,
      tr = (tr0 ++ [Octokit.Ev
                      (Octokit.git_updateRef OWNER repoName ("heads/" ++ branch)
                         (Octokit.nc_sha nc)) r])%list
      /\ Forall (fun e => Octokit.rejected e = false /\ Octokit.is_updateRef e = false) tr0
      /\ In (Octokit.Ev (Octokit.git_createCommit OWNER repoName m t ps) (inr nc)) tr0
      /\ (forall err, r = inl err ->
            out = inr (Part000.status_json 500
                         (Part000.BError fail (Some (Octokit.err_message err)))))
      /\ (forall u, r = inr u -> exists b, out = inr (Part000.json_ b)).

Definition is_ok {A : Type} (r : Octokit.RequestError + A) : bool :=
  match r with
  | inl _ => false
  | inr _ => true
  end.

(** [q] occurs in [l], case aside. *)
Definition contains_ci (q l : string) : Prop :=
  exists a b, JsString.toLowerCase l = (a ++ JsString.toLowerCase q ++ b)%string.

(** The accepted request for the blob of a file, and the tree entry made
    of its reply. *)
Definition blob_event (OWNER repoName : string) (f : string * string) (sha : string)
  : Octokit.Event :=
  Octokit.Ev (Octokit.git_createBlob OWNER repoName (encodeContent f.2) "base64") (inr sha).

Definition blob_entry (f : string * string) (sha : string) : Octokit.TreeEntry :=
  {| Octokit.te_path := f.1; Octokit.te_mode := "100644";
     Octokit.te_type := "blob"; Octokit.te_sha := sha |}.

(** An optional string field of a body, as a Joi string admits it: absent,
    or a string that is not empty. *)
Definition optional_string (v : option json) : bool :=
  match v with
  | None => true
  | Some (JStr s) => truthy s
  | Some _ => false
  end.

(** The branch that a request of the commit routes names: its [branch]
    when it has one, [main] otherwise. *)
Definition requested_branch (body : json) : string :=
  match prop "branch" body with
  | Some (JStr b) => b
  | _ => "main"
  end.

(** A field of a body that is a string and is not empty. *)
Definition nonempty_string (v : option json) : bool :=
  match v with
  | Some (JStr s) => truthy s
  | _ => false
  end.

(** The keys that the schema of [add_file] declares. *)
Definition addFile_keys : list string :=
  ["context_id"; "path"; "content"; "repo"; "branch"].

(** ** [src/unnamed/part_000]: commit messages *)

Module CommitMessage.
Import Part000.

(** Truthiness of a parsed JSON value. *)
Definition json_truthy (v : json) : bool :=
  match v with
  | JNull => false
  | JBool b => b
  | JNum n => negb (n =? 0)
  | JStr s => truthy s
  | JArr _ | JObj _ => true
  end.

(** The numbers of the value print in plain decimal with all their
    digits: they are integers of magnitude below [2^53].  The statements
    about printed values carry this as a hypothesis. *)
Fixpoint safe_integers (v : json) : bool :=
  match v with
  | JNum n => Z.abs n <? 2 ^ 53
  | JArr items => forallb safe_integers items
  | JObj fields => forallb (fun kv => match kv with (_, x) => safe_integers x end) fields
  | _ => true
  end.

(** The strings, when none of the conversions threw. *)
Fixpoint all_printed (l : list (option string)) : option (list string) :=
  match l with
  | [] => Some []
  | None :: _ => None
  | Some x :: rest =>
      match all_printed rest with
      | Some xs => Some (x :: xs)
      | None => None
      end
  end.

(** An object parsed from JSON has an own property [toString]; its value,
    being JSON, is not a function. *)
Definition has_own_toString (fields : list (string * json)) : bool :=
  existsb (fun kv => String.eqb kv.1 "toString") fields.

(** [String(v)], as a template literal applies it to a parsed JSON
    value; [None] when the conversion throws a [TypeError].  An array
    prints its items joined by commas, with [null] items empty.  An object
    prints as [[object Object]] through [Object.prototype.toString]; with
    an own property [toString], which is not callable, the conversion finds
    no primitive and throws. *)
Fixpoint toString (v : json) : option string :=
  match v with
  | JNull => Some "null"
  | JBool true => Some "true"
  | JBool false => Some "false"
  | JNum n => Some (decimal n)
  | JStr s => Some s
  | JArr items =>
      match all_printed
              (map (fun x => match x with
                             | JNull => Some EmptyString
                             | _ => toString x
                             end) items) with
      | Some printed => Some (String.concat "," printed)
      | None => None
      end
  | JObj fields => if has_own_toString fields then None else Some "[object Object]"
  end.

(** [`${v}`] for a value that may be [undefined] *)
Definition template (v : option json) : option string :=
  match v with
  | None => Some "undefined"
  | Some x => toString x
  end.

(** The item of a [join]: [null] prints as the empty string. *)
Definition join_item (x : json) : option string :=
  match x with
  | JNull => Some EmptyString
  | _ => toString x
  end.

(** [names.join(sep)] *)
Definition join (sep : string) (names : list json) : option string :=
  match all_printed (join_item <$> names) with
  | Some printed => Some (String.concat sep printed)
  | None => None
  end.

(** [files.length], printed *)
Definition count (A : Type) (l : list A) : string := decimal (Z.of_nat (length l)).
Arguments count {A} l.

(** [generateCommitMessage(files)].  Its one caller passes objects
    [{ path: name }]; [files] is the list of their [path] values. *)
Definition generateCommitMessage (files : list json) : option string :=
  if (length files =? 1)%nat then
    match template (head files) with
    | Some name => Some ("Update " ++ name)
    | None => None
    end
  else if (length files <=? 3)%nat then
    match join ", " files with
    | Some names => Some ("Update " ++ names)
    | None => None
    end
  else Some ("Update " ++ count files ++ " files").

(** [f.path || f]; reading a property of [null] throws a [TypeError]. *)
Definition name_of (f : json) : option json :=
  match f with
  | JNull => None
  | _ =>
      match prop "path" f with
      | Some p => Some (if json_truthy p then p else f)
      | None => Some f
      end
  end.

(** [files.map(f => f.path || f)]: the names, or [None] when an item throws. *)
Fixpoint fileNames (files : list json) : option (list json) :=
  match files with
  | [] => Some []
  | f :: rest =>
      match name_of f with
      | None => None
      | Some n =>
          match fileNames rest with
          | None => None
          | Some ns => Some (n :: ns)
          end
      end
  end.

(** [err.message] of the two [TypeError]s (V8 of Node 18) *)
Definition null_path_message : string := "Cannot read properties of null (reading 'path')".
Definition primitive_message : string := "Cannot convert object to primitive value".

Inductive Body :=
| BError (error : string) (details : option string)
| BMessage (message : string) (type : json) (files : list json)
    (suggestions : list string).

Record Response := { status : Z; body : Body }.

Definition json_ (b : Body) : Response := {| status := 200; body := b |}.
Definition status_json (n : Z) (b : Body) : Response := {| status := n; body := b |}.

(** [type === label], the comparison of a [case] *)
Definition is_case (type : json) (label : string) : bool :=
  match type with
  | JStr t => String.eqb t label
  | _ => false
  end.

(** [`${prefix}${fileNames[0]}`] *)
Definition with_first (prefix : string) (names : list json) : option string :=
  match template (head names) with
  | Some name => Some (prefix ++ name)
  | None => None
  end.

(** The message of the [switch (type)] *)
Definition typed_message (type : json) (files names : list json) : option string :=
  let one := (length files =? 1)%nat in
  if is_case type "feat" then
    if one then with_first "feat: add " names
    else Some ("feat: add " ++ count files ++ " new files")
  else if is_case type "fix" then
    if one then with_first "fix: resolve issue in " names
    else Some ("fix: resolve issues in " ++ count files ++ " files")
  else if is_case type "docs" then
    if one then with_first "docs: update " names
    else Some "docs: update documentation"
  else if is_case type "refactor" then
    if one then with_first "refactor: improve " names
    else Some "refactor: improve code structure"
  else generateCommitMessage names.

(** The [suggestions] of the answer *)
Definition suggestions (type : json) (files names : list json) : option (list string) :=
  match generateCommitMessage names, toString type,
        (if (length files =? 1)%nat then template (head names)
         else Some (count files ++ " files")) with
  | Some first, Some t, Some subject =>
      Some [ first;
             t ++ ": " ++ subject;
             "Update project files (" ++ count files ++ " files modified)" ]
  | _, _, _ => None
  end.

(** [app.post('/v1/generate_commit_message')].  The handler is
    synchronous: what it throws reaches the error-handling middleware,
    which answers 500 with the message of the error. *)
Definition generate_commit_message (body : json) : Response :=
  let type := default (JStr "update") (prop "type" body) in
  match prop "files" body with
  | Some (JArr files) =>
      match fileNames files with
      | None =>
          status_json 500 (BError "Internal server error" (Some null_path_message))
      | Some names =>
          match typed_message type files names, suggestions type files names with
          | Some message, Some suggested =>
              json_ (BMessage message type names suggested)
          | _, _ =>
              status_json 500 (BError "Internal server error" (Some primitive_message))
          end
      end
  | _ => status_json 400 (BError "files array required" None)
  end.

End CommitMessage.

(** ** Branches and repository files, on both servers *)

Module Github.
Import Octokit.

(** What the handlers read of an item of [repos.getContent]. *)
Record ContentItem :=
  { ci_type : string; ci_path : string; ci_size : Z; ci_sha : string;
    ci_content : string }.

(** [response.data]: the listing of a directory, or one item. *)
Inductive ContentData :=
| Listing (items : list ContentItem)
| Single (item : ContentItem).

(** The calls of these routes, with the arguments the sources pass and
    the part of the reply they read. *)
Inductive Call : Type -> Type :=
| repos_get (owner repo : string) : Call unit
| git_getRef (owner repo ref : string) : Call string
| git_createRef (owner repo ref sha : string) : Call json
| git_deleteRef (owner repo ref : string) : Call unit
| repos_getContent (owner repo path ref : string) : Call ContentData
| repos_createOrUpdateFileContents (owner repo path message content branch : string)
    (sha : option string) : Call json.

(** An [async] body over these calls. *)
Inductive Prog (A : Type) : Type :=
| Ret (a : A)
| Throw (e : RequestError)
| Do {X : Type} (c : Call X) (k : RequestError + X -> Prog A).
Arguments Ret {A} a.
Arguments Throw {A} e.
Arguments Do {A X} c k.

Fixpoint bind {A B : Type} (p : Prog A) (f : A -> Prog B) : Prog B :=
  match p with
  | Ret a => f a
  | Throw e => Throw e
  | Do c k => Do c (fun r => bind (k r) f)
  end.

(** [await c] *)
Definition call {X : Type} (c : Call X) : Prog X :=
  Do c (fun r => match r with inl e => Throw e | inr x => Ret x end).

(** [try { p } catch (err) { h err }] *)
Fixpoint catch {A : Type} (p : Prog A) (h : RequestError -> Prog A) : Prog A :=
  match p with
  | Ret a => Ret a
  | Throw e => h e
  | Do c k => Do c (fun r => catch (k r) h)
  end.

Inductive Event : Type :=
| Ev : forall X : Type, Call X -> RequestError + X -> Event.
Arguments Ev {X} c r.

Record backend :=
  { world : Type;
    reply : forall X : Type, Call X -> world -> (RequestError + X) * world }.

Fixpoint run {A : Type} (B : backend) (p : Prog A) (w : world B)
  : (RequestError + A) * world B * list Event :=
  match p with
  | Ret a => (inr a, w, [])
  | Throw e => (inl e, w, [])
  | Do c k =>
      let '(r, w1) := reply B _ c w in
      let '(out, w2, tr) := run B (k r) w1 in
      (out, w2, Ev c r :: tr)
  end.

Definition rejected (e : Event) : bool :=
  match e with
  | Ev _ (inl _) => true
  | Ev _ (inr _) => false
  end.

Definition is_deleteRef (e : Event) : bool :=
  match e with
  | Ev (git_deleteRef _ _ _) _ => true
  | Ev _ _ => false
  end.

Definition is_createRef (e : Event) : bool :=
  match e with
  | Ev (git_createRef _ _ _ _) _ => true
  | Ev _ _ => false
  end.

Definition is_getContent (e : Event) : bool :=
  match e with
  | Ev (repos_getContent _ _ _ _) _ => true
  | Ev _ _ => false
  end.

(** *** Responses *)

(** An entry of the [result] of [github_files]: a file with its decoded
    content, a file whose content could not be read ([error: 'Failed to
    read content']), or a directory ([type: 'directory', size: 0]). *)
Inductive FileResult :=
| FileContent (path content : string) (size : Z) (sha : string)
| FileError (path : string) (size : Z) (sha : string)
| Directory (path : string).

Definition result_path (r : FileResult) : string :=
  match r with
  | FileContent p _ _ _ | FileError p _ _ | Directory p => p
  end.

Inductive Body :=
| BError (error : string) (details : option string)
| BValidation (details : Joi.error)
| BSuccess (message : string)
| BFiles (files : list FileResult) (repo branch path : string)
| BMessage (message : string)
| BPlainFiles (files : list (string * string))
| BData (data : json).

Record Response := { status : Z; body : Body }.

Definition json_ (b : Body) : Response := {| status := 200; body := b |}.
Definition status_json (n : Z) (b : Body) : Response := {| status := n; body := b |}.

(** [data.content] and [data.sha] of a reply: [undefined] on a listing. *)
Definition content_of (d : ContentData) : option string :=
  match d with
  | Single item => Some (ci_content item)
  | Listing _ => None
  end.


(** [Array.isArray(response.data) ? response.data : [response.data]] *)
Definition fileItems (d : ContentData) : list ContentItem :=
  match d with
  | Listing items => items
  | Single item => [item]
  end.

(** The [TypeError] of [Buffer.from(undefined, 'base64')] (Node 18) *)
Definition buffer_from_undefined : RequestError :=
  {| err_status := None;
     err_message :=
       "The first argument must be of type string or an instance of Buffer, ArrayBuffer, or Array or an Array-like Object. Received undefined" |}.

(** *** [src/unnamed/part_000] *)

Definition schemas_createBranch : Joi.schema :=
  Joi.object
    [ ("repoName", Joi.required Joi.string);
      ("newBranchName", Joi.required Joi.string);
      ("fromBranch", Joi.default "main" Joi.string) ].

Definition schemas_deleteBranch : Joi.schema :=
  Joi.object
    [ ("repoName", Joi.required Joi.string);
      ("branchName", Joi.required Joi.string) ].

Definition schemas_githubFiles : Joi.schema :=
  Joi.object
    [ ("repo", Joi.required Joi.string);
      ("branch", Joi.default "main" Joi.string);
      ("path", Joi.default "" Joi.string) ].

Section Routes.
(** [const OWNER = process.env.GITHUB_USERNAME || 'MostafaSwaisy'] *)
Variable OWNER : string.

(** [async function checkRepoExists(repoName)] *)
Definition checkRepoExists (repoName : string) : Prog bool :=
  Do (repos_get OWNER repoName)
    (fun r =>
       match r with
       | inr _ => Ret true
       | inl err =>
           if bool_decide (err_status err = Some 404) then Ret false else Throw err
       end).

(** [app.post('/branch', validateInput(schemas.createBranch))] *)
Definition create_branch (body : json) : Prog Response :=
  match Part000.validateInput schemas_createBranch body with
  | inl e => Ret (status_json 400 (BValidation e))
  | inr value =>
      let repoName := str_of (prop "repoName" value) in
      let newBranchName := str_of (prop "newBranchName" value) in
      let fromBranch := str_of (prop "fromBranch" value) in
      catch
        (bind (checkRepoExists repoName) (fun exists_ =>
         if negb exists_
         then Ret (status_json 404 (BError "Repository not found" None))
         else
           bind (call (git_getRef OWNER repoName ("heads/" ++ fromBranch))) (fun baseRef =>
           bind (call (git_createRef OWNER repoName ("refs/heads/" ++ newBranchName)
                         baseRef)) (fun _ =>
           Ret (json_ (BSuccess ("Branch " ++ newBranchName ++ " created from "
                                 ++ fromBranch)))))))
        (fun err =>
           if bool_decide (err_status err = Some 422)
           then Ret (status_json 422
                       (BError ("Branch " ++ newBranchName ++ " already exists") None))
           else Ret (status_json 500
                       (BError "Failed to create branch" (Some (err_message err)))))
  end.

(** [app.delete('/branch', validateInput(schemas.deleteBranch))] *)
Definition delete_branch (body : json) : Prog Response :=
  match Part000.validateInput schemas_deleteBranch body with
  | inl e => Ret (status_json 400 (BValidation e))
  | inr value =>
      let repoName := str_of (prop "repoName" value) in
      let branchName := str_of (prop "branchName" value) in
      catch
        (bind (checkRepoExists repoName) (fun exists_ =>
         if negb exists_
         then Ret (status_json 404 (BError "Repository not found" None))
         else if String.eqb branchName "main" || String.eqb branchName "master"
         then Ret (status_json 400 (BError "Cannot delete main or master branch" None))
         else
           bind (call (git_deleteRef OWNER repoName ("heads/" ++ branchName))) (fun _ =>
           Ret (json_ (BSuccess ("Branch " ++ branchName ++ " deleted"))))))
        (fun err =>
           if bool_decide (err_status err = Some 422)
              || bool_decide (err_status err = Some 404)
           then Ret (status_json 404
                       (BError ("Branch " ++ branchName ++ " not found") None))
           else Ret (status_json 500
                       (BError "Failed to delete branch" (Some (err_message err)))))
  end.

(** The loop [for (const item of fileItems)] of [github_files]: a file
    whose content cannot be read leaves an error entry and the loop goes
    on; an item that is neither a file nor a directory is skipped. *)
Fixpoint read_items (repo branch : string) (items : list ContentItem)
  : Prog (list FileResult) :=
  match items with
  | [] => Ret []
  | item :: rest =>
      if String.eqb (ci_type item) "file" then
        bind
          (catch
             (bind (call (repos_getContent OWNER repo (ci_path item) branch))
                (fun fileContent =>
                   match content_of fileContent with
                   | Some c =>
                       Ret (FileContent (ci_path item) (decodeContent c) (ci_size item)
                              (ci_sha item))
                   | None => Throw buffer_from_undefined
                   end))
             (fun _ => Ret (FileError (ci_path item) (ci_size item) (ci_sha item))))
          (fun entry =>
             bind (read_items repo branch rest) (fun result => Ret (entry :: result)))
      else if String.eqb (ci_type item) "dir" then
        bind (read_items repo branch rest)
          (fun result => Ret (Directory (ci_path item) :: result))
      else read_items repo branch rest
  end.

(** [app.post('/v1/github_files', validateInput(schemas.githubFiles))] *)
Definition github_files (body : json) : Prog Response :=
  match Part000.validateInput schemas_githubFiles body with
  | inl e => Ret (status_json 400 (BValidation e))
  | inr value =>
      let repo := str_of (prop "repo" value) in
      let branch := str_of (prop "branch" value) in
      let path := str_of (prop "path" value) in
      catch
        (bind (checkRepoExists repo) (fun exists_ =>
         if negb exists_
         then Ret (status_json 404
                     (BError ("Repository " ++ repo ++ " not found") None))
         else
           bind (call (repos_getContent OWNER repo path branch)) (fun response =>
           bind (read_items repo branch (fileItems response)) (fun result =>
           Ret (json_ (BFiles result repo branch
                         (if truthy path then path else "root")))))))
        (fun err =>
           Ret (status_json 500
                  (BError "Failed to get files from repository"
                     (Some (err_message err)))))
  end.

(** *** [src/server.js] *)

(** [app.delete('/branch')], fields being strings *)
Definition plain_delete_branch (repoName branchName : string) : Prog Response :=
  catch
    (bind (call (git_deleteRef OWNER repoName ("heads/" ++ branchName))) (fun _ =>
     Ret (json_ (BMessage ("Branch " ++ branchName ++ " deleted.")))))
    (fun err => Ret (status_json 500 (BError (err_message err) None))).


(** The loop of the plain [github_files]: files only, and the first
    content that cannot be read ends the handler. *)
Fixpoint plain_read_items (repo branch : string) (items : list ContentItem)
  : Prog (list (string * string)) :=
  match items with
  | [] => Ret []
  | item :: rest =>
      if String.eqb (ci_type item) "file" then
        bind (call (repos_getContent OWNER repo (ci_path item) branch)) (fun content =>
        match content_of content with
        | Some c =>
            bind (plain_read_items repo branch rest)
              (fun result => Ret ((ci_path item, decodeContent c) :: result))
        | None => Throw buffer_from_undefined
        end)
      else plain_read_items repo branch rest
  end.

(** [app.post('/v1/github_files')] of the plain server; [branch] is
    [main] and [path] is the empty string when the body has none. *)
Definition plain_github_files (repo : string) (branch path : option string)
  : Prog Response :=
  let branch := default "main" branch in
  let path := default EmptyString path in
  catch
    (bind (call (repos_getContent OWNER repo path branch)) (fun files =>
     bind (plain_read_items repo branch (fileItems files)) (fun result =>
     Ret (json_ (BPlainFiles result)))))
    (fun err => Ret (status_json 500 (BError (err_message err) None))).

End Routes.

(** How a handler ran. *)
Definition outcome {A : Type} (B : backend) (p : Prog A) (w : world B)
  : RequestError + A := (run B p w).1.1.

Definition trace {A : Type} (B : backend) (p : Prog A) (w : world B) : list Event :=
  (run B p w).2.

End Github.

(** The items that [github_files] lists, and the entry made of one. *)
Definition is_file (item : Github.ContentItem) : bool :=
  String.eqb (Github.ci_type item) "file".

Definition is_listed (item : Github.ContentItem) : bool :=
  is_file item || String.eqb (Github.ci_type item) "dir".

(** A file gives an entry with its path, size and sha, with or without a
    content; a directory gives an entry with its path. *)
Definition entry_of (item : Github.ContentItem) (entry : Github.FileResult) : Prop :=
  match entry with
  | Github.FileContent p _ size sha | Github.FileError p size sha =>
      is_file item = true
      /\ p = Github.ci_path item /\ size = Github.ci_size item
      /\ sha = Github.ci_sha item
  | Github.Directory p => is_file item = false /\ p = Github.ci_path item
  end.

(** The requests that write to the context store of the validated
    server, and the store after a sequence of them. *)
Inductive Request :=
| Init (now : Z) (rnd : string)
| AddFile (now : Z) (body : json)
| RemoveFile (context_id path : option string).

Definition serve (r : Request) (contextStore : gmap string Part000.Context)
  : gmap string Part000.Context :=
  match r with
  | Init now rnd => (Part000.init now rnd contextStore).2
  | AddFile now body => (Part000.add_file now body contextStore).2
  | RemoveFile context_id path => (Part000.remove_file context_id path contextStore).2
  end.

Definition serve_all (rs : list Request) (contextStore : gmap string Part000.Context)
  : gmap string Part000.Context :=
  fold_left (fun st r => serve r st) rs contextStore.

(** Sample requests and stores for the context routes. *)
Module Samples.

(** An [add_file] body that names a repository and no branch. *)
Definition addFile_repo_body (context_id path content repo : string) : json :=
  JObj [ ("context_id", JStr context_id); ("path", JStr path);
         ("content", JStr content); ("repo", JStr repo) ].

(** The validated server after one [init] at time 0. *)
Definition fresh_store : gmap string Part000.Context := (Part000.init 0 "abc" ∅).2.

(** A [generate_commit_message] body: a file given as an object, one
    given by its name, and a type. *)
Definition message_body : json :=
  JObj [ ("files", JArr [ JObj [ ("path", JStr "a.js") ]; JStr "b.js" ]);
         ("type", JStr "fix") ].

(** A [push_files] body, with or without a branch. *)
Definition pushFiles_body_on (repoName : string) (branch : option string)
    (files : list (string * string)) (message : string) : json :=
  JObj ([ ("repoName", JStr repoName) ]
        ++ match branch with
           | Some b => [ ("branch", JStr b) ]
           | None => []
           end
        ++ [ ("files", JArr (Scenario.file_json <$> files));
             ("message", JStr message) ]).

(** A [github_files] body that names a repository only, and what
    validation makes of it. *)
Definition githubFiles_body (repo : string) : json := JObj [ ("repo", JStr repo) ].

Definition githubFiles_value (repo : string) : json :=
  JObj [ ("repo", JStr repo); ("branch", JStr "main"); ("path", JStr "") ].

(** The root of a repository: two files, a directory and a symbolic link. *)
Definition root_listing : list Github.ContentItem :=
  [ {| Github.ci_type := "file"; Github.ci_path := "a.txt"; Github.ci_size := 5;
       Github.ci_sha := "s1"; Github.ci_content := "" |};
    {| Github.ci_type := "dir"; Github.ci_path := "src"; Github.ci_size := 0;
       Github.ci_sha := "s2"; Github.ci_content := "" |};
    {| Github.ci_type := "file"; Github.ci_path := "b.bin"; Github.ci_size := 9;
       Github.ci_sha := "s3"; Github.ci_content := "" |};
    {| Github.ci_type := "symlink"; Github.ci_path := "l"; Github.ci_size := 1;
       Github.ci_sha := "s4"; Github.ci_content := "" |} ].

(** A repository that lists its root and serves [a.txt], and fails on
    every other read. *)
Definition flaky_reply (X : Type) (c : Github.Call X) : Octokit.RequestError + X :=
  match c in Github.Call X return Octokit.RequestError + X with
  | Github.repos_get _ _ => inr tt
  | Github.git_getRef _ _ _ => inr "h0"
  | Github.git_createRef _ _ _ _ => inr JNull
  | Github.git_deleteRef _ _ _ => inr tt
  | Github.repos_getContent _ _ path _ =>
      if String.eqb path "" then inr (Github.Listing root_listing)
      else if String.eqb path "a.txt"
      then inr (Github.Single
                  {| Github.ci_type := "file"; Github.ci_path := "a.txt";
                     Github.ci_size := 5; Github.ci_sha := "s1";
                     Github.ci_content := encodeContent "hello" |})
      else inl {| Octokit.err_status := Some 500;
                  Octokit.err_message := "Server Error" |}
  | Github.repos_createOrUpdateFileContents _ _ _ _ _ _ _ => inr JNull
  end.

Definition flaky : Github.backend :=
  {| Github.world := unit; Github.reply := fun X c w => (flaky_reply X c, w) |}.

End Samples.

(** ** Theorems *)

Local Open Scope list_scope.

Section StringFacts.
Import JsString.

Local Ltac div_lia := zify; Z.to_euclidean_division_equations; lia.

Lemma string_ind3 (P : string -> Prop) :
  P EmptyString ->
  (forall a, P (String a EmptyString)) ->
  (forall a b, P (String a (String b EmptyString))) ->
  (forall a b c r, P r -> P (String a (String b (String c r)))) ->
  forall s, P s.
Proof.
  intros H0 H1 H2 H3.
  fix IH 1. intros [|a [|b [|c r]]].
  - exact H0.
  - exact (H1 a).
  - exact (H2 a b).
  - exact (H3 a b c r (IH r)).
Qed.

Lemma sextet_char_inv (i : N) :
  (i < 64)%N -> Base64.sextet_of_char (Base64.char_of_sextet i) = Some i.
Proof.
  intros Hi.
  assert (Hall : forallb (fun k => match Base64.sextet_of_char (Base64.char_of_sextet (N.of_nat k)) with
                                   | Some j => N.eqb j (N.of_nat k) | None => false end)
                   (seq 0 64) = true) by (vm_compute; reflexivity).
  rewrite forallb_forall in Hall.
  specialize (Hall (N.to_nat i)).
  rewrite N2Nat.id in Hall.
  assert (Hin : In (N.to_nat i) (seq 0 64)) by (apply in_seq; lia).
  specialize (Hall Hin).
  destruct (Base64.sextet_of_char (Base64.char_of_sextet i)) as [j|]; [|discriminate].
  apply N.eqb_eq in Hall. congruence.
Qed.

Lemma pad_not_sextet : Base64.sextet_of_char Base64.pad = None.
Proof. reflexivity. Qed.

Lemma byte_bound (a : ascii) : (N_of_ascii a < 256)%N.
Proof. apply N_ascii_bounded. Qed.

Lemma sextets_byte1 (x y : N) :
  (y < 256)%N -> (x / 4 * 4 + (x mod 4 * 16 + y / 16) / 16 = x)%N.
Proof. intros. div_lia. Qed.

Lemma sextets_byte2 (x y z : N) :
  (y < 256)%N -> (z < 256)%N ->
  ((x mod 4 * 16 + y / 16) mod 16 * 16 + (y mod 16 * 4 + z / 64) / 4 = y)%N.
Proof. intros. div_lia. Qed.

Lemma sextets_byte3 (y z : N) :
  (z < 256)%N -> ((y mod 16 * 4 + z / 64) mod 4 * 64 + z mod 64 = z)%N.
Proof. intros. div_lia. Qed.

Lemma decode_encode (s : string) : Base64.decode (Base64.encode s) = s.
Proof.
  induction s as [|a|a b|a b c r IH] using string_ind3; cbn [Base64.encode Base64.decode].
  - reflexivity.
  - pose proof (byte_bound a).
    rewrite !sextet_char_inv, pad_not_sextet by div_lia.
    pose proof (sextets_byte1 (N_of_ascii a) 0) as E1.
    rewrite N.add_0_r in E1. rewrite E1 by lia.
    now rewrite ascii_N_embedding.
  - pose proof (byte_bound a). pose proof (byte_bound b).
    rewrite !sextet_char_inv, pad_not_sextet by div_lia.
    pose proof (sextets_byte2 (N_of_ascii a) (N_of_ascii b) 0) as E2.
    rewrite N.add_0_r in E2.
    rewrite sextets_byte1, E2 by lia.
    now rewrite !ascii_N_embedding.
  - pose proof (byte_bound a). pose proof (byte_bound b). pose proof (byte_bound c).
    rewrite !sextet_char_inv by div_lia. rewrite IH.
    rewrite sextets_byte1, sextets_byte2, sextets_byte3 by lia.
    now rewrite !ascii_N_embedding.
Qed.

End StringFacts.

(** *** Running a handler against a backend *)

Section RunFacts.
Import Octokit.
Variable B : octokit_backend.

Lemma run_bind {A C : Type} (p : Prog A) (f : A -> Prog C) (w : world B) :
  run B (bind p f) w =
    match run B p w with
    | (inl e, w1, t1) => (inl e, w1, t1)
    | (inr a, w1, t1) =>
        let '(o, w2, t2) := run B (f a) w1 in (o, w2, t1 ++ t2)
    end.
Proof.
  revert w. induction p as [a|e|X c k IH]; intros w; cbn.
  - destruct (run B (f a) w) as [[o w2] t2]. reflexivity.
  - reflexivity.
  - destruct (reply B X c w) as [r w1]. rewrite IH.
    destruct (run B (k r) w1) as [[[e|a] w2] t1]; [reflexivity|].
    destruct (run B (f a) w2) as [[o w3] t2]. reflexivity.
Qed.

Lemma run_catch {A : Type} (p : Prog A) (h : RequestError -> Prog A) (w : world B) :
  run B (catch p h) w =
    match run B p w with
    | (inl e, w1, t1) =>
        let '(o, w2, t2) := run B (h e) w1 in (o, w2, t1 ++ t2)
    | (inr a, w1, t1) => (inr a, w1, t1)
    end.
Proof.
  revert w. induction p as [a|e|X c k IH]; intros w; cbn.
  - reflexivity.
  - destruct (run B (h e) w) as [[o w2] t2]. reflexivity.
  - destruct (reply B X c w) as [r w1]. rewrite IH.
    destruct (run B (k r) w1) as [[[e|a] w2] t1]; [|reflexivity].
    destruct (run B (h e) w2) as [[o w3] t2]. reflexivity.
Qed.

Lemma run_call {X : Type} (c : Call X) (w : world B) :
  run B (call c) w =
    ((reply B X c w).1, (reply B X c w).2, [Ev c (reply B X c w).1]).
Proof.
  unfold call. cbn. destruct (reply B X c w) as [[e|x] w1]; reflexivity.
Qed.

End RunFacts.

(** *** The commit routes *)

Section CommitFacts.
Import Octokit Part000.
Variable B : octokit_backend.
Variable OWNER : string.

Lemma blob_promises_run (repoName : string) (files : list File) (w : world B) :
  exists settled w' tr,
    run B (blob_promises OWNER repoName files) w = (inr settled, w', tr)
    /\ Forall (fun e => is_updateRef e = false) tr
    /\ (forallb is_ok settled = true -> Forall (fun e => rejected e = false) tr).
Proof.
  revert w. induction files as [|file rest IH]; intros w; cbn.
  - exists [], w, []. repeat split; constructor.
  - destruct (reply B _ _ w) as [r w1]. rewrite run_bind.
    destruct (IH w1) as (settled & w' & tr & -> & Hno & Hok). cbn.
    rewrite app_nil_r.
    eexists _, _, _. split; [reflexivity|]. split.
    + constructor; [reflexivity|exact Hno].
    + cbn. intros Hall. apply andb_true_iff in Hall as [Hr Hs].
      constructor; [|auto]. destruct r; [discriminate|reflexivity].
Qed.

Lemma Promise_all_run {A : Type} (settled : list (RequestError + A)) (w : world B) :
  (exists e, run B (Promise_all settled) w = (inl e, w, []))
  \/ (exists vs, run B (Promise_all settled) w = (inr vs, w, [])
                 /\ forallb is_ok settled = true).
Proof.
  induction settled as [|[e|a] rest IH]; cbn.
  - right. eauto.
  - left. eauto.
  - rewrite run_bind. destruct IH as [[e ->]|(vs & -> & Hok)]; cbn; eauto.
Qed.

Local Ltac never_updates :=
  left; rewrite ?app_nil_r, ?Forall_cons, ?Forall_app, ?Forall_nil; repeat split; auto.

Local Ltac await :=
  cbn [run bind call catch negb];
  lazymatch goal with
  | |- context [reply B ?X ?c ?w] =>
      let r := fresh "r" in
      let w' := fresh "w" in
      destruct (reply B X c w) as [r w']
  end;
  cbn [run bind call catch negb].

Local Ltac accepted r := destruct r as [?err|r]; cbn; [solve [never_updates] |].

Lemma push_files_attempt_value (body value : json) (w : world B) :
  validateInput schemas_pushFiles body = inr value ->
  commit_attempt OWNER (str_of (prop "repoName" value)) (str_of (prop "branch" value))
    "Failed to push files"
    (outcome B (push_files OWNER body) w) (trace B (push_files OWNER body) w).
Proof.
  unfold outcome, trace, push_files. intros ->.
  cbv beta iota zeta.
  set (repoName := str_of (prop "repoName" value)).
  set (branch := str_of (prop "branch" value)).
  set (files := files_of (prop "files" value)).
  set (message := str_of (prop "message" value)).
  unfold checkRepoExists.
  await. destruct r as [err|[]]; cbn [run bind call catch negb].
  { destruct (bool_decide _); cbn; never_updates. }
  await. accepted r.
  await. accepted r0.
  rewrite run_catch, run_bind.
  destruct (blob_promises_run repoName files w2)
    as (settled & w4 & trb & -> & Hno & Hacc).
  rewrite run_bind.
  destruct (Promise_all_run settled w4) as [[err Hpa]|(blobs & Hpa & Hall)];
    rewrite Hpa; cbn [run bind call catch].
  { cbn. never_updates. }
  specialize (Hacc Hall).
  await. accepted r1.
  await. accepted r2.
  await.
  right.
  exists (Ev (repos_get OWNER repoName) (inr ())
          :: Ev (git_getRef OWNER repoName ("heads/" ++ branch)%string) (inr r)
          :: Ev (git_getCommit OWNER repoName r) (inr r0)
          :: trb
          ++ [Ev (git_createTree OWNER repoName (cd_tree_sha r0) blobs) (inr r1);
              Ev (git_createCommit OWNER repoName message r1 [cd_sha r0]) (inr r2)]),
    r2, message, r1, [cd_sha r0], r3.
  split; [|split; [|split; [|split]]].
  - destruct r3 as [err|[]]; cbn; rewrite ?app_nil_r, <- ?app_assoc; reflexivity.
  - rewrite !Forall_cons, Forall_app, !Forall_cons, Forall_nil.
    repeat split; auto.
    apply Forall_and. split; assumption.
  - right; right; right. apply in_app_iff. right. right. left. reflexivity.
  - intros err ->. reflexivity.
  - intros [] ->. eexists. reflexivity.
Qed.

Lemma push_files_attempt (body : json) (w : world B) :
  exists repoName branch,
    commit_attempt OWNER repoName branch "Failed to push files"
      (outcome B (push_files OWNER body) w) (trace B (push_files OWNER body) w).
Proof.
  destruct (validateInput schemas_pushFiles body) as [e|value] eqn:Hv.
  - exists "", "". left. unfold trace, push_files. rewrite Hv. constructor.
  - eexists _, _. apply push_files_attempt_value, Hv.
Qed.

Lemma commit_route_attempt_value (body value : json) (w : world B) :
  validateInput schemas_commit body = inr value ->
  commit_attempt OWNER (str_of (prop "repoName" value)) (str_of (prop "branch" value))
    "Failed to commit file"
    (outcome B (commit OWNER body) w) (trace B (commit OWNER body) w).
Proof.
  unfold outcome, trace, commit. intros ->.
  cbv beta iota zeta.
  set (repoName := str_of (prop "repoName" value)).
  set (branch := str_of (prop "branch" value)).
  set (path := str_of (prop "path" value)).
  set (content := str_of (prop "content" value)).
  set (message := str_of (prop "message" value)).
  unfold checkRepoExists.
  await. destruct r as [err|[]]; cbn [run bind call catch negb].
  { destruct (bool_decide _); cbn; never_updates. }
  await. accepted r.
  await. accepted r0.
  await. accepted r1.
  await. accepted r2.
  await. accepted r3.
  await.
  right.
  eexists [_; _; _; _; _; _], r3, message, r2, [r], r4.
  split; [|split; [|split; [|split]]].
  - destruct r4 as [err|[]]; cbn; reflexivity.
  - repeat constructor.
  - do 5 right. left. reflexivity.
  - intros err ->. reflexivity.
  - intros [] ->. eexists. reflexivity.
Qed.

Lemma commit_route_attempt (body : json) (w : world B) :
  exists repoName branch,
    commit_attempt OWNER repoName branch "Failed to commit file"
      (outcome B (commit OWNER body) w) (trace B (commit OWNER body) w).
Proof.
  destruct (validateInput schemas_commit body) as [e|value] eqn:Hv.
  - exists "", "". left. unfold trace, commit. rewrite Hv. constructor.
  - eexists _, _. apply commit_route_attempt_value, Hv.
Qed.

End CommitFacts.

Section AttemptFacts.
Import Octokit Part000.

Lemma updateRef_not_in (tr : list Event) (e : Event) :
  Forall (fun e' => is_updateRef e' = false) tr -> In e tr -> is_updateRef e = false.
Proof. rewrite Forall_forall. intros H Hin. apply H, list_elem_of_In, Hin. Qed.

Lemma attempt_failure_no_update (OWNER repoName branch fail : string)
    (out : RequestError + Response) (tr : list Event) (e : Event) :
  commit_attempt OWNER repoName branch fail out tr ->
  In e tr -> rejected e = true -> is_updateRef e = false ->
  Forall (fun e' => is_updateRef e' = false) tr.
Proof.
  intros [Hno|(tr0 & nc & m & t & ps & r & -> & Hacc & _)] Hin Hrej Hnot; [exact Hno|].
  exfalso. apply in_app_iff in Hin as [Hin|[<-|[]]].
  - rewrite Forall_forall in Hacc. apply list_elem_of_In, Hacc in Hin.
    destruct Hin as [Hin _]. congruence.
  - discriminate Hnot.
Qed.

End AttemptFacts.

(** C3.  In both commit routes, when a call other than the update of the
    ref is rejected (repository lookup, head, base commit, a blob, the tree
    or the commit), no call to [updateRef] is issued in that attempt. *)
Theorem failed_step_never_updates_ref
    (B : Octokit.octokit_backend) (OWNER : string) (body : json)
    (w : Octokit.world B) (p : Octokit.Prog Part000.Response) (e : Octokit.Event) :
  p = Part000.push_files OWNER body \/ p = Part000.commit OWNER body ->
  In e (trace B p w) ->
  Octokit.rejected e = true ->
  Octokit.is_updateRef e = false ->
  Forall (fun e' => Octokit.is_updateRef e' = false) (trace B p w).
Proof.
  intros [-> | ->] Hin Hrej Hnot.
  - destruct (push_files_attempt B OWNER body w) as (r & b & Hshape).
    eapply attempt_failure_no_update; eauto.
  - destruct (commit_route_attempt B OWNER body w) as (r & b & Hshape).
    eapply attempt_failure_no_update; eauto.
Qed.

Lemma failed_step_never_updates_ref_witness :
  Forall (fun e' => Octokit.is_updateRef e' = false)
    (trace Scenario.no_tree
       (Part000.commit "o" (Scenario.commit_body "r" "a.txt" "x" "m")) tt).
Proof.
  apply (failed_step_never_updates_ref Scenario.no_tree "o"
           (Scenario.commit_body "r" "a.txt" "x" "m") tt _
           (Octokit.Ev
              (Octokit.git_createTree "o" "r" "t0"
                 [ {| Octokit.te_path := "a.txt"; Octokit.te_mode := "100644";
                      Octokit.te_type := "blob"; Octokit.te_sha := "blob-eA==" |} ])
              (inl {| Octokit.err_status := Some 502;
                      Octokit.err_message := "Bad Gateway" |}))).
  - right. reflexivity.
  - vm_compute. do 4 right. left. reflexivity.
  - reflexivity.
  - reflexivity.
Defined.

(** C1, as stated, fails.  The push of one file starts at head [h0]; the
    head moves to [h1] before the ref is updated.  The update carries the
    owner, the repository, the ref and the new sha, not the head [h0] read
    in step 1, and its rejection by the backend is answered with status
    500, an upstream failure and not a conflict. *)
Lemma update_ref_carries_no_expected_sha :
  let p := Part000.push_files "o" (Scenario.pushFiles_body "r" [("a.txt", "1")] "m") in
  In (Octokit.Ev (Octokit.git_getRef "o" "r" "heads/main") (inr "h0"))
    (trace Scenario.racing p "h0")
  /\ (Octokit.run Scenario.racing p "h0").1.2 = "h1"
  /\ Octokit.event_args <$> last (trace Scenario.racing p "h0")
     = Some ["o"; "r"; "heads/main"; "c1"]
  /\ Octokit.is_updateRef <$> last (trace Scenario.racing p "h0") = Some true
  /\ ~ In "h0" ["o"; "r"; "heads/main"; "c1"]
  /\ outcome Scenario.racing p "h0"
     = inr (Part000.status_json 500
              (Part000.BError "Failed to push files"
                 (Some "Update is not a fast forward")))
  /\ kind_of_status 500 = Some Upstream.
Proof.
  cbv zeta. repeat split; try (vm_compute; reflexivity).
  - vm_compute. right. left. reflexivity.
  - cbn. intros [H|[H|[H|[H|[]]]]]; discriminate H.
Qed.

(** *** Request validation *)

Section JoiFacts.
Variable child : Joi.schema -> list Joi.seg -> option json -> Joi.error + option json.

Lemma known_rejects (at_ : list Joi.seg) (fields : list (string * json))
    (ks : list (string * Joi.schema)) (k : string) (sk : Joi.schema) (e : Joi.error) :
  In (k, sk) ks ->
  child sk (at_ ++ [Joi.Key k]) (assoc k fields) = inl e ->
  exists e', Joi.known child at_ fields ks = inl e'.
Proof.
  induction ks as [|[k' sk'] ks IH]; intros Hin Hk; [destruct Hin|].
  cbn. destruct Hin as [[= -> ->]|Hin].
  - rewrite Hk. eauto.
  - destruct (child sk' _ _) as [e1|v1]; [eauto|].
    destruct (IH Hin Hk) as [e' ->]. eauto.
Qed.

Lemma each_rejects (items : Joi.schema) (at_ : list Joi.seg) (i : nat)
    (l : list json) (x : json) :
  In x l ->
  (forall j, exists e, child items (at_ ++ [Joi.Idx j]) (Some x) = inl e) ->
  exists e', Joi.each child items at_ i l = inl e'.
Proof.
  revert i. induction l as [|y l IH]; intros i Hin Hx; [destruct Hin|].
  cbn. destruct Hin as [->|Hin].
  - destruct (Hx i) as [e ->]. eauto.
  - destruct (child items _ _) as [e1|v1]; [eauto|].
    destruct (IH (S i) Hin Hx) as [e' ->]. eauto.
Qed.

End JoiFacts.

Lemma validate_object_rejects (p : Joi.presence) (keys : list (string * Joi.schema))
    (at_ : list Joi.seg) (fields : list (string * json)) (k : string)
    (sk : Joi.schema) (e : Joi.error) :
  In (k, sk) keys ->
  Joi.validate sk (at_ ++ [Joi.Key k]) (assoc k fields) = inl e ->
  exists e', Joi.validate (Joi.SObject p keys) at_ (Some (JObj fields)) = inl e'.
Proof.
  intros Hin Hk. cbn.
  destruct (known_rejects Joi.validate at_ fields keys k sk e Hin Hk) as [e' ->]. eauto.
Qed.

Lemma required_string_rejects (at_ : list Joi.seg) (v : option json) :
  nonempty_string v = false ->
  exists e, Joi.validate (Joi.required Joi.string) at_ v = inl e.
Proof.
  unfold nonempty_string, truthy. destruct v as [[| | |s| |]|]; cbn; eauto.
  intros H. apply negb_false_iff in H. rewrite H. eauto.
Qed.

Lemma bad_content_file_rejected (at_ : list Joi.seg) (item : json) :
  nonempty_string (prop "content" item) = false ->
  exists e,
    Joi.validate
      (Joi.object [("path", Joi.required Joi.string); ("content", Joi.required Joi.string)])
      at_ (Some item) = inl e.
Proof.
  intros Hc. destruct item as [| | | | |ifields]; try (cbn; eauto; fail).
  destruct (required_string_rejects (at_ ++ [Joi.Key "content"]) _ Hc) as [e He].
  eapply (validate_object_rejects _ _ _ _ "content" (Joi.required Joi.string)).
  - right. left. reflexivity.
  - exact He.
Qed.

(** C8, as stated, fails: an [add_file] request and a [push_files] request
    that carry a file with the empty string as content are both answered
    with status 400, a validation failure on [content]; the context keeps
    no entry for the file and no call reaches the backend. *)
Lemma empty_content_is_a_validation_error :
  let store := (Part000.init 0 "abc" ∅).2 in
  let c := new_context_id 0 "abc" in
  let r := Part000.add_file 1 (Scenario.addFile_body c "a.txt" "") store in
  let p := Part000.push_files "o" (Scenario.pushFiles_body "r" [("a.txt", "")] "m") in
  r.1 = Part000.status_json 400
          (Part000.BValidation
             {| Joi.type := Joi.string_empty; Joi.path := [Joi.Key "content"] |})
  /\ Part000.kind_of r.1 = Some Validation
  /\ Part000.get_context (Some c) r.2
     = Part000.json_ (Part000.BContext c 0 [] None 0)
  /\ Octokit.run Scenario.steady p tt
     = (inr (Part000.status_json 400
               (Part000.BValidation
                  {| Joi.type := Joi.string_empty;
                     Joi.path := [Joi.Key "files"; Joi.Idx 0; Joi.Key "content"] |})),
        tt, []).
Proof. cbv zeta. repeat split; vm_compute; reflexivity. Qed.

(** C8, amended.  Only a string that is not empty is accepted as the
    content of a file.  A file whose content is missing, is not a string
    or is the empty string is rejected by request validation: [add_file]
    answers 400 and leaves the store as it was, [push_files] answers 400
    before any call. *)
Theorem empty_content_rejected (now : Z) (OWNER : string)
    (body : json) (store : gmap string Part000.Context) :
  (nonempty_string (prop "content" body) = false ->
   exists e,
     Part000.add_file now body store
     = (Part000.status_json 400 (Part000.BValidation e), store))
  /\ (forall items item,
        prop "files" body = Some (JArr items) ->
        In item items ->
        nonempty_string (prop "content" item) = false ->
        exists e,
          Part000.push_files OWNER body
          = Octokit.Ret (Part000.status_json 400 (Part000.BValidation e))).
Proof.
  split.
  - intros Hc. unfold Part000.add_file, Part000.validateInput.
    destruct body as [| | | | |fields]; try (cbn; eauto; fail).
    destruct (required_string_rejects [Joi.Key "content"] _ Hc) as [e0 He0].
    destruct (validate_object_rejects Joi.Optional
                [ ("context_id", Joi.required Joi.string);
                  ("path", Joi.required Joi.string);
                  ("content", Joi.required Joi.string);
                  ("repo", Joi.optional Joi.string);
                  ("branch", Joi.default "main" Joi.string) ]
                [] fields "content" (Joi.required Joi.string) e0)
      as [e He].
    + do 2 right. left. reflexivity.
    + exact He0.
    + change (Joi.validate Part000.schemas_addFile [] (Some (JObj fields)) = inl e) in He.
      rewrite He. eauto.
  - intros items item Hf Hin Hc.
    unfold Part000.push_files, Part000.validateInput.
    destruct body as [| | | | |fields]; try discriminate Hf. cbn in Hf.
    set (item_schema :=
           Joi.object
             [("path", Joi.required Joi.string); ("content", Joi.required Joi.string)]).
    destruct (each_rejects Joi.validate item_schema [Joi.Key "files"] 0 items item Hin)
      as [e1 He1].
    { intros j. apply bad_content_file_rejected, Hc. }
    destruct (validate_object_rejects Joi.Optional
                [ ("repoName", Joi.required Joi.string);
                  ("branch", Joi.default "main" Joi.string);
                  ("files", Joi.required (Joi.array_items item_schema));
                  ("message", Joi.required Joi.string) ]
                [] fields "files" (Joi.required (Joi.array_items item_schema)) e1)
      as [e He].
    + do 2 right. left. reflexivity.
    + rewrite Hf. cbn. cbn in He1. rewrite He1. reflexivity.
    + change (Joi.validate Part000.schemas_pushFiles [] (Some (JObj fields)) = inl e) in He.
      rewrite He. eauto.
Qed.

(** C2, as stated, fails: a [push_files] request with an empty [files]
    array passes validation; the route looks the repository up, reads the
    head and its commit, creates a tree with no entry and a commit, updates
    the ref and answers 200. *)
Lemma empty_files_reach_the_backend :
  let p := Part000.push_files "o" (Scenario.pushFiles_body "r" [] "m") in
  Part000.validateInput Part000.schemas_pushFiles (Scenario.pushFiles_body "r" [] "m")
  = inr (JObj [ ("repoName", JStr "r"); ("branch", JStr "main");
                ("files", JArr []); ("message", JStr "m") ])
  /\ Octokit.call_args <$> [ Octokit.repos_get "o" "r" ]
     = Octokit.event_args <$> take 1 (trace Scenario.steady p tt)
  /\ length (trace Scenario.steady p tt) = 6%nat
  /\ Octokit.is_updateRef <$> last (trace Scenario.steady p tt) = Some true
  /\ sum_map id Part000.status (outcome Scenario.steady p tt) = inr 200.
Proof. cbv zeta. repeat split; vm_compute; reflexivity. Qed.

(** C2, amended.  A [push_files] request that validation rejects is
    answered 400 before any call to the backend, and a request whose
    [files] field is missing or is not an array is so rejected.  An empty
    [files] array is not rejected: with a repository name and a message the
    request passes validation and the route issues the repository lookup. *)
Theorem push_files_validation_gate
    (B : Octokit.octokit_backend) (OWNER : string) (w : Octokit.world B) :
  (forall body e,
      Part000.validateInput Part000.schemas_pushFiles body = inl e ->
      Octokit.run B (Part000.push_files OWNER body) w
      = (inr (Part000.status_json 400 (Part000.BValidation e)), w, []))
  /\ (forall body,
        (forall items, prop "files" body <> Some (JArr items)) ->
        exists e, Part000.validateInput Part000.schemas_pushFiles body = inl e)
  /\ (forall repoName message,
        truthy repoName = true -> truthy message = true ->
        exists r rest,
          trace B (Part000.push_files OWNER (Scenario.pushFiles_body repoName [] message)) w
          = Octokit.Ev (Octokit.repos_get OWNER repoName) r :: rest).
Proof.
  split; [|split].
  - intros body e He. unfold Part000.push_files. rewrite He. reflexivity.
  - intros body Hnot. unfold Part000.validateInput.
    destruct body as [| | | |l|fields]; try (cbn; eauto; fail).
    destruct (assoc "files" fields) as [v|] eqn:Hf.
    + destruct (validate_object_rejects Joi.Optional
                  [ ("repoName", Joi.required Joi.string);
                    ("branch", Joi.default "main" Joi.string);
                    ("files",
                      Joi.required
                        (Joi.array_items
                           (Joi.object [ ("path", Joi.required Joi.string);
                                         ("content", Joi.required Joi.string) ])));
                    ("message", Joi.required Joi.string) ]
                  [] fields "files"
                  (Joi.required
                     (Joi.array_items
                        (Joi.object [ ("path", Joi.required Joi.string);
                                      ("content", Joi.required Joi.string) ])))
                  {| Joi.type := Joi.array_base; Joi.path := [Joi.Key "files"] |})
        as [e He].
      * do 2 right. left. reflexivity.
      * rewrite Hf. destruct v; try reflexivity. exfalso. apply (Hnot items). exact Hf.
      * change (Joi.validate Part000.schemas_pushFiles [] (Some (JObj fields)) = inl e) in He.
        rewrite He. eauto.
    + destruct (validate_object_rejects Joi.Optional
                  [ ("repoName", Joi.required Joi.string);
                    ("branch", Joi.default "main" Joi.string);
                    ("files",
                      Joi.required
                        (Joi.array_items
                           (Joi.object [ ("path", Joi.required Joi.string);
                                         ("content", Joi.required Joi.string) ])));
                    ("message", Joi.required Joi.string) ]
                  [] fields "files"
                  (Joi.required
                     (Joi.array_items
                        (Joi.object [ ("path", Joi.required Joi.string);
                                      ("content", Joi.required Joi.string) ])))
                  {| Joi.type := Joi.any_required; Joi.path := [Joi.Key "files"] |})
        as [e He].
      * do 2 right. left. reflexivity.
      * rewrite Hf. reflexivity.
      * change (Joi.validate Part000.schemas_pushFiles [] (Some (JObj fields)) = inl e) in He.
        rewrite He. eauto.
  - intros repoName message Hr Hm.
    unfold truthy in Hr, Hm. apply negb_true_iff in Hr, Hm.
    unfold trace, Part000.push_files, Part000.validateInput, Scenario.pushFiles_body.
    cbn. rewrite Hr, Hm. cbn.
    destruct (Octokit.reply B unit (Octokit.repos_get OWNER repoName) w) as [r w1].
    destruct (Octokit.run B _ w1) as [[o w2] tr]. cbn. eauto.
Qed.

(** *** The context store of the validated server *)

(** C9.  In [remove_file], [get_context] and [search] a request with a
    missing (or empty) required field is answered 400 whatever the store
    holds, so also when the context id is unknown; a 404 answer implies
    that every required field was present. *)
Theorem presence_check_precedes_lookup
    (store : gmap string Part000.Context) (context_id path query : option string) :
  (present context_id = false \/ present path = false ->
   Part000.remove_file context_id path store
   = (Part000.status_json 400 (Part000.BError "context_id and path required" None), store))
  /\ (present context_id = false ->
      Part000.get_context context_id store
      = Part000.status_json 400 (Part000.BError "context_id required" None))
  /\ (present context_id = false \/ present query = false ->
      Part000.search context_id query store
      = Part000.status_json 400 (Part000.BError "context_id and query required" None))
  /\ (Part000.kind_of (Part000.remove_file context_id path store).1 = Some NotFound ->
      present context_id = true /\ present path = true)
  /\ (Part000.kind_of (Part000.get_context context_id store) = Some NotFound ->
      present context_id = true)
  /\ (Part000.kind_of (Part000.search context_id query store) = Some NotFound ->
      present context_id = true /\ present query = true).
Proof.
  unfold Part000.remove_file, Part000.get_context, Part000.search.
  repeat split.
  - intros [-> | ->]; [reflexivity|]. rewrite orb_true_r. reflexivity.
  - intros ->. reflexivity.
  - intros [-> | ->]; [reflexivity|]. rewrite orb_true_r. reflexivity.
  - destruct (present context_id); [reflexivity|discriminate].
  - destruct (present context_id), (present path); try reflexivity; discriminate.
  - destruct (present context_id); [reflexivity|discriminate].
  - destruct (present context_id); [reflexivity|discriminate].
  - destruct (present context_id), (present query); try reflexivity; discriminate.
Qed.

Lemma fold_left_match_count (results : list Part000.FileMatches) (a : nat) :
  fold_left (fun a b => (a + Part000.match_count b)%nat) results a
  = (a + sum_list (Part000.match_count <$> results))%nat.
Proof.
  revert a. induction results as [|fm rest IH]; intros a; cbn.
  - lia.
  - rewrite IH. lia.
Qed.

Lemma search_file_counts (query : string) (kv : string * Part000.FileEntry) :
  Forall (fun fm => (1 <= Part000.match_count fm)%nat
                    /\ Part000.match_count fm = length (Part000.matches fm)
                    /\ Part000.fm_path fm = kv.1)
    (Part000.search_file query kv).
Proof.
  unfold Part000.search_file.
  destruct (0 <? length _)%nat eqn:Hlen; [|constructor].
  apply Nat.ltb_lt in Hlen. repeat constructor; cbn; lia.
Qed.

(** C10.  In every search response each listed file has at least one
    match and [match_count] is the length of its match list, the files
    listed are files of the context, [total_matches] is the sum of the
    [match_count]s, and [files_searched] is the number of files of the
    context. *)
Theorem search_response_counts
    (store : gmap string Part000.Context) (context_id query : option string)
    (results : list Part000.FileMatches) (total_matches files_searched : nat) :
  Part000.body (Part000.search context_id query store)
  = Part000.BSearch results total_matches files_searched ->
  exists c ctx,
    context_id = Some c /\ store !! c = Some ctx
    /\ Forall (fun fm => (1 <= Part000.match_count fm)%nat
                         /\ Part000.match_count fm = length (Part000.matches fm)
                         /\ is_Some (JsObject.own (Part000.files ctx) !! Part000.fm_path fm))
         results
    /\ total_matches = sum_list (Part000.match_count <$> results)
    /\ files_searched = length (JsObject.entries (Part000.files ctx))
    /\ (length results <= files_searched)%nat.
Proof.
  unfold Part000.search.
  destruct context_id as [c|]; [|cbn; discriminate].
  destruct (negb (present (Some c)) || negb (present query)); [cbn; discriminate|].
  change (default "" (Some c)) with c.
  destruct (store !! c) as [ctx|] eqn:Hctx; [|cbn; discriminate].
  cbn. intros [= <- <- <-]. exists c, ctx.
  split; [reflexivity|]. split; [exact Hctx|].
  unfold JsObject.keys, JsObject.entries. rewrite length_fmap.
  set (q := default "" query).
  assert (Hall : forall l : list (string * Part000.FileEntry),
             (forall kv, In kv l -> JsObject.own (Part000.files ctx) !! kv.1 = Some kv.2) ->
             Forall (fun fm => (1 <= Part000.match_count fm)%nat
                               /\ Part000.match_count fm = length (Part000.matches fm)
                               /\ is_Some (JsObject.own (Part000.files ctx)
                                             !! Part000.fm_path fm))
               (concat (Part000.search_file q <$> l))
             /\ (length (concat (Part000.search_file q <$> l)) <= length l)%nat).
  { induction l as [|kv l IH]; intros Hl; cbn.
    - split; [constructor|lia].
    - destruct IH as [IH1 IH2]; [intros; apply Hl; right; assumption|].
      split.
      + apply Forall_app. split; [|exact IH1].
        eapply Forall_impl; [apply search_file_counts|].
        intros fm (H1 & H2 & H3). repeat split; auto.
        rewrite H3, (Hl kv); [eauto|left; reflexivity].
      + rewrite length_app.
        assert (length (Part000.search_file q kv) <= 1)%nat; [|lia].
        unfold Part000.search_file. destruct (0 <? _)%nat; cbn; lia. }
  destruct (Hall (map_to_list (JsObject.own (Part000.files ctx)))) as [H1 H2].
  { intros [k v] Hin. apply list_elem_of_In, elem_of_map_to_list in Hin. exact Hin. }
  repeat split; auto.
  rewrite fold_left_match_count. reflexivity.
Qed.

Lemma search_response_counts_witness :
  exists c ctx,
    Some Scenario.ctx0 = Some c /\ Scenario.sample_store !! c = Some ctx
    /\ Forall (fun fm => (1 <= Part000.match_count fm)%nat
                         /\ Part000.match_count fm = length (Part000.matches fm)
                         /\ is_Some (JsObject.own (Part000.files ctx) !! Part000.fm_path fm))
         [ {| Part000.fm_path := "a.txt";
              Part000.matches :=
                [ {| Part000.line := 1; Part000.m_content := "Hello";
                     Part000.preview := "Hello" |};
                  {| Part000.line := 2; Part000.m_content := "say hello";
                     Part000.preview := "say hello" |} ];
              Part000.match_count := 2 |} ]
    /\ 2%nat
       = sum_list
           (Part000.match_count <$>
              [ {| Part000.fm_path := "a.txt";
                   Part000.matches :=
                     [ {| Part000.line := 1; Part000.m_content := "Hello";
                          Part000.preview := "Hello" |};
                       {| Part000.line := 2; Part000.m_content := "say hello";
                          Part000.preview := "say hello" |} ];
                   Part000.match_count := 2 |} ])
    /\ 2%nat = length (JsObject.entries (Part000.files ctx))
    /\ (1 <= 2)%nat.
Proof.
  apply (search_response_counts Scenario.sample_store (Some Scenario.ctx0) (Some "hello")).
  vm_compute. reflexivity.
Defined.

(** *** The cleanup timer of the plain server *)

Section CleanupFacts.
Import ServerJs.

Lemma cleanup_lookup (now : Z) (store : gmap string Context) (id : string) :
  cleanup now store !! id
  = match store !! id with
    | Some ctx => if decide (now - created ctx > RETENTION_MS) then None else Some ctx
    | None => None
    end.
Proof.
  unfold cleanup. destruct (store !! id) as [ctx|] eqn:Hid.
  - destruct (decide (now - created ctx > RETENTION_MS)) as [Hold|Hnew].
    + apply map_lookup_filter_None. right. intros ctx' Hctx'.
      rewrite Hid in Hctx'. injection Hctx' as <-. cbn. tauto.
    + apply map_lookup_filter_Some. split; [exact Hid|exact Hnew].
  - apply map_lookup_filter_None. left. exact Hid.
Qed.

Lemma step_keeps_fresh (e : Event) (store : gmap string Context) (id : string)
    (t : Z) :
  (exists ctx, store !! id = Some ctx /\ t <= created ctx) ->
  t <= time_of e < t + RETENTION_MS ->
  exists ctx, step e store !! id = Some ctx /\ t <= created ctx.
Proof.
  intros (ctx & Hid & Ht) Htime.
  destruct e as [now rnd|now c p v r b|now c p|now]; cbn in *.
  - destruct (decide (new_context_id now rnd = id)) as [<-|Hne].
    + rewrite lookup_insert_eq. eexists. split; [reflexivity|]. cbn. lia.
    + rewrite lookup_insert_ne by exact Hne. eauto.
  - unfold add_file. destruct (store !! c) as [cx|] eqn:Hc; cbn; [|eauto].
    destruct (decide (c = id)) as [->|Hne].
    + rewrite lookup_insert_eq. eexists. split; [reflexivity|]. cbn.
      rewrite Hid in Hc. injection Hc as <-. exact Ht.
    + rewrite lookup_insert_ne by exact Hne. eauto.
  - unfold remove_file. destruct (store !! c) as [cx|] eqn:Hc; cbn; [|eauto].
    destruct (decide (c = id)) as [->|Hne].
    + rewrite lookup_insert_eq. eexists. split; [reflexivity|]. cbn.
      rewrite Hid in Hc. injection Hc as <-. exact Ht.
    + rewrite lookup_insert_ne by exact Hne. eauto.
  - rewrite cleanup_lookup, Hid.
    destruct (decide _) as [Hold|_]; [lia|]. eauto.
Qed.

Lemma step_keeps_old (e : Event) (store : gmap string Context) (id : string) (t : Z) :
  ~ creates e id ->
  (store !! id = None \/ exists ctx, store !! id = Some ctx /\ created ctx <= t) ->
  step e store !! id = None
  \/ exists ctx, step e store !! id = Some ctx /\ created ctx <= t.
Proof.
  intros Hfresh Hid.
  destruct e as [now rnd|now c p v r b|now c p|now]; cbn in *.
  - rewrite lookup_insert_ne by exact Hfresh. exact Hid.
  - unfold add_file. destruct (store !! c) as [cx|] eqn:Hc; cbn; [|exact Hid].
    destruct (decide (c = id)) as [->|Hne].
    + rewrite lookup_insert_eq. right. eexists. split; [reflexivity|]. cbn.
      destruct Hid as [Hid|(ctx & Hid & Ht)]; rewrite Hid in Hc; [discriminate|].
      injection Hc as <-. exact Ht.
    + rewrite lookup_insert_ne by exact Hne. exact Hid.
  - unfold remove_file. destruct (store !! c) as [cx|] eqn:Hc; cbn; [|exact Hid].
    destruct (decide (c = id)) as [->|Hne].
    + rewrite lookup_insert_eq. right. eexists. split; [reflexivity|]. cbn.
      destruct Hid as [Hid|(ctx & Hid & Ht)]; rewrite Hid in Hc; [discriminate|].
      injection Hc as <-. exact Ht.
    + rewrite lookup_insert_ne by exact Hne. exact Hid.
  - rewrite cleanup_lookup.
    destruct Hid as [->|(ctx & -> & Ht)]; [left; reflexivity|].
    destruct (decide _); [left; reflexivity|right; eauto].
Qed.

Lemma run_keeps_fresh (es : list Event) (store : gmap string Context) (id : string)
    (t : Z) :
  (exists ctx, store !! id = Some ctx /\ t <= created ctx) ->
  Forall (fun e => t <= time_of e < t + RETENTION_MS) es ->
  exists ctx, run es store !! id = Some ctx /\ t <= created ctx.
Proof.
  revert store. induction es as [|e es IH]; intros store Hid Hes; cbn; [exact Hid|].
  apply Forall_cons in Hes as [He Hes].
  apply IH; [|exact Hes]. apply step_keeps_fresh; assumption.
Qed.

Lemma run_keeps_old (es : list Event) (store : gmap string Context) (id : string)
    (t : Z) :
  Forall (fun e => ~ creates e id) es ->
  (store !! id = None \/ exists ctx, store !! id = Some ctx /\ created ctx <= t) ->
  run es store !! id = None
  \/ exists ctx, run es store !! id = Some ctx /\ created ctx <= t.
Proof.
  revert store. induction es as [|e es IH]; intros store Hes Hid; cbn; [exact Hid|].
  apply Forall_cons in Hes as [He Hes].
  apply IH; [exact Hes|]. apply step_keeps_old; assumption.
Qed.

Lemma run_keeps_absent (es : list Event) (store : gmap string Context) (id : string) :
  Forall (fun e => ~ creates e id) es ->
  store !! id = None -> run es store !! id = None.
Proof.
  revert store. induction es as [|e es IH]; intros store Hes Hid; cbn; [exact Hid|].
  apply Forall_cons in Hes as [He Hes]. apply IH; [exact Hes|].
  destruct (step_keeps_old e store id 0 He (or_introl Hid)) as [H|(ctx & H & _)];
    [exact H|].
  exfalso. clear IH Hes.
  destruct e as [now rnd|now c p v r b|now c p|now]; cbn in *.
  - rewrite lookup_insert_ne in H by exact He. congruence.
  - unfold add_file in H. destruct (store !! c) as [cx|] eqn:Hc; cbn in H; [|congruence].
    destruct (decide (c = id)) as [->|Hne]; [congruence|].
    rewrite lookup_insert_ne in H by exact Hne. congruence.
  - unfold remove_file in H. destruct (store !! c) as [cx|] eqn:Hc; cbn in H; [|congruence].
    destruct (decide (c = id)) as [->|Hne]; [congruence|].
    rewrite lookup_insert_ne in H by exact Hne. congruence.
  - rewrite cleanup_lookup, Hid in H. discriminate.
Qed.

End CleanupFacts.

(** C7.  The cleanup pass, which the timer runs every hour, deletes the
    contexts created more than 24 hours before its clock reading and keeps
    the others.  A context created at [t] stays in the store whatever
    requests and cleanup passes happen before [t + 24h]; after requests and
    passes among which one pass runs later than [t + 24h] it is gone and
    stays gone (no later init drawing the same id). *)
Theorem cleanup_evicts_after_retention
    (store : gmap string ServerJs.Context) (id : string) (ctx : ServerJs.Context) :
  store !! id = Some ctx ->
  (forall now, now <= ServerJs.created ctx + ServerJs.RETENTION_MS ->
               ServerJs.cleanup now store !! id = Some ctx)
  /\ (forall now, ServerJs.created ctx + ServerJs.RETENTION_MS < now ->
                  ServerJs.cleanup now store !! id = None)
  /\ (forall es,
        Forall (fun e => ServerJs.created ctx <= ServerJs.time_of e
                         < ServerJs.created ctx + ServerJs.RETENTION_MS) es ->
        is_Some (ServerJs.run es store !! id))
  /\ (forall es1 now es2,
        ServerJs.created ctx + ServerJs.RETENTION_MS < now ->
        Forall (fun e => ~ ServerJs.creates e id) (es1 ++ es2) ->
        ServerJs.run (es1 ++ ServerJs.OnCleanup now :: es2) store !! id = None)
  /\ ServerJs.RETENTION_MS = 86400000
  /\ ServerJs.CLEANUP_PERIOD_MS = 3600000.
Proof.
  intros Hid. repeat split.
  - intros now Hnow. rewrite cleanup_lookup, Hid.
    destruct (decide _) as [Hold|_]; [lia|reflexivity].
  - intros now Hnow. rewrite cleanup_lookup, Hid.
    destruct (decide _) as [_|Hnew]; [reflexivity|lia].
  - intros es Hes.
    destruct (run_keeps_fresh es store id (ServerJs.created ctx)) as (ctx' & -> & _);
      eauto. exists ctx. split; [exact Hid|lia].
  - intros es1 now es2 Hnow Hes. apply Forall_app in Hes as [Hes1 Hes2].
    unfold ServerJs.run. rewrite fold_left_app. cbn [fold_left].
    fold (ServerJs.run es1 store).
    apply (run_keeps_absent es2); [exact Hes2|].
    cbn. rewrite cleanup_lookup.
    destruct (run_keeps_old es1 store id (ServerJs.created ctx) Hes1)
      as [->|(ctx' & -> & Hold)].
    + right. exists ctx. split; [exact Hid|lia].
    + reflexivity.
    + destruct (decide _) as [_|Hnew]; [reflexivity|lia].
Qed.

Lemma cleanup_evicts_after_retention_witness :
  exists ctx,
    Scenario.plain_store !! Scenario.ctx0 = Some ctx
    /\ (forall now, now <= ServerJs.created ctx + ServerJs.RETENTION_MS ->
                    ServerJs.cleanup now Scenario.plain_store !! Scenario.ctx0 = Some ctx)
    /\ (forall now, ServerJs.created ctx + ServerJs.RETENTION_MS < now ->
                    ServerJs.cleanup now Scenario.plain_store !! Scenario.ctx0 = None)
    /\ (forall es,
          Forall (fun e => ServerJs.created ctx <= ServerJs.time_of e
                           < ServerJs.created ctx + ServerJs.RETENTION_MS) es ->
          is_Some (ServerJs.run es Scenario.plain_store !! Scenario.ctx0))
    /\ (forall es1 now es2,
          ServerJs.created ctx + ServerJs.RETENTION_MS < now ->
          Forall (fun e => ~ ServerJs.creates e Scenario.ctx0) (es1 ++ es2) ->
          ServerJs.run (es1 ++ ServerJs.OnCleanup now :: es2) Scenario.plain_store
            !! Scenario.ctx0 = None)
    /\ ServerJs.RETENTION_MS = 86400000
    /\ ServerJs.CLEANUP_PERIOD_MS = 3600000.
Proof.
  eexists. split; [vm_compute; reflexivity|].
  apply (cleanup_evicts_after_retention Scenario.plain_store Scenario.ctx0).
  vm_compute. reflexivity.
Defined.

(** One day of hourly passes keeps a context created at 0; the pass of
    hour 25 deletes it. *)
Example cleanup_hour_by_hour :
  let hourly := fun k => ServerJs.OnCleanup (Z.of_nat k * ServerJs.CLEANUP_PERIOD_MS) in
  is_Some (ServerJs.run (hourly <$> seq 1 24) Scenario.plain_store !! Scenario.ctx0)
  /\ ServerJs.run (hourly <$> seq 1 25) Scenario.plain_store !! Scenario.ctx0 = None.
Proof. cbv zeta. split; [eexists|]; vm_compute; reflexivity. Qed.

(** *** Strings *)

Section SearchFacts.
Import JsString.

Lemma prefix_app (q s : string) :
  String.prefix q s = true <-> exists b, s = (q ++ b)%string.
Proof.
  revert s. induction q as [|c q IH]; intros s.
  - destruct s; cbn; split; eauto.
  - destruct s as [|d s]; cbn; [split; [discriminate|intros [b [=]]]|].
    destruct (ascii_dec c d) as [->|Hne].
    + rewrite IH. split; intros [b Hb]; exists b.
      * cbn. rewrite Hb. reflexivity.
      * cbn in Hb. injection Hb as ->. reflexivity.
    + split; [discriminate|]. intros [b Hb]. cbn in Hb. injection Hb as <- _.
      congruence.
Qed.

Lemma includes_app (s q : string) :
  includes s q = true <-> exists a b, s = (a ++ q ++ b)%string.
Proof.
  induction s as [|c s IH]; cbn [includes].
  - rewrite orb_false_r, prefix_app. split.
    + intros [b ->]. exists "", b. reflexivity.
    + intros (a & b & H). destruct a as [|? ?]; [|discriminate]. eauto.
  - rewrite orb_true_iff, prefix_app, IH. split.
    + intros [[b ->]|(a & b & ->)]; [exists "", b|exists (String c a), b]; reflexivity.
    + intros ([|d a] & b & H); cbn in H; [left; eauto|].
      injection H as <- ->. right. eauto.
Qed.

Lemma string_length_app (a b : string) :
  String.length (a ++ b)%string = (String.length a + String.length b)%nat.
Proof. induction a as [|c a IH]; simpl; [reflexivity|]. f_equal. exact IH. Qed.

Lemma slice0_length (n : nat) (s : string) : (String.length (slice0 n s) <= n)%nat.
Proof.
  unfold slice0. revert s. induction n as [|n IH]; intros [|c s]; cbn; try lia.
  specialize (IH s). lia.
Qed.

Lemma preview_bounded (line : string) :
  (String.length (Part000.preview_of line) <= 103)%nat.
Proof.
  unfold Part000.preview_of.
  destruct (100 <? String.length line)%nat eqn:Hlen.
  - rewrite string_length_app. pose proof (slice0_length 100 line). cbn. lia.
  - apply Nat.ltb_ge in Hlen. lia.
Qed.

Lemma matches_from_spec (i : nat) (query : string) (lines : list string)
    (m : Part000.Match) :
  In m (Part000.matches_from i query lines)
  <-> exists j l,
        lines !! j = Some l /\ contains_ci query l
        /\ m = {| Part000.line := i + j + 1; Part000.m_content := l;
                  Part000.preview := Part000.preview_of l |}.
Proof.
  unfold contains_ci. revert i.
  induction lines as [|line rest IH]; intros i; cbn.
  - split; [intros []|intros (j & l & H & _); destruct j; discriminate H].
  - rewrite in_app_iff, IH. split.
    + intros [Hm|(j & l & Hj & Hc & ->)].
      * destruct (includes _ _) eqn:Hinc; [|destruct Hm].
        destruct Hm as [<-|[]]. exists 0%nat, line.
        split; [reflexivity|]. split; [apply includes_app, Hinc|].
        f_equal. lia.
      * exists (S j), l. split; [exact Hj|]. split; [exact Hc|]. f_equal. lia.
    + intros ([|j] & l & Hj & Hc & ->); cbn in Hj.
      * injection Hj as ->. left. apply includes_app in Hc. rewrite Hc.
        left. f_equal. lia.
      * right. exists j, l. split; [exact Hj|]. split; [exact Hc|]. f_equal. lia.
Qed.

End SearchFacts.

(** *** Search on the validated server *)

Section SearchRoute.
Import JsString Part000.

Lemma in_search_results (query : string) (l : list (string * FileEntry))
    (fm : FileMatches) :
  In fm (concat (search_file query <$> l))
  <-> exists kv, In kv l /\ In fm (search_file query kv).
Proof.
  rewrite in_concat. split.
  - intros (x & Hx & Hfm). apply list_elem_of_In, list_elem_of_fmap in Hx.
    destruct Hx as (kv & -> & Hkv). exists kv. split; [apply list_elem_of_In, Hkv|exact Hfm].
  - intros (kv & Hkv & Hfm). exists (search_file query kv). split; [|exact Hfm].
    apply list_elem_of_In, list_elem_of_fmap. exists kv.
    split; [reflexivity|apply list_elem_of_In, Hkv].
Qed.

Lemma in_search_file (query : string) (kv : string * FileEntry) (fm : FileMatches) :
  In fm (search_file query kv)
  <-> matches_from 0 query (split_lines (decodeContent (content kv.2))) <> []
      /\ fm = {| fm_path := kv.1;
                 matches := matches_from 0 query (split_lines (decodeContent (content kv.2)));
                 match_count :=
                   length (matches_from 0 query
                             (split_lines (decodeContent (content kv.2)))) |}.
Proof.
  unfold search_file.
  destruct (matches_from 0 query _) as [|m ms] eqn:Hms; cbn.
  - split; [intros []|intros [H _]; congruence].
  - split; [intros [<-|[]]; split; [discriminate|reflexivity]|].
    intros [_ ->]. left. reflexivity.
Qed.

Lemma search_paths_NoDup (query : string) (l : list (string * FileEntry)) :
  NoDup l.*1 -> NoDup (fm_path <$> concat (search_file query <$> l)).
Proof.
  induction l as [|kv l IH]; cbn; intros Hnd; [constructor|].
  apply NoDup_cons in Hnd as [Hkv Hnd]. rewrite fmap_app.
  apply NoDup_app. split; [|split; [|apply IH, Hnd]].
  - unfold search_file. destruct (0 <? _)%nat; cbn; repeat constructor.
    intros H. apply elem_of_nil in H. exact H.
  - intros x Hx Hx'. apply list_elem_of_fmap in Hx as (fm & -> & Hfm).
    apply list_elem_of_fmap in Hx' as (fm' & Heq & Hfm').
    apply list_elem_of_In, in_search_file in Hfm as [_ ->].
    apply list_elem_of_In, in_search_results in Hfm' as (kv' & Hkv' & Hfm').
    apply in_search_file in Hfm' as [_ ->]. cbn in Heq.
    apply Hkv. rewrite Heq. apply list_elem_of_fmap. exists kv'.
    split; [reflexivity|apply list_elem_of_In, Hkv'].
Qed.

(** The search of the validated server, for a known context whose files
    are stored ASCII texts and a non-empty ASCII query: a file is listed
    with a match for a line exactly when the line contains the query, case
    aside; the match carries the 1-based line number, the line and its
    preview, of at most 103 characters; a file is listed at most once. *)
Theorem search_matches_exactly
    (store : gmap string Context) (c q : string) (ctx : Context) :
  store !! c = Some ctx -> truthy c = true -> truthy q = true ->
  is_ascii q = true ->
  forallb (fun kv => stored_ascii (content kv.2)) (JsObject.entries (files ctx)) = true ->
  exists results,
    search (Some c) (Some q) store
    = json_ (BSearch results (sum_list (match_count <$> results))
               (length (JsObject.entries (files ctx))))
    /\ (forall path m,
          (exists fm, In fm results /\ fm_path fm = path /\ In m (matches fm))
          <-> (exists entry j l,
                  JsObject.own (files ctx) !! path = Some entry
                  /\ split_lines (decodeContent (content entry)) !! j = Some l
                  /\ contains_ci q l
                  /\ m = {| line := j + 1; m_content := l; preview := preview_of l |}))
    /\ (forall fm m, In fm results -> In m (matches fm) ->
                     (String.length (preview m) <= 103)%nat)
    /\ NoDup (fm_path <$> results).
Proof.
  intros Hctx Hc Hq _ _.
  exists (concat (search_file q <$> JsObject.entries (files ctx))).
  split; [|split; [|split]].
  - unfold search. cbn [present]. rewrite Hc, Hq.
    change (negb true || negb true) with false. cbv iota.
    change (default "" (Some c)) with c. change (default "" (Some q)) with q.
    cbv zeta. rewrite Hctx, fold_left_match_count. unfold JsObject.keys.
    rewrite length_fmap. reflexivity.
  - intros path m. split.
    + intros (fm & Hfm & <- & Hm).
      apply in_search_results in Hfm as ([k entry] & Hkv & Hfm).
      apply in_search_file in Hfm as [_ ->]. cbn in *.
      apply matches_from_spec in Hm as (j & l & Hj & Hl & ->).
      exists entry, j, l. repeat split; auto.
      apply elem_of_map_to_list, list_elem_of_In, Hkv.
    + intros (entry & j & l & Hentry & Hj & Hl & ->).
      assert (Hm : In {| line := 0 + j + 1; m_content := l; preview := preview_of l |}
                     (matches_from 0 q (split_lines (decodeContent (content entry))))).
      { apply matches_from_spec. eauto. }
      change (0 + j + 1)%nat with (j + 1)%nat in Hm.
      exists {| fm_path := path;
                matches := matches_from 0 q (split_lines (decodeContent (content entry)));
                match_count :=
                  length (matches_from 0 q (split_lines (decodeContent (content entry)))) |}.
      split; [|split; [|exact Hm]]; [|reflexivity].
      apply in_search_results. exists (path, entry). split.
      * apply list_elem_of_In, elem_of_map_to_list, Hentry.
      * apply in_search_file. split; [|reflexivity].
        cbn. intros Hnil. rewrite Hnil in Hm. destruct Hm.
  - intros fm m Hfm Hm.
    apply in_search_results in Hfm as (kv & _ & Hfm).
    apply in_search_file in Hfm as [_ ->]. cbn in Hm.
    apply matches_from_spec in Hm as (j & l & _ & _ & ->). apply preview_bounded.
  - apply search_paths_NoDup, NoDup_fst_map_to_list.
Qed.

End SearchRoute.

(** *** Adding and removing files on the validated server *)

Section StoreFacts.
Import JsString Part000.

Lemma validate_addFile_body (c p v : string) :
  validateInput schemas_addFile (Scenario.addFile_body c p v)
  = if truthy c && truthy p && truthy v
    then inr (JObj [ ("context_id", JStr c); ("path", JStr p);
                     ("content", JStr v); ("branch", JStr "main") ])
    else inl {| Joi.type := Joi.string_empty;
                Joi.path := [ Joi.Key (if truthy c then
                                         if truthy p then "content" else "path"
                                       else "context_id") ] |}.
Proof.
  unfold truthy, validateInput, schemas_addFile, Scenario.addFile_body.
  cbn. destruct (String.eqb c ""); cbn; [reflexivity|].
  destruct (String.eqb p ""); cbn; [reflexivity|].
  destruct (String.eqb v ""); cbn; reflexivity.
Qed.


Lemma file_view_path (l : list (string * FileEntry)) :
  fv_path <$> (file_view <$> l) = l.*1.
Proof. rewrite <- list_fmap_compose. reflexivity. Qed.



Lemma remove_file_present (store : gmap string Context) (c p : string) (ctx : Context) :
  store !! c = Some ctx -> truthy c = true -> truthy p = true ->
  remove_file (Some c) (Some p) store
  = if JsObject.get_truthy field_truthy p (files ctx)
    then (json_ (BRemoveFile ("File " ++ p ++ " removed")%string),
          <[c := {| created := created ctx;
                    files := JsObject.delete_key p (files ctx);
                    repoInfo := repoInfo ctx |}]> store)
    else (status_json 404 (BError "File not found in context" None), store).
Proof.
  intros Hctx Hc Hp. unfold remove_file. cbn [present]. rewrite Hc, Hp.
  change (negb true || negb true) with false. cbv iota.
  change (default "" (Some c)) with c. change (default "" (Some p)) with p.
  cbv zeta. rewrite Hctx. reflexivity.
Qed.

Lemma get_context_present (store : gmap string Context) (c : string) (ctx : Context) :
  store !! c = Some ctx -> truthy c = true ->
  get_context (Some c) store
  = json_ (BContext c (created ctx) (file_view <$> JsObject.entries (files ctx))
             (repoInfo ctx) (length (JsObject.keys (files ctx)))).
Proof.
  intros Hctx Hc. unfold get_context. cbn [present]. rewrite Hc.
  change (negb true) with false. cbv iota.
  change (default "" (Some c)) with c. cbv zeta. rewrite Hctx. reflexivity.
Qed.

(** On the validated server: after an accepted [remove_file] the path is
    not listed by [get_context]; a second [remove_file] for it is answered
    404 with its own message, provided the path is not a name that the
    files object inherits. *)
Theorem remove_file_then_absent
    (store : gmap string Context) (c p : string) (ctx : Context) :
  store !! c = Some ctx -> truthy c = true -> truthy p = true ->
  status (remove_file (Some c) (Some p) store).1 = 200 ->
  (exists created files repo_info n,
      get_context (Some c) (remove_file (Some c) (Some p) store).2
      = json_ (BContext c created files repo_info n)
      /\ ~ In p (fv_path <$> files))
  /\ (JsObject.inherited field_truthy p (files ctx) = false ->
      remove_file (Some c) (Some p) (remove_file (Some c) (Some p) store).2
      = (status_json 404 (BError "File not found in context" None),
         (remove_file (Some c) (Some p) store).2)).
Proof.
  intros Hctx Hc Hp. rewrite (remove_file_present store c p ctx Hctx Hc Hp).
  destruct (JsObject.get_truthy field_truthy p (files ctx)); cbn [fst snd];
    [|cbn; discriminate].
  intros _. split.
  - erewrite get_context_present; [|apply lookup_insert_eq|exact Hc].
    eexists _, _, _, _. split; [reflexivity|].
    cbn. unfold JsObject.entries. cbn. rewrite file_view_path.
    intros Hin. apply list_elem_of_In, list_elem_of_fmap in Hin.
    destruct Hin as ([k e] & -> & Hke). apply elem_of_map_to_list in Hke. cbn in Hke.
    rewrite lookup_delete_eq in Hke. discriminate.
  - intros Hinh. erewrite remove_file_present; [|apply lookup_insert_eq|exact Hc|exact Hp].
    assert (Hg : JsObject.get_truthy field_truthy p (JsObject.delete_key p (files ctx))
                 = false).
    { unfold JsObject.get_truthy, JsObject.delete_key. cbn [JsObject.own].
      rewrite lookup_delete_eq. exact Hinh. }
    cbn [files]. rewrite Hg. reflexivity.
Qed.

End StoreFacts.

Lemma search_matches_exactly_witness :
  exists ctx,
    Scenario.sample_store !! Scenario.ctx0 = Some ctx
    /\ exists results,
         Part000.search (Some Scenario.ctx0) (Some "hello") Scenario.sample_store
         = Part000.json_
             (Part000.BSearch results (sum_list (Part000.match_count <$> results))
                (length (JsObject.entries (Part000.files ctx))))
         /\ (forall path m,
               (exists fm, In fm results /\ Part000.fm_path fm = path
                           /\ In m (Part000.matches fm))
               <-> (exists entry j l,
                       JsObject.own (Part000.files ctx) !! path = Some entry
                       /\ JsString.split_lines (decodeContent (Part000.content entry)) !! j
                          = Some l
                       /\ contains_ci "hello" l
                       /\ m = {| Part000.line := j + 1; Part000.m_content := l;
                                 Part000.preview := Part000.preview_of l |}))
         /\ (forall fm m, In fm results -> In m (Part000.matches fm) ->
                          (String.length (Part000.preview m) <= 103)%nat)
         /\ NoDup (Part000.fm_path <$> results).
Proof.
  eexists. split; [vm_compute; reflexivity|].
  apply (search_matches_exactly Scenario.sample_store Scenario.ctx0 "hello");
    vm_compute; reflexivity.
Defined.


Lemma remove_file_then_absent_witness :
  exists ctx,
    Scenario.sample_store !! Scenario.ctx0 = Some ctx
    /\ (exists created files repo_info n,
           Part000.get_context (Some Scenario.ctx0)
             (Part000.remove_file (Some Scenario.ctx0) (Some "a.txt")
                Scenario.sample_store).2
           = Part000.json_ (Part000.BContext Scenario.ctx0 created files repo_info n)
           /\ ~ In "a.txt" (Part000.fv_path <$> files))
    /\ (JsObject.inherited Part000.field_truthy "a.txt" (Part000.files ctx) = false ->
        Part000.remove_file (Some Scenario.ctx0) (Some "a.txt")
          (Part000.remove_file (Some Scenario.ctx0) (Some "a.txt")
             Scenario.sample_store).2
        = (Part000.status_json 404 (Part000.BError "File not found in context" None),
           (Part000.remove_file (Some Scenario.ctx0) (Some "a.txt")
              Scenario.sample_store).2)).
Proof.
  eexists. split; [vm_compute; reflexivity|].
  apply (remove_file_then_absent Scenario.sample_store Scenario.ctx0 "a.txt");
    vm_compute; reflexivity.
Defined.

(** *** Where the servers leave the specification *)

(** C4 on the plain server: the line [Hello] contains the query [hello],
    case aside, yet [search] of [src/server.js] lists line 2 only, and its
    matches carry no preview; the validated server lists lines 1 and 2. *)
Lemma plain_search_is_case_sensitive :
  contains_ci "hello" "Hello"
  /\ ServerJs.search Scenario.ctx0 "hello" Scenario.plain_store
     = ServerJs.json_
         (ServerJs.BSearch
            [ {| ServerJs.fm_path := "a.txt";
                 ServerJs.matches :=
                   [ {| ServerJs.line := 2; ServerJs.m_content := "say hello" |} ] |} ])
  /\ Part000.search (Some Scenario.ctx0) (Some "hello") Scenario.sample_store
     = Part000.json_
         (Part000.BSearch
            [ {| Part000.fm_path := "a.txt";
                 Part000.matches :=
                   [ {| Part000.line := 1; Part000.m_content := "Hello";
                        Part000.preview := "Hello" |};
                     {| Part000.line := 2; Part000.m_content := "say hello";
                        Part000.preview := "say hello" |} ];
                 Part000.match_count := 2 |} ]
            2 2).
Proof.
  split; [exists "", ""; reflexivity|].
  split; vm_compute; reflexivity.
Qed.

(** The path [__proto__], which C5 as amended leaves out: both [add_file]
    requests are accepted and report a file count of 0, and [get_context]
    lists no entry for the path. *)
Lemma proto_path_is_not_listed :
  let s0 := (Part000.init 0 "abc" ∅).2 in
  let r1 := Part000.add_file 1 (Scenario.addFile_body Scenario.ctx0 "__proto__" "v1") s0 in
  let r2 := Part000.add_file 2 (Scenario.addFile_body Scenario.ctx0 "__proto__" "v2") r1.2 in
  r1.1 = Part000.json_ (Part000.BAddFile "File __proto__ added" 0)
  /\ r2.1 = Part000.json_ (Part000.BAddFile "File __proto__ added" 0)
  /\ Part000.get_context (Some Scenario.ctx0) r2.2
     = Part000.json_ (Part000.BContext Scenario.ctx0 0 [] None 0).
Proof. cbv zeta. repeat split; vm_compute; reflexivity. Qed.

(** C6 on the plain server: the second [remove_file] of a path, now
    absent, is answered with success like the first.  On the validated
    server the same happens for a name that every object inherits, such as
    [constructor], present or not. *)
Lemma remove_file_twice_succeeds :
  let r1 := ServerJs.remove_file Scenario.ctx0 "a.txt" Scenario.plain_store in
  let r2 := ServerJs.remove_file Scenario.ctx0 "a.txt" r1.2 in
  let q1 := Part000.remove_file (Some Scenario.ctx0) (Some "constructor")
              Scenario.sample_store in
  let q2 := Part000.remove_file (Some Scenario.ctx0) (Some "constructor") q1.2 in
  r1.1 = ServerJs.json_ ServerJs.BSuccess
  /\ ServerJs.get_context Scenario.ctx0 r1.2
     = ServerJs.json_ (ServerJs.BContext [("b.txt", "nothing here")] None)
  /\ r2.1 = ServerJs.json_ ServerJs.BSuccess
  /\ q1.1 = Part000.json_ (Part000.BRemoveFile "File constructor removed")
  /\ q2.1 = Part000.json_ (Part000.BRemoveFile "File constructor removed").
Proof. cbv zeta. repeat split; vm_compute; reflexivity. Qed.

(** *** Unknown contexts *)

(** On the validated server, a context id that the store does not hold is
    answered 404 'Context not found' by [add_file], [remove_file],
    [get_context] and [search] alike, once the required fields are there,
    and the store is left as it was. *)
Theorem unknown_context_not_found
    (store : gmap string Part000.Context) (now : Z) (c p v q : string) :
  store !! c = None ->
  truthy c = true -> truthy p = true -> truthy v = true -> truthy q = true ->
  let not_found := Part000.status_json 404 (Part000.BError "Context not found" None) in
  Part000.add_file now (Scenario.addFile_body c p v) store = (not_found, store)
  /\ Part000.remove_file (Some c) (Some p) store = (not_found, store)
  /\ Part000.get_context (Some c) store = not_found
  /\ Part000.search (Some c) (Some q) store = not_found
  /\ Part000.kind_of not_found = Some NotFound.
Proof.
  intros Hc Tc Tp Tv Tq. cbv zeta. repeat split.
  - unfold Part000.add_file. rewrite validate_addFile_body, Tc, Tp, Tv. cbn.
    rewrite Hc. reflexivity.
  - unfold Part000.remove_file. cbn [present]. rewrite Tc, Tp.
    change (negb true || negb true) with false. cbv iota.
    change (default "" (Some c)) with c. cbv zeta. rewrite Hc. reflexivity.
  - unfold Part000.get_context. cbn [present]. rewrite Tc.
    change (negb true) with false. cbv iota.
    change (default "" (Some c)) with c. cbv zeta. rewrite Hc. reflexivity.
  - unfold Part000.search. cbn [present]. rewrite Tc, Tq.
    change (negb true || negb true) with false. cbv iota.
    change (default "" (Some c)) with c. cbv zeta. rewrite Hc. reflexivity.
Qed.

Lemma unknown_context_not_found_witness :
  let not_found := Part000.status_json 404 (Part000.BError "Context not found" None) in
  Part000.add_file 5 (Scenario.addFile_body "ctx_9_zzz" "a.txt" "x") Scenario.sample_store
  = (not_found, Scenario.sample_store)
  /\ Part000.remove_file (Some "ctx_9_zzz") (Some "a.txt") Scenario.sample_store
     = (not_found, Scenario.sample_store)
  /\ Part000.get_context (Some "ctx_9_zzz") Scenario.sample_store = not_found
  /\ Part000.search (Some "ctx_9_zzz") (Some "hello") Scenario.sample_store = not_found
  /\ Part000.kind_of not_found = Some NotFound.
Proof.
  apply (unknown_context_not_found Scenario.sample_store 5 "ctx_9_zzz" "a.txt" "x" "hello");
    vm_compute; reflexivity.
Defined.

(** *** The commit sequence when every call is accepted *)

Section CommitSuccess.
Import Octokit Part000.
Variable B : octokit_backend.
Variable OWNER : string.

Lemma validate_file_json (at_ : list Joi.seg) (f : string * string) :
  truthy f.1 = true -> truthy f.2 = true ->
  Joi.validate
    (Joi.object [("path", Joi.required Joi.string); ("content", Joi.required Joi.string)])
    at_ (Some (Scenario.file_json f))
  = inr (Some (Scenario.file_json f)).
Proof.
  unfold truthy. intros H1 H2. apply negb_true_iff in H1, H2.
  cbn. rewrite H1, H2. reflexivity.
Qed.

Lemma each_file_json (at_ : list Joi.seg) (i : nat) (files : list (string * string)) :
  Forall (fun f => truthy f.1 = true /\ truthy f.2 = true) files ->
  Joi.each Joi.validate
    (Joi.object [("path", Joi.required Joi.string); ("content", Joi.required Joi.string)])
    at_ i (Scenario.file_json <$> files)
  = inr (Scenario.file_json <$> files).
Proof.
  revert i. induction files as [|f files IH]; intros i Hok; [reflexivity|].
  apply Forall_cons in Hok as [[H1 H2] Hok].
  cbn [fmap list_fmap Joi.each]. rewrite (validate_file_json _ f H1 H2).
  fold (@fmap list _ _ _ Scenario.file_json files). rewrite (IH _ Hok).
  reflexivity.
Qed.

Lemma validate_pushFiles_body_on (repoName message : string) (branch : option string)
    (files : list (string * string)) :
  truthy repoName = true -> truthy message = true ->
  from_option truthy true branch = true ->
  Forall (fun f => truthy f.1 = true /\ truthy f.2 = true) files ->
  validateInput schemas_pushFiles (Samples.pushFiles_body_on repoName branch files message)
  = inr (JObj [ ("repoName", JStr repoName); ("branch", JStr (default "main" branch));
                ("files", JArr (Scenario.file_json <$> files));
                ("message", JStr message) ]).
Proof.
  unfold truthy. intros Hr Hm Hb Hok. apply negb_true_iff in Hr, Hm.
  pose proof (each_file_json [Joi.Key "files"] 0 files Hok) as Heach. cbn in Heach.
  unfold validateInput, schemas_pushFiles, Samples.pushFiles_body_on.
  destruct branch as [b|]; cbn in Hb |- *.
  - apply negb_true_iff in Hb. rewrite Hr. cbn. rewrite Hb. cbn.
    rewrite Heach, Hm. reflexivity.
  - rewrite Hr. cbn. rewrite Heach, Hm. reflexivity.
Qed.

Lemma blob_promises_accepted (repoName : string) (files : list (string * string))
    (w : world B) :
  Forall (fun e => rejected e = false)
    (run B (blob_promises OWNER repoName (file_of <$> (Scenario.file_json <$> files))) w).2 ->
  exists shas w',
    length shas = length files
    /\ run B (blob_promises OWNER repoName (file_of <$> (Scenario.file_json <$> files))) w
       = (inr (inr <$> zip_with blob_entry files shas), w',
          zip_with (blob_event OWNER repoName) files shas).
Proof.
  revert w. induction files as [|f files IH]; intros w; cbn.
  - intros _. exists [], w. split; reflexivity.
  - destruct (reply B _ _ w) as [[err|sha] w1]; rewrite run_bind;
      specialize (IH w1);
      destruct (run B (blob_promises _ _ _) w1) as [[[e|settled] w2] tr]; cbn;
      rewrite ?app_nil_r; intros Hacc; apply Forall_cons in Hacc as [Hhd Hacc];
      try discriminate Hhd.
    + destruct (IH Hacc) as (shas & w' & _ & [=]).
    + destruct (IH Hacc) as (shas & w' & Hlen & [= -> -> ->]).
      exists (sha :: shas), w'. split; [cbn; congruence|reflexivity].
Qed.

Lemma Promise_all_values {A : Type} (values : list A) (w : world B) :
  run B (Promise_all (inr <$> values)) w = (inr values, w, []).
Proof.
  induction values as [|a values IH]; cbn; [reflexivity|].
  rewrite run_bind.
  change (list_fmap A (RequestError + A)%type inr values) with (inr (A:=RequestError) <$> values).
  rewrite IH. reflexivity.
Qed.

Lemma blob_entries_paths (files : list (string * string)) (shas : list string) :
  (fun b => (te_path b, te_sha b)) <$> zip_with blob_entry files shas
  = zip files.*1 shas.
Proof.
  revert shas. induction files as [|f fs IH]; intros [|sha shas]; cbn; try reflexivity.
  rewrite <- IH. reflexivity.
Qed.

Local Ltac accept :=
  cbn [run bind call catch negb];
  lazymatch goal with
  | |- context [reply B ?X ?c ?w] =>
      let r := fresh "r" in
      let w' := fresh "w" in
      destruct (reply B X c w) as [[?err|r] w']
  end;
  cbn [run bind call catch negb];
  [ intros Hacc; exfalso; cbn in Hacc;
    repeat (rewrite Forall_cons in Hacc || rewrite Forall_app in Hacc); cbn in Hacc;
    repeat match goal with
           | H : _ /\ _ |- _ => destruct H
           end; discriminate
  | ].

(** The multi-file commit when the repository accepts every call, for a
    request with or without a branch: the route looks the repository up,
    reads the head of [heads/<branch>] ([main] when the request names no
    branch) and its commit, creates one blob per file from the encoded
    content, in the order of the files, creates a tree on the base tree
    with one entry per file (mode 100644, type blob, the sha of its blob),
    creates a commit of that tree whose one parent is the head commit, and
    updates [heads/<branch>] to the new commit; it answers 200 with the
    commit, the (path, blob sha) of each file and the branch. *)
Theorem push_files_accepted_sequence
    (w : world B) (repoName message : string) (branch : option string)
    (files : list (string * string)) :
  truthy repoName = true -> truthy message = true ->
  from_option truthy true branch = true ->
  Forall (fun f => truthy f.1 = true /\ truthy f.2 = true) files ->
  Forall (fun e => rejected e = false)
    (trace B (push_files OWNER (Samples.pushFiles_body_on repoName branch files message))
       w) ->
  exists head lc shas tree nc,
    length shas = length files
    /\ trace B (push_files OWNER (Samples.pushFiles_body_on repoName branch files message))
         w
       = [ Ev (repos_get OWNER repoName) (inr tt);
           Ev (git_getRef OWNER repoName ("heads/" ++ default "main" branch)%string)
             (inr head);
           Ev (git_getCommit OWNER repoName head) (inr lc) ]
         ++ zip_with (blob_event OWNER repoName) files shas
         ++ [ Ev (git_createTree OWNER repoName (cd_tree_sha lc)
                    (zip_with blob_entry files shas)) (inr tree);
              Ev (git_createCommit OWNER repoName message tree [cd_sha lc]) (inr nc);
              Ev (git_updateRef OWNER repoName ("heads/" ++ default "main" branch)%string
                    (nc_sha nc)) (inr tt) ]
    /\ outcome B
         (push_files OWNER (Samples.pushFiles_body_on repoName branch files message)) w
       = inr (json_ (BPushFiles nc (zip files.*1 shas)
                       (OWNER ++ "/" ++ repoName)%string (default "main" branch))).
Proof.
  intros Hr Hm Hb Hok. unfold outcome, trace, push_files.
  rewrite (validate_pushFiles_body_on repoName message branch files Hr Hm Hb Hok).
  cbn [prop assoc str_of String.eqb Ascii.eqb Bool.eqb files_of].
  unfold checkRepoExists.
  cbn [run bind call catch negb].
  destruct (reply B _ (repos_get OWNER repoName) w) as [[err|[]] w1];
    cbn [run bind call catch negb].
  { destruct (bool_decide _); cbn; intros Hacc; apply Forall_cons in Hacc as [Hhd _];
      discriminate Hhd. }
  accept. accept.
  rewrite run_catch, run_bind.
  pose proof (blob_promises_accepted repoName files w2) as Hblobs.
  destruct (run B (blob_promises OWNER repoName _) w2) as [[settled w3] trb] eqn:Hrun.
  intros Hacc.
  assert (Htrb : Forall (fun e => rejected e = false) trb).
  { revert Hacc. destruct settled as [e|settled]; cbn.
    - rewrite !Forall_cons, !Forall_app. tauto.
    - match goal with
      | |- context [run B ?p w3] => destruct (run B p w3) as [[o w4] t2]
      end.
      destruct o; cbn; rewrite !Forall_cons, !Forall_app; tauto. }
  destruct (Hblobs Htrb) as (shas & w' & Hlen & [= -> -> ->]).
  revert Hacc. rewrite run_bind, Promise_all_values.
  accept. accept. accept. destruct r3.
  intros _. exists r, r0, shas, r1, r2. split; [exact Hlen|]. split.
  - cbn. rewrite ?app_nil_r, <- ?app_assoc. reflexivity.
  - cbn. rewrite blob_entries_paths. reflexivity.
Qed.

End CommitSuccess.

Lemma push_files_accepted_sequence_witness :
  exists head lc shas tree nc,
    length shas = length [("a.txt", "1"); ("b.txt", "2")]
    /\ trace Scenario.steady
         (Part000.push_files "o"
            (Samples.pushFiles_body_on "r" (Some "dev") [("a.txt", "1"); ("b.txt", "2")]
               "m")) tt
       = [ Octokit.Ev (Octokit.repos_get "o" "r") (inr tt);
           Octokit.Ev (Octokit.git_getRef "o" "r" "heads/dev") (inr head);
           Octokit.Ev (Octokit.git_getCommit "o" "r" head) (inr lc) ]
         ++ zip_with (blob_event "o" "r") [("a.txt", "1"); ("b.txt", "2")] shas
         ++ [ Octokit.Ev
                (Octokit.git_createTree "o" "r" (Octokit.cd_tree_sha lc)
                   (zip_with blob_entry [("a.txt", "1"); ("b.txt", "2")] shas))
                (inr tree);
              Octokit.Ev (Octokit.git_createCommit "o" "r" "m" tree [Octokit.cd_sha lc])
                (inr nc);
              Octokit.Ev (Octokit.git_updateRef "o" "r" "heads/dev" (Octokit.nc_sha nc))
                (inr tt) ]
    /\ outcome Scenario.steady
         (Part000.push_files "o"
            (Samples.pushFiles_body_on "r" (Some "dev") [("a.txt", "1"); ("b.txt", "2")]
               "m")) tt
       = inr (Part000.json_
                (Part000.BPushFiles nc (zip [("a.txt", "1"); ("b.txt", "2")].*1 shas)
                   ("o" ++ "/" ++ "r")%string "dev")).
Proof.
  apply (push_files_accepted_sequence Scenario.steady "o" tt "r" "m" (Some "dev")
           [("a.txt", "1"); ("b.txt", "2")]).
  - reflexivity.
  - reflexivity.
  - reflexivity.
  - repeat constructor.
  - vm_compute. repeat constructor.
Defined.

(** *** The content codec *)

(** Decoding an encoded content gives the content back, for every ASCII
    content: the stored form of such a text loses nothing. *)
Theorem content_codec_round_trip (content : string) :
  JsString.is_ascii content = true ->
  decodeContent (encodeContent content) = content.
Proof. intros _. unfold decodeContent, encodeContent. apply decode_encode. Qed.

Lemma content_codec_round_trip_witness :
  decodeContent (encodeContent "const x = 1;") = "const x = 1;".
Proof. apply (content_codec_round_trip "const x = 1;"). reflexivity. Defined.

(** The padding of the encoded form: its length is a multiple of four. *)
Lemma encode_length (content : string) :
  String.length (encodeContent content) = (4 * ((String.length content + 2) / 3))%nat.
Proof.
  unfold encodeContent.
  induction content as [|a|a b|a b c r IH] using string_ind3;
    cbn [Base64.encode String.length]; try reflexivity.
  rewrite IH.
  replace (S (S (S (String.length r))) + 2)%nat with (1 * 3 + (String.length r + 2))%nat
    by lia.
  rewrite Nat.div_add_l by lia. lia.
Qed.

(** *** The validation facts at concrete requests *)

Lemma empty_content_rejected_witness :
  (exists e,
      Part000.add_file 1
        (JObj [ ("context_id", JStr Scenario.ctx0); ("path", JStr "a.txt") ])
        Scenario.sample_store
      = (Part000.status_json 400 (Part000.BValidation e), Scenario.sample_store))
  /\ (exists e,
         Part000.push_files "o"
           (JObj [ ("repoName", JStr "r");
                   ("files", JArr [ Scenario.file_json ("a.txt", "1");
                                    JObj [ ("path", JStr "b.txt"); ("content", JNum 7) ] ]);
                   ("message", JStr "m") ])
         = Octokit.Ret (Part000.status_json 400 (Part000.BValidation e))).
Proof.
  split.
  - apply (empty_content_rejected 1 "o"
             (JObj [ ("context_id", JStr Scenario.ctx0); ("path", JStr "a.txt") ])
             Scenario.sample_store).
    reflexivity.
  - apply (proj2 (empty_content_rejected 0 "o"
                    (JObj [ ("repoName", JStr "r");
                            ("files",
                              JArr [ Scenario.file_json ("a.txt", "1");
                                     JObj [ ("path", JStr "b.txt");
                                            ("content", JNum 7) ] ]);
                            ("message", JStr "m") ])
                    ∅)
             [ Scenario.file_json ("a.txt", "1");
               JObj [ ("path", JStr "b.txt"); ("content", JNum 7) ] ]
             (JObj [ ("path", JStr "b.txt"); ("content", JNum 7) ])).
    + reflexivity.
    + right. left. reflexivity.
    + reflexivity.
Defined.

Lemma push_files_validation_gate_witness :
  Octokit.run Scenario.steady
    (Part000.push_files "o" (JObj [ ("repoName", JStr "r"); ("message", JStr "m") ])) tt
  = (inr (Part000.status_json 400
            (Part000.BValidation
               {| Joi.type := Joi.any_required; Joi.path := [Joi.Key "files"] |})),
     tt, [])
  /\ (exists e,
         Part000.validateInput Part000.schemas_pushFiles
           (JObj [ ("repoName", JStr "r"); ("files", JStr "a.txt"); ("message", JStr "m") ])
         = inl e)
  /\ (exists r rest,
         trace Scenario.steady
           (Part000.push_files "o" (Scenario.pushFiles_body "r" [] "m")) tt
         = Octokit.Ev (Octokit.repos_get "o" "r") r :: rest).
Proof.
  destruct (push_files_validation_gate Scenario.steady "o" tt) as (H1 & H2 & H3).
  split; [|split].
  - apply H1. reflexivity.
  - apply H2. intros items. discriminate.
  - apply H3; reflexivity.
Defined.

Lemma presence_check_precedes_lookup_witness :
  Part000.remove_file (Some "ctx_9_zzz") None Scenario.sample_store
  = (Part000.status_json 400 (Part000.BError "context_id and path required" None),
     Scenario.sample_store)
  /\ Part000.get_context (Some "") Scenario.sample_store
     = Part000.status_json 400 (Part000.BError "context_id required" None)
  /\ Part000.search (Some "ctx_9_zzz") (Some "") Scenario.sample_store
     = Part000.status_json 400 (Part000.BError "context_id and query required" None)
  /\ present (Some "ctx_9_zzz") = true /\ present (Some "hello") = true.
Proof.
  destruct (presence_check_precedes_lookup Scenario.sample_store
              (Some "ctx_9_zzz") None (Some ""))
    as (H1 & _ & H3 & _).
  destruct (presence_check_precedes_lookup Scenario.sample_store
              (Some "") None None)
    as (_ & H2 & _).
  destruct (presence_check_precedes_lookup Scenario.sample_store
              (Some "ctx_9_zzz") None (Some "hello"))
    as (_ & _ & _ & _ & _ & H6).
  split; [apply H1; right; reflexivity|].
  split; [apply H2; reflexivity|].
  split; [apply H3; right; reflexivity|].
  apply H6. vm_compute. reflexivity.
Defined.

(** *** What the schema of add_file accepts *)

Section SchemaFacts.
Import Part000.

Lemma unknown_key_None (keys : list (string * Joi.schema)) (fields : list (string * json)) :
  Joi.unknown_key keys fields = None
  <-> forall k, is_Some (assoc k fields) -> In k keys.*1.
Proof.
  unfold Joi.unknown_key. induction fields as [|[k v] fields IH]; cbn.
  - split; [intros _ k [x [=]]|reflexivity].
  - destruct (existsb _ keys) eqn:Hk; cbn.
    + rewrite IH. apply existsb_exists in Hk as ([k' sk] & Hin & Heq).
      cbn in Heq. apply String.eqb_eq in Heq. subst k'.
      assert (Hkin : In k keys.*1).
      { apply list_elem_of_In, list_elem_of_fmap. exists (k, sk).
        split; [reflexivity|apply list_elem_of_In, Hin]. }
      split.
      * intros H k0 Hsome. destruct (String.eqb k0 k) eqn:E.
        -- apply String.eqb_eq in E. subst. exact Hkin.
        -- apply H, Hsome.
      * intros H k0 Hsome. apply H. destruct (String.eqb k0 k); [eauto|exact Hsome].
    + split; [discriminate|]. intros H. exfalso.
      assert (Hin : In k keys.*1).
      { apply H. rewrite String.eqb_refl. eauto. }
      apply list_elem_of_In, list_elem_of_fmap in Hin as ([k' sk] & -> & Hin).
      apply not_true_iff_false in Hk. apply Hk, existsb_exists.
      exists (k', sk). split; [apply list_elem_of_In, Hin|]. cbn. apply String.eqb_refl.
Qed.

Lemma required_string_inv (at_ : list Joi.seg) (v : option json) (v' : option json) :
  Joi.validate (Joi.required Joi.string) at_ v = inr v'
  <-> exists s, v = Some (JStr s) /\ truthy s = true /\ v' = Some (JStr s).
Proof.
  unfold truthy. cbn. destruct v as [[| | |s| |]|]; cbn;
    try (split; [discriminate|intros (s' & [=] & _)]).
  destruct (String.eqb s "") eqn:E; cbn.
  - split; [discriminate|]. intros (s' & [= <-] & H & _). rewrite E in H. discriminate.
  - split; [intros [= <-]; exists s; rewrite E; auto|].
    intros (s' & [= <-] & _ & ->). reflexivity.
Qed.

Lemma optional_string_inv (at_ : list Joi.seg) (d : option string) (v : option json)
    (v' : option json) :
  Joi.validate (Joi.SString Joi.Optional false d) at_ v = inr v'
  <-> optional_string v = true
      /\ v' = match v with
              | Some x => Some x
              | None => JStr <$> d
              end.
Proof.
  unfold optional_string, truthy. cbn. destruct v as [[| | |s| |]|]; cbn;
    try (split; [discriminate|intros [[=] _]]).
  - destruct (String.eqb s ""); cbn.
    + split; [discriminate|intros [[=] _]].
    + split; [intros [= <-]; auto|]. intros [_ ->]. reflexivity.
  - destruct d; cbn; (split; [intros [= <-]; auto|intros [_ ->]; reflexivity]).
Qed.

Lemma validate_addFile_iff (body value : json) :
  validateInput schemas_addFile body = inr value
  <-> exists fields c p v,
        body = JObj fields
        /\ assoc "context_id" fields = Some (JStr c) /\ truthy c = true
        /\ assoc "path" fields = Some (JStr p) /\ truthy p = true
        /\ assoc "content" fields = Some (JStr v) /\ truthy v = true
        /\ optional_string (assoc "repo" fields) = true
        /\ optional_string (assoc "branch" fields) = true
        /\ (forall k, is_Some (assoc k fields) -> In k addFile_keys)
        /\ value
           = JObj ([ ("context_id", JStr c); ("path", JStr p); ("content", JStr v) ]
                   ++ match assoc "repo" fields with
                      | Some r => [("repo", r)]
                      | None => []
                      end
                   ++ [ ("branch", default (JStr "main") (assoc "branch" fields)) ]).
Proof.
  unfold validateInput, schemas_addFile.
  destruct body as [| | | | |fields];
    try (split; [discriminate|intros (f & c & p & v & [=] & _)]).
  change (Joi.validate (Joi.object ?ks) [] (Some (JObj fields)))
    with (match Joi.known Joi.validate [] fields ks with
          | inl e => inl e
          | inr out =>
              match Joi.unknown_key ks fields with
              | Some k => inl {| Joi.type := Joi.object_unknown;
                                 Joi.path := [] ++ [Joi.Key k] |}
              | None => inr (Some (JObj out))
              end
          end).
  cbn [Joi.known].
  pose proof (required_string_inv ([] ++ [Joi.Key "context_id"]) (assoc "context_id" fields))
    as Hc.
  pose proof (required_string_inv ([] ++ [Joi.Key "path"]) (assoc "path" fields)) as Hp.
  pose proof (required_string_inv ([] ++ [Joi.Key "content"]) (assoc "content" fields))
    as Hv.
  pose proof (optional_string_inv ([] ++ [Joi.Key "repo"]) None (assoc "repo" fields))
    as Hr.
  pose proof (optional_string_inv ([] ++ [Joi.Key "branch"]) (Some "main")
                (assoc "branch" fields)) as Hb.
  pose proof (unknown_key_None
                [ ("context_id", Joi.required Joi.string);
                  ("path", Joi.required Joi.string);
                  ("content", Joi.required Joi.string);
                  ("repo", Joi.optional Joi.string);
                  ("branch", Joi.default "main" Joi.string) ] fields) as Hu.
  change (Joi.optional Joi.string) with (Joi.SString Joi.Optional false None) in *.
  change (Joi.default "main" Joi.string)
    with (Joi.SString Joi.Optional false (Some "main")) in *.
  split.
  - destruct (Joi.validate (Joi.required Joi.string) _ (assoc "context_id" fields))
      as [e|c'] eqn:Ec; [discriminate|].
    destruct (Joi.validate (Joi.required Joi.string) _ (assoc "path" fields))
      as [e|p'] eqn:Ep; [discriminate|].
    destruct (Joi.validate (Joi.required Joi.string) _ (assoc "content" fields))
      as [e|v'] eqn:Ev; [discriminate|].
    destruct (Joi.validate (Joi.SString Joi.Optional false None) _ (assoc "repo" fields))
      as [e|r'] eqn:Er; [discriminate|].
    destruct (Joi.validate (Joi.SString Joi.Optional false (Some "main")) _
                (assoc "branch" fields)) as [e|b'] eqn:Eb; [discriminate|].
    destruct (proj1 (Hc c') eq_refl) as (c & Hc1 & Hc2 & ->).
    destruct (proj1 (Hp p') eq_refl) as (p & Hp1 & Hp2 & ->).
    destruct (proj1 (Hv v') eq_refl) as (v & Hv1 & Hv2 & ->).
    destruct (proj1 (Hr r') eq_refl) as (Hr1 & ->).
    destruct (proj1 (Hb b') eq_refl) as (Hb1 & ->).
    destruct (Joi.unknown_key _ fields) as [k|] eqn:Eu; [discriminate|].
    intros [= <-]. exists fields, c, p, v.
    repeat (split; [assumption || reflexivity|]).
    split; [exact (proj1 Hu eq_refl)|].
    destruct (assoc "repo" fields), (assoc "branch" fields); reflexivity.
  - intros (f & c & p & v & [= <-] & Hc1 & Hc2 & Hp1 & Hp2 & Hv1 & Hv2 & Hr1 & Hb1
            & Hk & ->).
    rewrite (proj2 (Hc (Some (JStr c)))) by eauto.
    rewrite (proj2 (Hp (Some (JStr p)))) by eauto.
    rewrite (proj2 (Hv (Some (JStr v)))) by eauto.
    rewrite (proj2 (Hr _) (conj Hr1 eq_refl)).
    rewrite (proj2 (Hb _) (conj Hb1 eq_refl)).
    rewrite (proj2 Hu Hk).
    destruct (assoc "repo" fields), (assoc "branch" fields); reflexivity.
Qed.

(** The schema of [add_file] accepts a body exactly when it is an object
    in which [context_id], [path] and [content] are strings that are not
    empty, [repo] and [branch] are absent or such strings, and no other key
    occurs; the value handed to the route holds these fields, with
    [branch] set to [main] when the body has none. *)
Theorem addFile_validation (body value : json) :
  validateInput schemas_addFile body = inr value
  <-> exists fields c p v,
        body = JObj fields
        /\ assoc "context_id" fields = Some (JStr c) /\ truthy c = true
        /\ assoc "path" fields = Some (JStr p) /\ truthy p = true
        /\ assoc "content" fields = Some (JStr v) /\ truthy v = true
        /\ optional_string (assoc "repo" fields) = true
        /\ optional_string (assoc "branch" fields) = true
        /\ (forall k, is_Some (assoc k fields) -> In k addFile_keys)
        /\ value
           = JObj ([ ("context_id", JStr c); ("path", JStr p); ("content", JStr v) ]
                   ++ match assoc "repo" fields with
                      | Some r => [("repo", r)]
                      | None => []
                      end
                   ++ [ ("branch", default (JStr "main") (assoc "branch" fields)) ]).
Proof. apply validate_addFile_iff. Qed.

End SchemaFacts.

(** *** Every accepted add_file, and what the store routes leave alone *)

Section StoreInvariants.
Import JsString Part000.

(** An [add_file] that is answered 200, for any body: the fields, the
    context it found, and the store it leaves. *)
Lemma add_file_inv (now : Z) (body : json) (store : gmap string Context) :
  status (add_file now body store).1 = 200 ->
  exists fields c p v ctx,
    body = JObj fields
    /\ assoc "context_id" fields = Some (JStr c) /\ truthy c = true
    /\ assoc "path" fields = Some (JStr p) /\ truthy p = true
    /\ assoc "content" fields = Some (JStr v) /\ truthy v = true
    /\ optional_string (assoc "repo" fields) = true
    /\ optional_string (assoc "branch" fields) = true
    /\ store !! c = Some ctx
    /\ (add_file now body store).2
       = <[c := {| created := created ctx;
                   files := JsObject.set p
                              {| content := encodeContent v; added := now;
                                 size := byteLength v |} (files ctx);
                   repoInfo :=
                     match assoc "repo" fields with
                     | Some (JStr r) =>
                         Some {| repo := r;
                                 branch := match assoc "branch" fields with
                                           | Some (JStr b) => b
                                           | _ => "main"
                                           end |}
                     | _ => repoInfo ctx
                     end |}]> store.
Proof.
  unfold add_file.
  destruct (validateInput schemas_addFile body) as [e|value] eqn:E; [discriminate|].
  apply validate_addFile_iff in E
    as (fields & c & p & v & -> & Hc & Hct & Hp & Hpt & Hv & Hvt & Hr & Hb & _ & ->).
  assert (Hprop :
    prop "context_id"
      (JObj ([ ("context_id", JStr c); ("path", JStr p); ("content", JStr v) ]
             ++ match assoc "repo" fields with
                | Some r => [("repo", r)]
                | None => []
                end
             ++ [ ("branch", default (JStr "main") (assoc "branch" fields)) ]))
    = Some (JStr c)) by reflexivity.
  intros H200.
  assert (exists ctx, store !! c = Some ctx) as [ctx Hs].
  { rewrite Hprop in H200. cbn [str_of] in H200.
    destruct (store !! c) as [ctx|]; [eauto|discriminate]. }
  exists fields, c, p, v, ctx.
  repeat (split; [assumption || reflexivity|]).
  unfold optional_string in Hr, Hb.
  destruct (assoc "repo" fields) as [[| | |r| |]|]; try discriminate;
    destruct (assoc "branch" fields) as [[| | |b| |]|]; try discriminate;
    cbn -[encodeContent byteLength JsObject.set];
    rewrite Hs, ?Hr, ?Hb; reflexivity.
Qed.

Lemma add_file_rejected (now : Z) (body : json) (store : gmap string Context) :
  status (add_file now body store).1 <> 200 -> (add_file now body store).2 = store.
Proof.
  unfold add_file. destruct (validateInput schemas_addFile body); [reflexivity|].
  destruct (store !! _); [|reflexivity]. cbn. congruence.
Qed.

Lemma remove_file_inv (cid path : option string) (store : gmap string Context) :
  status (remove_file cid path store).1 = 200 ->
  exists c p ctx,
    cid = Some c /\ path = Some p /\ store !! c = Some ctx
    /\ JsObject.get_truthy field_truthy p (files ctx) = true
    /\ (remove_file cid path store).2
       = <[c := {| created := created ctx;
                   files := JsObject.delete_key p (files ctx);
                   repoInfo := repoInfo ctx |}]> store.
Proof.
  unfold remove_file.
  destruct cid as [c|], path as [p|]; cbn;
    try (destruct (negb _); discriminate); try discriminate.
  destruct (negb (truthy c) || negb (truthy p)); [discriminate|].
  destruct (store !! c) as [ctx|] eqn:Hs; [|discriminate].
  destruct (JsObject.get_truthy field_truthy p (files ctx)) eqn:Hg; [|discriminate].
  intros _. exists c, p, ctx. repeat (split; [assumption || reflexivity|]). reflexivity.
Qed.

Lemma remove_file_rejected (cid path : option string) (store : gmap string Context) :
  status (remove_file cid path store).1 <> 200 -> (remove_file cid path store).2 = store.
Proof.
  unfold remove_file. destruct (negb (present cid) || negb (present path)); [reflexivity|].
  destruct (store !! _); [|reflexivity].
  destruct (JsObject.get_truthy _ _ _); [|reflexivity]. cbn. congruence.
Qed.

(** On the validated server a request touches at most the context it
    names: [init] leaves every context but the one of the new id as it
    was, [add_file] and [remove_file] leave every context but the one of
    their [context_id]; a request that is not answered 200 leaves the
    whole store as it was; and neither [add_file] nor [remove_file] makes a
    context or changes the creation time of one. *)
Theorem requests_touch_one_context
    (store : gmap string Context) (now : Z) (rnd : string) (body : json)
    (cid path : option string) :
  (forall c', c' <> new_context_id now rnd -> (init now rnd store).2 !! c' = store !! c')
  /\ (forall c', prop "context_id" body <> Some (JStr c')
                 -> (add_file now body store).2 !! c' = store !! c')
  /\ (forall c', cid <> Some c' -> (remove_file cid path store).2 !! c' = store !! c')
  /\ (status (add_file now body store).1 <> 200 -> (add_file now body store).2 = store)
  /\ (status (remove_file cid path store).1 <> 200
      -> (remove_file cid path store).2 = store)
  /\ (forall c',
        created <$> ((add_file now body store).2 !! c') = created <$> (store !! c')
        /\ created <$> ((remove_file cid path store).2 !! c') = created <$> (store !! c')).
Proof.
  split; [|split; [|split; [|split; [|split]]]].
  - intros c' Hne. cbn. apply lookup_insert_ne. congruence.
  - intros c' Hne. destruct (decide (status (add_file now body store).1 = 200)) as [H|H].
    + apply add_file_inv in H as (fields & c & p & v & ctx & -> & Hc & _ & _ & _ & _ & _
                                  & _ & _ & _ & ->).
      apply lookup_insert_ne. cbn in Hne. congruence.
    + rewrite add_file_rejected by assumption. reflexivity.
  - intros c' Hne.
    destruct (decide (status (remove_file cid path store).1 = 200)) as [H|H].
    + apply remove_file_inv in H as (c & p & ctx & -> & _ & _ & _ & ->).
      apply lookup_insert_ne. congruence.
    + rewrite remove_file_rejected by assumption. reflexivity.
  - apply add_file_rejected.
  - apply remove_file_rejected.
  - intros c'. split.
    + destruct (decide (status (add_file now body store).1 = 200)) as [H|H].
      * apply add_file_inv in H as (fields & c & p & v & ctx & _ & _ & _ & _ & _ & _ & _
                                    & _ & _ & Hs & ->).
        destruct (decide (c = c')) as [<-|Hne].
        -- rewrite lookup_insert_eq, Hs. reflexivity.
        -- rewrite lookup_insert_ne by assumption. reflexivity.
      * rewrite add_file_rejected by assumption. reflexivity.
    + destruct (decide (status (remove_file cid path store).1 = 200)) as [H|H].
      * apply remove_file_inv in H as (c & p & ctx & _ & _ & Hs & _ & ->).
        destruct (decide (c = c')) as [<-|Hne].
        -- rewrite lookup_insert_eq, Hs. reflexivity.
        -- rewrite lookup_insert_ne by assumption. reflexivity.
      * rewrite remove_file_rejected by assumption. reflexivity.
Qed.

(** An accepted [add_file] sets the repository of the context only when
    the body names one: with [repo] (and [branch], [main] when the body has
    none), the context's [repo_info] is overwritten; without [repo] it is
    kept, whatever [branch] says.  [get_context] shows it. *)
Theorem add_file_repo_info
    (store : gmap string Context) (now : Z) (body : json) :
  status (add_file now body store).1 = 200 ->
  exists c ctx files,
    prop "context_id" body = Some (JStr c)
    /\ store !! c = Some ctx
    /\ get_context (Some c) (add_file now body store).2
       = json_ (BContext c (created ctx) files
                  match prop "repo" body with
                  | Some (JStr r) =>
                      Some {| repo := r;
                              branch := match prop "branch" body with
                                        | Some (JStr b) => b
                                        | _ => "main"
                                        end |}
                  | _ => repoInfo ctx
                  end
                  (length files)).
Proof.
  intros H.
  apply add_file_inv in H as (fields & c & p & v & ctx & -> & Hc & Hct & _ & _ & _ & _
                              & _ & _ & Hs & ->).
  exists c, ctx,
    (file_view <$> JsObject.entries
       (JsObject.set p {| content := encodeContent v; added := now; size := byteLength v |}
          (files ctx))).
  split; [exact Hc|]. split; [exact Hs|].
  unfold get_context. cbn [present]. rewrite Hct.
  change (default "" (Some c)) with c. rewrite lookup_insert_eq.
  cbn [negb created files repoInfo prop]. unfold JsObject.keys.
  rewrite !length_fmap. reflexivity.
Qed.

End StoreInvariants.

Lemma add_file_repo_info_witness :
  Part000.status
    (Part000.add_file 1 (Samples.addFile_repo_body Scenario.ctx0 "a.txt" "v" "demo")
       Samples.fresh_store).1 = 200
  /\ exists c ctx files,
       prop "context_id" (Samples.addFile_repo_body Scenario.ctx0 "a.txt" "v" "demo")
       = Some (JStr c)
       /\ Samples.fresh_store !! c = Some ctx
       /\ Part000.get_context (Some c)
            (Part000.add_file 1 (Samples.addFile_repo_body Scenario.ctx0 "a.txt" "v" "demo")
               Samples.fresh_store).2
          = Part000.json_
              (Part000.BContext c (Part000.created ctx) files
                 (Some {| repo := "demo"; branch := "main" |}) (length files)).
Proof.
  split; [vm_compute; reflexivity|].
  apply (add_file_repo_info Samples.fresh_store 1
           (Samples.addFile_repo_body Scenario.ctx0 "a.txt" "v" "demo")).
  vm_compute; reflexivity.
Defined.

(** *** One entry at a time *)

Section EntryFacts.
Import JsString Part000.

Lemma in_file_views (m : gmap string FileEntry) (fv : FileView) :
  In fv (file_view <$> map_to_list m)
  <-> exists k e, m !! k = Some e /\ fv = file_view (k, e).
Proof.
  rewrite <- list_elem_of_In, list_elem_of_fmap. split.
  - intros ([k e] & -> & Hin). apply elem_of_map_to_list in Hin. eauto.
  - intros (k & e & Hm & ->). exists (k, e). split; [reflexivity|].
    apply elem_of_map_to_list. exact Hm.
Qed.

Lemma get_context_listing (store : gmap string Context) (c : string) (ctx : Context) :
  store !! c = Some ctx -> truthy c = true ->
  get_context (Some c) store
  = json_ (BContext c (created ctx) (file_view <$> JsObject.entries (files ctx))
             (repoInfo ctx) (length (file_view <$> JsObject.entries (files ctx)))).
Proof.
  intros Hs Hc. unfold get_context. cbn [present]. rewrite Hc.
  change (default "" (Some c)) with c. rewrite Hs. cbn [negb]. unfold JsObject.keys.
  rewrite !length_fmap. reflexivity.
Qed.

(** An accepted [add_file] changes the listing of its context at its own
    path only: every entry that [get_context] showed for another path is
    shown afterwards, unchanged, and no entry for another path is new. *)
Theorem add_file_keeps_other_entries
    (store : gmap string Context) (now : Z) (body : json) :
  status (add_file now body store).1 = 200 ->
  exists c p ctx files files',
    prop "context_id" body = Some (JStr c)
    /\ prop "path" body = Some (JStr p)
    /\ get_context (Some c) store
       = json_ (BContext c (created ctx) files (repoInfo ctx) (length files))
    /\ (exists repo_info,
          get_context (Some c) (add_file now body store).2
          = json_ (BContext c (created ctx) files' repo_info (length files')))
    /\ forall fv, fv_path fv <> p -> (In fv files' <-> In fv files).
Proof.
  intros H.
  apply add_file_inv in H as (fields & c & p & v & ctx & -> & Hc & Hct & Hp & _ & _ & _
                              & _ & _ & Hs & ->).
  exists c, p, ctx. eexists _, _.
  split; [exact Hc|]. split; [exact Hp|].
  split; [apply (get_context_listing store c ctx Hs Hct)|].
  split.
  - eexists. erewrite get_context_listing; [|apply lookup_insert_eq|exact Hct].
    cbn [created files repoInfo]. reflexivity.
  - intros fv Hne. unfold JsObject.entries, JsObject.set.
    destruct (String.eqb p "__proto__"); cbn [JsObject.own]; [reflexivity|].
    rewrite !in_file_views. split.
    + intros (k & e & Hk & ->). cbn in Hne.
      rewrite lookup_insert_ne in Hk by congruence. eauto.
    + intros (k & e & Hk & ->). cbn in Hne. exists k, e.
      rewrite lookup_insert_ne by congruence. auto.
Qed.

(** Adding a file at a path that the context does not hold and removing
    it again gives back the files of the context as they were: the removal
    is answered 200, and the context has its old [files] object and its
    old creation time (the path [__proto__] apart, which [add_file] does
    not store as an entry). *)
Theorem add_then_remove_restores
    (store : gmap string Context) (now : Z) (body : json) (c p : string)
    (ctx : Context) :
  status (add_file now body store).1 = 200 ->
  prop "context_id" body = Some (JStr c) ->
  prop "path" body = Some (JStr p) ->
  store !! c = Some ctx ->
  JsObject.own (files ctx) !! p = None ->
  p <> "__proto__" ->
  status (remove_file (Some c) (Some p) (add_file now body store).2).1 = 200
  /\ exists ctx',
       (remove_file (Some c) (Some p) (add_file now body store).2).2 !! c = Some ctx'
       /\ files ctx' = files ctx
       /\ created ctx' = created ctx.
Proof.
  intros H Hc Hp Hs Hown Hproto.
  apply add_file_inv in H as (fields & c0 & p0 & v & ctx0 & -> & Hc0 & Hct & Hp0 & Hpt & _
                              & _ & _ & _ & Hs0 & ->).
  cbn in Hc, Hp. rewrite Hc in Hc0. rewrite Hp in Hp0.
  injection Hc0 as <-. injection Hp0 as <-.
  rewrite Hs in Hs0. injection Hs0 as <-.
  erewrite remove_file_present; [|apply lookup_insert_eq|exact Hct|exact Hpt].
  cbn [files created repoInfo].
  assert (Hset : JsObject.set p {| content := encodeContent v; added := now;
                                   size := byteLength v |} (files ctx)
                 = {| JsObject.own := <[p := {| content := encodeContent v; added := now;
                                                size := byteLength v |}]>
                                        (JsObject.own (files ctx));
                      JsObject.proto := JsObject.proto (files ctx) |}).
  { unfold JsObject.set. destruct (String.eqb p "__proto__") eqn:E; [|reflexivity].
    apply String.eqb_eq in E. contradiction. }
  rewrite Hset. unfold JsObject.get_truthy. cbn [JsObject.own].
  rewrite lookup_insert_eq. cbn [fst snd status json_].
  split; [reflexivity|]. eexists. split; [apply lookup_insert_eq|].
  cbn [files created]. split; [|reflexivity].
  unfold JsObject.delete_key. cbn [JsObject.own JsObject.proto].
  rewrite delete_insert_id by exact Hown. destruct (files ctx); reflexivity.
Qed.

End EntryFacts.

Lemma add_then_remove_restores_witness :
  exists ctx,
    Samples.fresh_store !! Scenario.ctx0 = Some ctx
    /\ Part000.status
         (Part000.remove_file (Some Scenario.ctx0) (Some "a.txt")
            (Part000.add_file 1 (Scenario.addFile_body Scenario.ctx0 "a.txt" "v")
               Samples.fresh_store).2).1 = 200
    /\ exists ctx',
         (Part000.remove_file (Some Scenario.ctx0) (Some "a.txt")
            (Part000.add_file 1 (Scenario.addFile_body Scenario.ctx0 "a.txt" "v")
               Samples.fresh_store).2).2 !! Scenario.ctx0 = Some ctx'
         /\ Part000.files ctx' = Part000.files ctx
         /\ Part000.created ctx' = Part000.created ctx.
Proof.
  eexists. split; [vm_compute; reflexivity|].
  apply (add_then_remove_restores Samples.fresh_store 1
           (Scenario.addFile_body Scenario.ctx0 "a.txt" "v") Scenario.ctx0 "a.txt");
    try (vm_compute; reflexivity).
  discriminate.
Defined.

Lemma add_file_keeps_other_entries_witness :
  Part000.status
    (Part000.add_file 5 (Scenario.addFile_body Scenario.ctx0 "b.txt" "w")
       Scenario.sample_store).1 = 200
  /\ exists c p ctx files files',
       prop "context_id" (Scenario.addFile_body Scenario.ctx0 "b.txt" "w") = Some (JStr c)
       /\ prop "path" (Scenario.addFile_body Scenario.ctx0 "b.txt" "w") = Some (JStr p)
       /\ Part000.get_context (Some c) Scenario.sample_store
          = Part000.json_
              (Part000.BContext c (Part000.created ctx) files (Part000.repoInfo ctx)
                 (length files))
       /\ (exists repo_info,
             Part000.get_context (Some c)
               (Part000.add_file 5 (Scenario.addFile_body Scenario.ctx0 "b.txt" "w")
                  Scenario.sample_store).2
             = Part000.json_
                 (Part000.BContext c (Part000.created ctx) files' repo_info (length files')))
       /\ forall fv, Part000.fv_path fv <> p -> (In fv files' <-> In fv files).
Proof.
  split; [vm_compute; reflexivity|].
  apply (add_file_keeps_other_entries Scenario.sample_store 5
           (Scenario.addFile_body Scenario.ctx0 "b.txt" "w")).
  vm_compute; reflexivity.
Defined.

(** *** Context ids *)

Section IdFacts.

Lemma string_of_uint_digits (d : Decimal.uint) :
  ~ In "_"%char (list_ascii_of_string (NilEmpty.string_of_uint d)).
Proof.
  induction d; cbn; intros H; try (destruct H as [H|H]; [discriminate|]); auto.
Qed.

Lemma decimal_no_underscore (n : Z) : ~ In "_"%char (list_ascii_of_string (decimal n)).
Proof.
  unfold decimal, NilZero.string_of_int, NilZero.string_of_uint.
  destruct (Z.to_int n) as [d|d].
  - destruct d; try apply (string_of_uint_digits (Decimal.D0 _));
      try (intros [H|H]; [discriminate|revert H; apply string_of_uint_digits]).
    cbn. intros [H|[]]. discriminate.
  - intros [H|H]; [discriminate|]. revert H.
    destruct d; try (intros [H|H]; [discriminate|revert H; apply string_of_uint_digits]).
    cbn. intros [H|[]]. discriminate.
Qed.

Lemma to_int_not_nil (n : Z) :
  Z.to_int n <> Decimal.Pos Decimal.Nil /\ Z.to_int n <> Decimal.Neg Decimal.Nil.
Proof.
  split; intros H; pose proof (DecimalZ.of_to n) as Hn; rewrite H in Hn; cbn in Hn;
    subst n; discriminate.
Qed.

Lemma decimal_inj (a b : Z) : decimal a = decimal b -> a = b.
Proof.
  unfold decimal. intros H. apply (f_equal NilZero.int_of_string) in H.
  rewrite !NilZero.isi in H by apply to_int_not_nil.
  injection H as H. apply DecimalZ.to_int_inj, H.
Qed.

Lemma split_at_underscore (s t r r' : string) :
  ~ In "_"%char (list_ascii_of_string s) ->
  ~ In "_"%char (list_ascii_of_string t) ->
  (s ++ String "_" r)%string = (t ++ String "_" r')%string ->
  s = t /\ r = r'.
Proof.
  revert t. induction s as [|a s IH]; intros [|b t] Hs Ht; cbn.
  - intros [= <-]. auto.
  - intros [= <- _]. exfalso. apply Ht. left. reflexivity.
  - intros [= -> _]. exfalso. apply Hs. left. reflexivity.
  - intros [= <- H]. destruct (IH t) as [<- <-]; auto.
    + intros Hin. apply Hs. right. exact Hin.
    + intros Hin. apply Ht. right. exact Hin.
Qed.

Lemma new_context_id_inj (now now' : Z) (rnd rnd' : string) :
  new_context_id now rnd = new_context_id now' rnd' -> now = now' /\ rnd = rnd'.
Proof.
  unfold new_context_id. intros H.
  change ("ctx_" ++ ?x)%string with (String "c" (String "t" (String "x" (String "_" x)))) in H.
  injection H as H.
  apply split_at_underscore in H as [H ->]; try apply decimal_no_underscore.
  split; [apply decimal_inj, H|reflexivity].
Qed.

(** The id of a new context determines the clock reading and the random
    suffix it was made from: two [init] requests draw the same id only
    when both coincide.  So, on both servers, an [init] registers an empty
    context under its id and leaves a context made from another clock
    reading or another suffix in place. *)
Theorem init_ids_do_not_collide (now now' : Z) (rnd rnd' : string) :
  (new_context_id now rnd = new_context_id now' rnd' <-> now = now' /\ rnd = rnd')
  /\ (forall store,
        (Part000.init now rnd store).2 !! new_context_id now rnd
        = Some {| Part000.created := now; Part000.files := JsObject.empty;
                  Part000.repoInfo := None |}
        /\ ((now, rnd) <> (now', rnd') ->
            (Part000.init now' rnd' store).2 !! new_context_id now rnd
            = store !! new_context_id now rnd))
  /\ (forall store,
        (ServerJs.init now rnd store).2 !! new_context_id now rnd
        = Some {| ServerJs.created := now; ServerJs.files := JsObject.empty;
                  ServerJs.repoInfo := None |}
        /\ ((now, rnd) <> (now', rnd') ->
            (ServerJs.init now' rnd' store).2 !! new_context_id now rnd
            = store !! new_context_id now rnd)).
Proof.
  split; [split; [apply new_context_id_inj|intros [-> ->]; reflexivity]|].
  split; intros store; (split; [apply lookup_insert_eq|]); intros Hne;
    apply lookup_insert_ne; intros Heq; apply new_context_id_inj in Heq as [-> ->];
    apply Hne; reflexivity.
Qed.

End IdFacts.

(** *** The context store of the plain server *)

Section PlainStore.
Import ServerJs.

Lemma in_plain_listing (m : gmap string FileEntry) (p v : string) :
  In (p, v) ((fun kv : string * FileEntry => (kv.1, content kv.2)) <$> map_to_list m)
  <-> exists e, m !! p = Some e /\ content e = v.
Proof.
  rewrite <- list_elem_of_In, list_elem_of_fmap. split.
  - intros ([k e] & [= -> ->] & Hin). apply elem_of_map_to_list in Hin. eauto.
  - intros (e & Hm & <-). exists (p, e). split; [reflexivity|].
    apply elem_of_map_to_list. exact Hm.
Qed.

Lemma plain_listing_NoDup (m : gmap string FileEntry) :
  NoDup ((fun kv : string * FileEntry => (kv.1, content kv.2)) <$> map_to_list m).*1.
Proof.
  rewrite <- list_fmap_compose.
  apply (NoDup_fst_map_to_list m).
Qed.

(** The plain server stores a content as it is given, the empty string
    included: after [add_file] on a known context, for every path but
    [__proto__], [get_context] lists each path once, lists the path with
    exactly the given content, and lists every other path as before. *)
Theorem plain_add_file_then_get
    (store : gmap string Context) (now : Z) (c p v : string)
    (repo branch : option string) (ctx : Context) :
  store !! c = Some ctx ->
  p <> "__proto__" ->
  exists files files' repo_info,
    get_context c store = json_ (BContext files (repoInfo ctx))
    /\ get_context c (add_file now c p v repo branch store).2
       = json_ (BContext files' repo_info)
    /\ NoDup files'.*1
    /\ (forall v', In (p, v') files' <-> v' = v)
    /\ (forall p' v', p' <> p -> (In (p', v') files' <-> In (p', v') files)).
Proof.
  intros Hs Hproto. unfold add_file, get_context. rewrite Hs. cbn [snd].
  rewrite lookup_insert_eq. cbn [files repoInfo].
  eexists _, _, _. split; [reflexivity|]. split; [reflexivity|].
  unfold JsObject.entries, JsObject.set.
  destruct (String.eqb p "__proto__") eqn:E; [apply String.eqb_eq in E; contradiction|].
  cbn [JsObject.own]. split; [apply plain_listing_NoDup|]. split.
  - intros v'. rewrite in_plain_listing, lookup_insert_eq. split.
    + intros (e & [= <-] & <-). reflexivity.
    + intros ->. eauto.
  - intros p' v' Hne. rewrite !in_plain_listing, lookup_insert_ne by congruence.
    reflexivity.
Qed.

(** On the plain server [remove_file] on a known context always answers
    200, and afterwards [get_context] lists exactly the entries it listed
    before for the other paths: the path is gone if it was there, and
    nothing else changes. *)
Theorem plain_remove_file_then_get
    (store : gmap string Context) (c p : string) (ctx : Context) :
  store !! c = Some ctx ->
  status (remove_file c p store).1 = 200
  /\ exists files files',
       get_context c store = json_ (BContext files (repoInfo ctx))
       /\ get_context c (remove_file c p store).2
          = json_ (BContext files' (repoInfo ctx))
       /\ forall p' v', In (p', v') files' <-> p' <> p /\ In (p', v') files.
Proof.
  intros Hs. unfold remove_file, get_context. rewrite Hs. cbn [fst snd].
  split; [reflexivity|]. rewrite lookup_insert_eq. cbn [files repoInfo].
  eexists _, _. split; [reflexivity|]. split; [reflexivity|].
  intros p' v'. unfold JsObject.entries, JsObject.get_truthy, JsObject.delete_key.
  destruct (JsObject.own (files ctx) !! p) as [e|] eqn:Hp; cbn [JsObject.own].
  - rewrite !in_plain_listing. split.
    + intros (e' & He & <-). destruct (decide (p' = p)) as [->|Hne].
      * rewrite lookup_delete_eq in He. discriminate.
      * rewrite lookup_delete_ne in He by congruence. eauto.
    + intros (Hne & e' & He & <-). exists e'.
      rewrite lookup_delete_ne by congruence. auto.
  - destruct (JsObject.inherited field_truthy p (files ctx)); cbn [JsObject.own];
      rewrite ?delete_id by exact Hp; rewrite !in_plain_listing; split.
    + intros (e' & He & <-). split; [congruence|eauto].
    + intros [_ H]. exact H.
    + intros (e' & He & <-). split; [congruence|eauto].
    + intros [_ H]. exact H.
Qed.

End PlainStore.

Lemma plain_add_file_then_get_witness :
  exists ctx,
    Scenario.plain_store !! Scenario.ctx0 = Some ctx
    /\ exists files files' repo_info,
         ServerJs.get_context Scenario.ctx0 Scenario.plain_store
         = ServerJs.json_ (ServerJs.BContext files (ServerJs.repoInfo ctx))
         /\ ServerJs.get_context Scenario.ctx0
              (ServerJs.add_file 9 Scenario.ctx0 "a.txt" "" None None
                 Scenario.plain_store).2
            = ServerJs.json_ (ServerJs.BContext files' repo_info)
         /\ NoDup files'.*1
         /\ (forall v', In ("a.txt", v') files' <-> v' = "")
         /\ (forall p' v', p' <> "a.txt" -> (In (p', v') files' <-> In (p', v') files)).
Proof.
  eexists. split; [vm_compute; reflexivity|].
  apply (plain_add_file_then_get Scenario.plain_store 9 Scenario.ctx0 "a.txt" "" None None).
  - vm_compute; reflexivity.
  - discriminate.
Defined.

Lemma plain_remove_file_then_get_witness :
  exists ctx,
    Scenario.plain_store !! Scenario.ctx0 = Some ctx
    /\ ServerJs.status (ServerJs.remove_file Scenario.ctx0 "a.txt" Scenario.plain_store).1
       = 200
    /\ exists files files',
         ServerJs.get_context Scenario.ctx0 Scenario.plain_store
         = ServerJs.json_ (ServerJs.BContext files (ServerJs.repoInfo ctx))
         /\ ServerJs.get_context Scenario.ctx0
              (ServerJs.remove_file Scenario.ctx0 "a.txt" Scenario.plain_store).2
            = ServerJs.json_ (ServerJs.BContext files' (ServerJs.repoInfo ctx))
         /\ forall p' v', In (p', v') files' <-> p' <> "a.txt" /\ In (p', v') files.
Proof.
  eexists. split; [vm_compute; reflexivity|].
  apply (plain_remove_file_then_get Scenario.plain_store Scenario.ctx0 "a.txt").
  vm_compute; reflexivity.
Defined.

(** *** Commit messages *)

Section MessageFacts.
Import JsString CommitMessage.

Lemma string_app_assoc (a b c : string) : ((a ++ b) ++ c = a ++ b ++ c)%string.
Proof.
  induction a as [|x a IH]; [reflexivity|].
  change (String x ((a ++ b) ++ c) = String x (a ++ b ++ c))%string.
  rewrite IH. reflexivity.
Qed.

Lemma string_app_nil_r (a : string) : (a ++ "")%string = a.
Proof.
  induction a as [|x a IH]; [reflexivity|].
  change (String x (a ++ "") = String x a)%string. rewrite IH. reflexivity.
Qed.

Lemma includes_prepend (a s q : string) :
  includes s q = true -> includes (a ++ s) q = true.
Proof.
  rewrite !includes_app. intros (x & y & ->). exists (a ++ x)%string, y.
  rewrite string_app_assoc. reflexivity.
Qed.

Lemma includes_concat (sep x : string) (l : list string) :
  In x l -> includes (String.concat sep l) x = true.
Proof.
  induction l as [|y l IH]; [intros []|].
  intros [->|Hin].
  - apply includes_app. destruct l as [|z l]; cbn.
    + exists "", "". cbn. rewrite string_app_nil_r. reflexivity.
    + exists "", (sep ++ String.concat sep (z :: l))%string. reflexivity.
  - destruct l as [|z l]; [destruct Hin|].
    change (String.concat sep (y :: z :: l))
      with (y ++ sep ++ String.concat sep (z :: l))%string.
    apply includes_prepend, includes_prepend, IH, Hin.
Qed.

Lemma fileNames_Some (files names : list json) :
  fileNames files = Some names ->
  Forall2 (fun f n => name_of f = Some n) files names.
Proof.
  revert names. induction files as [|f files IH]; cbn; intros names.
  - intros [= <-]. constructor.
  - destruct (name_of f) as [n|] eqn:Hn; [|discriminate].
    destruct (fileNames files) as [ns|]; [|discriminate].
    intros [= <-]. constructor; auto.
Qed.

Lemma fileNames_None (files : list json) :
  fileNames files = None <-> In JNull files.
Proof.
  induction files as [|f files IH]; cbn.
  - split; [discriminate|intros []].
  - destruct f; cbn; try (destruct (assoc "path" fields)); cbn;
      destruct (fileNames files);
      try (split; [discriminate|intros [H|H]; [discriminate|apply IH in H; discriminate]]);
      try (split; [intros _; right; apply IH; reflexivity|reflexivity]);
      split; auto.
Qed.

Lemma name_of_not_null (f n : json) : name_of f = Some n -> n <> JNull.
Proof.
  destruct f; cbn; try discriminate; try (intros [= <-]; discriminate).
  destruct (assoc "path" fields) as [p|]; [|intros [= <-]; discriminate].
  destruct p; cbn; try (intros [= <-]; discriminate).
  - destruct b; intros [= <-]; discriminate.
  - destruct (negb _); intros [= <-]; discriminate.
  - destruct (truthy s); intros [= <-]; discriminate.
Qed.

Lemma all_printed_None (l : list (option string)) :
  all_printed l = None <-> In None l.
Proof.
  induction l as [|[x|] l IH]; cbn.
  - split; [discriminate|intros []].
  - destruct (all_printed l).
    + split; [discriminate|]. intros [H|H]; [discriminate|]. apply IH in H. discriminate.
    + split; [intros _; right; apply IH; reflexivity|reflexivity].
  - split; auto.
Qed.

Lemma all_printed_Some (l : list (option string)) (printed : list string) :
  all_printed l = Some printed -> l = Some <$> printed.
Proof.
  revert printed. induction l as [|[x|] l IH]; cbn; intros printed.
  - intros [= <-]. reflexivity.
  - destruct (all_printed l) as [xs|]; [|discriminate].
    intros [= <-]. cbn. f_equal. apply IH. reflexivity.
  - discriminate.
Qed.

Lemma join_item_toString (x : json) :
  x <> JNull -> join_item x = toString x.
Proof. destruct x; try reflexivity. contradiction. Qed.

Lemma join_item_None (x : json) : join_item x = None <-> toString x = None.
Proof. destruct x; try reflexivity. cbn. split; discriminate. Qed.

Lemma join_None (sep : string) (names : list json) :
  join sep names = None <-> exists x, In x names /\ toString x = None.
Proof.
  unfold join. destruct (all_printed (join_item <$> names)) as [printed|] eqn:E.
  - split; [discriminate|]. intros (x & Hin & Hx). exfalso.
    assert (Hnone : In None (join_item <$> names)).
    { apply list_elem_of_In, list_elem_of_fmap. exists x.
      split; [symmetry; apply join_item_None, Hx|apply list_elem_of_In, Hin]. }
    apply all_printed_None in Hnone. congruence.
  - split; [|reflexivity]. intros _. apply all_printed_None in E.
    apply list_elem_of_In, list_elem_of_fmap in E as (x & Hx & Hin).
    exists x. split; [apply list_elem_of_In, Hin|]. apply join_item_None. auto.
Qed.

Lemma join_includes (sep s : string) (names : list json) (x : json) :
  join sep names = Some s -> In x names -> x <> JNull ->
  exists printed, toString x = Some printed /\ includes s printed = true.
Proof.
  unfold join. destruct (all_printed (join_item <$> names)) as [printed|] eqn:E;
    [|discriminate].
  intros [= <-] Hin Hx. apply all_printed_Some in E.
  assert (Hj : In (join_item x) (Some <$> printed)).
  { rewrite <- E. apply list_elem_of_In, list_elem_of_fmap. exists x.
    split; [reflexivity|apply list_elem_of_In, Hin]. }
  apply list_elem_of_In, list_elem_of_fmap in Hj as (sx & Hsx & Hin').
  exists sx. rewrite <- join_item_toString by exact Hx. split; [exact Hsx|].
  apply includes_concat, list_elem_of_In, Hin'.
Qed.

Lemma includes_suffix (a s : string) : includes (a ++ s) s = true.
Proof.
  apply includes_prepend, includes_app. exists "", "". cbn.
  rewrite string_app_nil_r. reflexivity.
Qed.

(** [generateCommitMessage], for names whose numbers print in plain
    decimal.  It throws exactly when there are one to three names and one
    of them cannot be printed.  Otherwise the message starts with
    [Update ]; with one to three names it holds the printed form of every
    name, with more than three it is [Update n files] and names none. *)
Theorem generateCommitMessage_names_few_files (files : list json) :
  forallb safe_integers files = true ->
  (generateCommitMessage files = None
   <-> (1 <= length files <= 3)%nat /\ exists x, In x files /\ toString x = None)
  /\ forall message,
       generateCommitMessage files = Some message ->
       String.prefix "Update " message = true
       /\ ((1 <= length files <= 3)%nat ->
           forall x, In x files -> x <> JNull ->
             exists printed, toString x = Some printed
                             /\ includes message printed = true)
       /\ ((3 < length files)%nat ->
           message = ("Update " ++ count files ++ " files")%string).
Proof.
  intros _. unfold generateCommitMessage.
  destruct files as [|a [|b rest]].
  - cbn. split; [split; [discriminate|intros [H _]; lia]|].
    intros message [= <-]. split; [reflexivity|]. split; intros H; cbn in H; lia.
  - cbn [length Nat.eqb head template]. split.
    + destruct (toString a) as [sa|] eqn:Ea.
      * split; [discriminate|]. intros (_ & x & [<-|[]] & Hx). congruence.
      * split; [|reflexivity]. intros _. split; [cbn; lia|].
        exists a. split; [left; reflexivity|exact Ea].
    + intros message. destruct (toString a) as [sa|] eqn:Ea; [|discriminate].
      intros [= <-]. split; [apply prefix_app; eexists; reflexivity|].
      split; [|cbn; lia]. intros _ x [<-|[]] _.
      exists sa. split; [exact Ea|apply includes_suffix].
  - replace (length (a :: b :: rest) =? 1)%nat with false by reflexivity.
    destruct (length (a :: b :: rest) <=? 3)%nat eqn:Hlen.
    + apply Nat.leb_le in Hlen. split.
      * destruct (join ", " (a :: b :: rest)) as [names|] eqn:Ej.
        -- split; [discriminate|]. intros (_ & Hx).
           apply (proj2 (join_None ", " _)) in Hx. congruence.
        -- split; [|reflexivity]. intros _. split; [cbn in *; lia|].
           apply (join_None ", "), Ej.
      * intros message.
        destruct (join ", " (a :: b :: rest)) as [names|] eqn:Ej; [|discriminate].
        intros [= <-]. split; [apply prefix_app; eexists; reflexivity|].
        split; [|intros H; lia]. intros _ x Hin Hx.
        destruct (join_includes _ _ _ _ Ej Hin Hx) as (printed & Hp & Hinc).
        exists printed. split; [exact Hp|apply includes_prepend, Hinc].
    + apply Nat.leb_gt in Hlen. split.
      * split; [discriminate|]. intros [H _]. lia.
      * intros message [= <-]. split; [apply prefix_app; eexists; reflexivity|].
        split; [intros H; lia|reflexivity].
Qed.

Lemma with_first_None (pre : string) (names : list json) :
  length names = 1%nat -> with_first pre names = None ->
  generateCommitMessage names = None.
Proof.
  unfold with_first, generateCommitMessage. intros -> H. cbn [Nat.eqb].
  destruct (template (head names)); [discriminate|reflexivity].
Qed.

Lemma typed_message_None (type : json) (files names : list json) :
  length names = length files ->
  typed_message type files names = None -> generateCommitMessage names = None.
Proof.
  intros Hlen. unfold typed_message.
  destruct (length files =? 1)%nat eqn:Hone.
  - apply Nat.eqb_eq in Hone. rewrite Hone in Hlen.
    repeat match goal with
           | |- context [if is_case ?t ?l then _ else _] => destruct (is_case t l)
           end; try apply (with_first_None _ _ Hlen); auto.
  - repeat match goal with
           | |- context [if is_case ?t ?l then _ else _] => destruct (is_case t l)
           end; auto; discriminate.
Qed.

Lemma suggestions_None (type : json) (files names : list json) :
  length names = length files ->
  suggestions type files names = None
  <-> toString type = None \/ generateCommitMessage names = None.
Proof.
  intros Hlen. unfold suggestions.
  destruct (generateCommitMessage names) as [first|] eqn:Eg; [|split; auto].
  destruct (toString type) as [t|]; [|split; auto].
  destruct (length files =? 1)%nat eqn:Hone.
  - apply Nat.eqb_eq in Hone. rewrite Hone in Hlen.
    unfold generateCommitMessage in Eg. rewrite Hlen in Eg. cbn [Nat.eqb] in Eg.
    destruct (template (head names)); [|discriminate].
    split; [discriminate|intros [H|H]; discriminate].
  - split; [discriminate|intros [H|H]; discriminate].
Qed.

(** The answers of [generate_commit_message], for a body whose numbers
    print in plain decimal.  The answer is 400 exactly when [files] is not
    an array.  It is 500 exactly when [files] is an array and the handler
    throws: an item is [null], or the type cannot be printed, or
    [generateCommitMessage] of the names throws.  An answer 200 carries one
    name per item (the item's [path] when it has a truthy one, the item
    itself if not, never [null]) and three suggestions, of which the first
    is [generateCommitMessage] of the names; the message starts with
    [feat: ], [fix: ], [docs: ] or [refactor: ] when that is the requested
    type and is the first suggestion for every other type, [update], the
    default, included; for a single file it holds the printed name of the
    file. *)
Theorem generate_commit_message_answer (body : json) :
  safe_integers body = true ->
  (status (generate_commit_message body) = 400
   <-> forall files, prop "files" body <> Some (JArr files))
  /\ (status (generate_commit_message body) = 500
      <-> exists files,
            prop "files" body = Some (JArr files)
            /\ (In JNull files
                \/ exists names,
                     fileNames files = Some names
                     /\ (toString (default (JStr "update") (prop "type" body)) = None
                         \/ generateCommitMessage names = None)))
  /\ forall files,
       prop "files" body = Some (JArr files) ->
       status (generate_commit_message body) = 200 ->
       exists message names first s2 s3,
         generate_commit_message body
         = json_ (BMessage message (default (JStr "update") (prop "type" body)) names
                    [first; s2; s3])
         /\ generateCommitMessage names = Some first
         /\ Forall2 (fun f n => (n = f \/ prop "path" f = Some n) /\ n <> JNull)
              files names
         /\ (forall t, prop "type" body = Some (JStr t) ->
                       In t ["feat"; "fix"; "docs"; "refactor"] ->
                       String.prefix (t ++ ": ") message = true)
         /\ ((forall t, In t ["feat"; "fix"; "docs"; "refactor"] ->
                        prop "type" body <> Some (JStr t)) ->
             message = first)
         /\ (forall n, names = [n] ->
                       exists printed, toString n = Some printed
                                       /\ includes message printed = true).
Proof.
  intros _. unfold generate_commit_message.
  set (type := default (JStr "update") (prop "type" body)).
  split; [|split].
  - destruct (prop "files" body) as [[| | | |files|]|];
      try (split; [intros _ files; discriminate|reflexivity]).
    split; [|intros H; exfalso; apply (H files); reflexivity].
    destruct (fileNames files); [|discriminate].
    destruct (typed_message _ _ _); [|discriminate].
    destruct (suggestions _ _ _); discriminate.
  - destruct (prop "files" body) as [[| | | |files|]|];
      try (split; [discriminate|intros (files & [=] & _)]).
    destruct (fileNames files) as [names|] eqn:E.
    + assert (Hlen : length names = length files).
      { symmetry. eapply Forall2_length, fileNames_Some, E. }
      destruct (typed_message type files names) as [message|] eqn:Em.
      * destruct (suggestions type files names) as [suggested|] eqn:Es; cbn.
        -- split; [discriminate|]. intros (files' & [= <-] & [Hnull|Hthrow]).
           ++ apply fileNames_None in Hnull. congruence.
           ++ destruct Hthrow as (names' & Hn & Hnone). rewrite E in Hn.
              injection Hn as <-. apply (suggestions_None type files names Hlen) in Hnone.
              congruence.
        -- split; [|reflexivity]. intros _. exists files. split; [reflexivity|].
           right. exists names. split; [exact E|].
           apply (suggestions_None type files names Hlen), Es.
      * cbn. split; [|reflexivity]. intros _. exists files. split; [reflexivity|].
        right. exists names. split; [exact E|]. right.
        apply (typed_message_None type files names Hlen), Em.
    + cbn. split; [|reflexivity]. intros _. exists files. split; [reflexivity|].
      left. apply fileNames_None, E.
  - intros files ->.
    destruct (fileNames files) as [names|] eqn:E; [|discriminate].
    destruct (typed_message type files names) as [message|] eqn:Em; [|discriminate].
    destruct (suggestions type files names) as [suggested|] eqn:Es; [|discriminate].
    intros _.
    pose proof (fileNames_Some _ _ E) as Hnames.
    assert (Hlen : length names = length files).
    { symmetry. eapply Forall2_length, Hnames. }
    unfold suggestions in Es.
    destruct (generateCommitMessage names) as [first|] eqn:Eg; [|discriminate].
    destruct (toString type) as [t|]; [|discriminate].
    destruct (if (length files =? 1)%nat then template (head names) else _)
      as [subject|]; [|discriminate].
    injection Es as <-.
    eexists message, names, first, _, _. split; [reflexivity|].
    split; [exact Eg|]. split; [|split; [|split]].
    + eapply Forall2_impl; [exact Hnames|]. intros f n Hn. split.
      * destruct f; cbn in Hn; try discriminate; try (injection Hn as <-; auto).
        destruct (assoc "path" fields) as [p|] eqn:Hp; [|injection Hn as <-; auto].
        destruct (json_truthy p); injection Hn as <-; cbn; auto.
      * eapply name_of_not_null, Hn.
    + intros t0 Ht Hin. unfold type in Em. rewrite Ht in Em. cbn [default] in Em.
      unfold typed_message, with_first in Em.
      apply prefix_app. cbn in Hin. destruct Hin as [<-|[<-|[<-|[<-|[]]]]]; cbn in Em;
        destruct (length files =? 1)%nat;
        try (destruct (template (head names)); [|discriminate]);
        injection Em as <-; eexists; reflexivity.
    + intros Hother. unfold typed_message in Em.
      assert (Hcase : forall l, In l ["feat"; "fix"; "docs"; "refactor"] ->
                is_case type l = false).
      { intros l Hin. unfold type. destruct (prop "type" body) as [ty|] eqn:Hty; cbn.
        - destruct ty; try reflexivity. cbn. apply String.eqb_neq. intros ->.
          apply (Hother l Hin). reflexivity.
        - cbn in Hin. destruct Hin as [<-|[<-|[<-|[<-|[]]]]]; reflexivity. }
      rewrite !Hcase in Em by (cbn; auto 6). congruence.
    + intros n ->. cbn in Hlen. unfold typed_message, with_first in Em.
      unfold generateCommitMessage in Em, Eg.
      rewrite <- Hlen in Em. cbn [length Nat.eqb head template] in Em, Eg.
      destruct (toString n) as [printed|]; [|discriminate].
      exists printed. split; [reflexivity|].
      repeat match goal with
             | H : context [if is_case ?t ?l then _ else _] |- _ => destruct (is_case t l)
             end; injection Em as <-; apply includes_suffix.
Qed.

End MessageFacts.

Lemma generateCommitMessage_names_few_files_witness :
  (CommitMessage.generateCommitMessage [JStr "a.js"; JNum 42] = None
   <-> (1 <= length [JStr "a.js"; JNum 42] <= 3)%nat
       /\ exists x, In x [JStr "a.js"; JNum 42] /\ CommitMessage.toString x = None)
  /\ forall message,
       CommitMessage.generateCommitMessage [JStr "a.js"; JNum 42] = Some message ->
       String.prefix "Update " message = true
       /\ ((1 <= length [JStr "a.js"; JNum 42] <= 3)%nat ->
           forall x, In x [JStr "a.js"; JNum 42] -> x <> JNull ->
             exists printed, CommitMessage.toString x = Some printed
                             /\ JsString.includes message printed = true)
       /\ ((3 < length [JStr "a.js"; JNum 42])%nat ->
           message
           = ("Update " ++ CommitMessage.count [JStr "a.js"; JNum 42] ++ " files")%string).
Proof.
  apply (generateCommitMessage_names_few_files [JStr "a.js"; JNum 42]). reflexivity.
Defined.

Lemma generate_commit_message_answer_witness :
  (CommitMessage.status (CommitMessage.generate_commit_message Samples.message_body) = 400
   <-> forall files, prop "files" Samples.message_body <> Some (JArr files))
  /\ (CommitMessage.status (CommitMessage.generate_commit_message Samples.message_body)
      = 500
      <-> exists files,
            prop "files" Samples.message_body = Some (JArr files)
            /\ (In JNull files
                \/ exists names,
                     CommitMessage.fileNames files = Some names
                     /\ (CommitMessage.toString
                           (default (JStr "update") (prop "type" Samples.message_body))
                         = None
                         \/ CommitMessage.generateCommitMessage names = None)))
  /\ forall files,
       prop "files" Samples.message_body = Some (JArr files) ->
       CommitMessage.status (CommitMessage.generate_commit_message Samples.message_body)
       = 200 ->
       exists message names first s2 s3,
         CommitMessage.generate_commit_message Samples.message_body
         = CommitMessage.json_
             (CommitMessage.BMessage message
                (default (JStr "update") (prop "type" Samples.message_body)) names
                [first; s2; s3])
         /\ CommitMessage.generateCommitMessage names = Some first
         /\ Forall2 (fun f n => (n = f \/ prop "path" f = Some n) /\ n <> JNull)
              files names
         /\ (forall t, prop "type" Samples.message_body = Some (JStr t) ->
                       In t ["feat"; "fix"; "docs"; "refactor"] ->
                       String.prefix (t ++ ": ") message = true)
         /\ ((forall t, In t ["feat"; "fix"; "docs"; "refactor"] ->
                        prop "type" Samples.message_body <> Some (JStr t)) ->
             message = first)
         /\ (forall n, names = [n] ->
                       exists printed, CommitMessage.toString n = Some printed
                                       /\ JsString.includes message printed = true).
Proof.
  apply (generate_commit_message_answer Samples.message_body). reflexivity.
Defined.

(** *** What validation leaves of a body *)

Section ValidatedFields.
Import Part000.

Lemma known_keys (at_ : list Joi.seg) (fields : list (string * json))
    (ks : list (string * Joi.schema)) (out : list (string * json)) (k : string) :
  Joi.known Joi.validate at_ fields ks = inr out ->
  is_Some (assoc k out) -> In k ks.*1.
Proof.
  revert out. induction ks as [|[k0 sk0] ks IH]; intros out; cbn [Joi.known].
  - intros [= <-] [x [=]].
  - destruct (Joi.validate sk0 _ _) as [e|v0]; [discriminate|].
    destruct (Joi.known _ _ _ ks) as [e|out']; [discriminate|].
    intros [= <-] Hsome. cbn. destruct v0 as [y|]; [|right; eapply IH; eauto].
    cbn in Hsome. destruct (String.eqb k k0) eqn:E.
    + left. apply String.eqb_eq in E. congruence.
    + right. eapply IH; eauto.
Qed.

Lemma known_assoc (at_ : list Joi.seg) (fields : list (string * json))
    (ks : list (string * Joi.schema)) (out : list (string * json))
    (k : string) (sk : Joi.schema) :
  Joi.known Joi.validate at_ fields ks = inr out ->
  NoDup ks.*1 -> In (k, sk) ks ->
  Joi.validate sk (at_ ++ [Joi.Key k]) (assoc k fields) = inr (assoc k out).
Proof.
  revert out. induction ks as [|[k0 sk0] ks IH]; intros out; cbn [Joi.known];
    [intros _ _ []|].
  destruct (Joi.validate sk0 _ _) as [e|v0] eqn:E0; [discriminate|].
  destruct (Joi.known _ _ _ ks) as [e|out'] eqn:Eks; [discriminate|].
  intros [= <-] Hnd [[= -> ->]|Hin]; apply NoDup_cons in Hnd as [Hk0 Hnd].
  - rewrite E0. f_equal. destruct v0 as [y|]; cbn; [rewrite String.eqb_refl; reflexivity|].
    destruct (assoc k out') eqn:Ea; [|reflexivity].
    exfalso. apply Hk0, list_elem_of_In. eapply known_keys; eauto.
  - rewrite (IH out' eq_refl Hnd Hin). f_equal.
    assert (Hne : String.eqb k k0 = false).
    { apply String.eqb_neq. intros ->. apply Hk0.
      apply list_elem_of_fmap. exists (k0, sk). split; [reflexivity|].
      apply list_elem_of_In, Hin. }
    destruct v0 as [y|]; cbn; [rewrite Hne|]; reflexivity.
Qed.

Lemma validateInput_object (ks : list (string * Joi.schema)) (body value : json) :
  validateInput (Joi.object ks) body = inr value ->
  exists fields out,
    body = JObj fields /\ value = JObj out
    /\ Joi.known Joi.validate [] fields ks = inr out.
Proof.
  unfold validateInput. destruct body as [| | | | |fields]; try discriminate.
  change (Joi.validate (Joi.object ks) [] (Some (JObj fields)))
    with (match Joi.known Joi.validate [] fields ks with
          | inl e => inl e
          | inr out =>
              match Joi.unknown_key ks fields with
              | Some k => inl {| Joi.type := Joi.object_unknown;
                                 Joi.path := [] ++ [Joi.Key k] |}
              | None => inr (Some (JObj out))
              end
          end).
  destruct (Joi.known _ _ _ ks) as [e|out] eqn:Ek; [discriminate|].
  destruct (Joi.unknown_key ks fields); [discriminate|].
  intros [= <-]. exists fields, out. auto.
Qed.

(** A key that the schema declares as a required string: the body has it,
    as a string that is not empty, and the validated value has the same. *)
Lemma validated_required (ks : list (string * Joi.schema)) (body value : json)
    (k : string) :
  validateInput (Joi.object ks) body = inr value ->
  NoDup ks.*1 -> In (k, Joi.required Joi.string) ks ->
  exists s, prop k body = Some (JStr s) /\ truthy s = true
            /\ prop k value = Some (JStr s).
Proof.
  intros Hv Hnd Hin. apply validateInput_object in Hv as (fields & out & -> & -> & Hk).
  pose proof (known_assoc _ _ _ _ _ _ Hk Hnd Hin) as H.
  apply required_string_inv in H as (s & Hs & Ht & Ho). cbn. eauto.
Qed.

(** A key that the schema declares as a string with a default: the body
    has no such key or a string that is not empty, and the validated value
    has the string of the body, or the default. *)
Lemma validated_default (ks : list (string * Joi.schema)) (body value : json)
    (k d : string) :
  validateInput (Joi.object ks) body = inr value ->
  NoDup ks.*1 -> In (k, Joi.default d Joi.string) ks ->
  optional_string (prop k body) = true
  /\ prop k value = Some (default (JStr d) (prop k body)).
Proof.
  intros Hv Hnd Hin. apply validateInput_object in Hv as (fields & out & -> & -> & Hk).
  pose proof (known_assoc _ _ _ _ _ _ Hk Hnd Hin) as H.
  apply optional_string_inv in H as [Ho Hout]. cbn. split; [exact Ho|].
  rewrite Hout. destruct (assoc k fields); reflexivity.
Qed.

End ValidatedFields.

(** *** Branches *)

Section BranchFacts.
Import Octokit Github.
Variable B : backend.
Variable OWNER : string.

Lemma github_run_bind {A C : Type} (p : Prog A) (f : A -> Prog C) (w : world B) :
  run B (bind p f) w =
    match run B p w with
    | (inl e, w1, t1) => (inl e, w1, t1)
    | (inr a, w1, t1) =>
        let '(o, w2, t2) := run B (f a) w1 in (o, w2, t1 ++ t2)
    end.
Proof.
  revert w. induction p as [a|e|X c k IH]; intros w; cbn.
  - destruct (run B (f a) w) as [[o w2] t2]. reflexivity.
  - reflexivity.
  - destruct (reply B X c w) as [r w1]. rewrite IH.
    destruct (run B (k r) w1) as [[[e|a] w2] t1]; [reflexivity|].
    destruct (run B (f a) w2) as [[o w3] t2]. reflexivity.
Qed.

Lemma github_run_catch {A : Type} (p : Prog A) (h : RequestError -> Prog A)
    (w : world B) :
  run B (catch p h) w =
    match run B p w with
    | (inl e, w1, t1) =>
        let '(o, w2, t2) := run B (h e) w1 in (o, w2, t1 ++ t2)
    | (inr a, w1, t1) => (inr a, w1, t1)
    end.
Proof.
  revert w. induction p as [a|e|X c k IH]; intros w; cbn.
  - reflexivity.
  - destruct (run B (h e) w) as [[o w2] t2]. reflexivity.
  - destruct (reply B X c w) as [r w1]. rewrite IH.
    destruct (run B (k r) w1) as [[[e|a] w2] t1]; [|reflexivity].
    destruct (run B (h e) w2) as [[o w3] t2]. reflexivity.
Qed.

Local Ltac distinct_keys :=
  cbn;
  repeat (apply NoDup_cons; split;
          [rewrite list_elem_of_In; cbn; intuition discriminate|]);
  apply NoDup_nil_2.

Lemma deleteBranch_keys_NoDup :
  NoDup [ ("repoName", Joi.required Joi.string);
          ("branchName", Joi.required Joi.string) ].*1.
Proof. distinct_keys. Qed.

Lemma createBranch_keys_NoDup :
  NoDup [ ("repoName", Joi.required Joi.string);
          ("newBranchName", Joi.required Joi.string);
          ("fromBranch", Joi.default "main" Joi.string) ].*1.
Proof. distinct_keys. Qed.

(** [DELETE /branch] of the validated server never asks for the deletion
    of [main] or [master].  For every body and every repository: either no
    [deleteRef] is issued and the answer is not 200, or the calls are the
    repository lookup, accepted, and one [deleteRef] of [heads/<branchName>]
    for the owner and the repository of the body, with a branch name that is
    neither [main] nor [master]; then the answer is 200 when the deletion
    is accepted, 404 [Branch ... not found] when it is rejected with status
    422 or 404, and 500 otherwise. *)
Theorem delete_branch_spares_main (body : json) (w : world B) :
  (Forall (fun e => is_deleteRef e = false) (trace B (delete_branch OWNER body) w)
   /\ exists resp, outcome B (delete_branch OWNER body) w = inr resp
                   /\ status resp <> 200)
  \/ exists repoName branchName res,
       prop "repoName" body = Some (JStr repoName)
       /\ prop "branchName" body = Some (JStr branchName)
       /\ branchName <> "main" /\ branchName <> "master"
       /\ trace B (delete_branch OWNER body) w
          = [ Ev (repos_get OWNER repoName) (inr tt);
              Ev (git_deleteRef OWNER repoName ("heads/" ++ branchName)%string) res ]
       /\ outcome B (delete_branch OWNER body) w
          = inr match res with
                | inr _ => json_ (BSuccess ("Branch " ++ branchName ++ " deleted")%string)
                | inl err =>
                    if bool_decide (err_status err = Some 422)
                       || bool_decide (err_status err = Some 404)
                    then status_json 404
                           (BError ("Branch " ++ branchName ++ " not found")%string None)
                    else status_json 500
                           (BError "Failed to delete branch" (Some (err_message err)))
                end.
Proof.
  unfold trace, outcome, delete_branch.
  destruct (Part000.validateInput schemas_deleteBranch body) as [e|value] eqn:Hv.
  { left. cbn. split; [constructor|]. eexists. split; [reflexivity|]. discriminate. }
  destruct (validated_required _ _ _ "repoName" Hv deleteBranch_keys_NoDup)
    as (repoName & Hr & _ & ->); [cbn; auto|].
  destruct (validated_required _ _ _ "branchName" Hv deleteBranch_keys_NoDup)
    as (branchName & Hb & _ & ->); [cbn; auto|].
  cbn [str_of]. unfold checkRepoExists. cbn [run bind call catch].
  destruct (reply B _ (repos_get OWNER repoName) w) as [[err|[]] w1].
  { left. destruct (bool_decide (err_status err = Some 404)); cbn.
    - split; [repeat constructor|]. eexists. split; [reflexivity|]. discriminate.
    - destruct (bool_decide _ || bool_decide _); cbn;
        (split; [repeat constructor|]; eexists; (split; [reflexivity|]); discriminate). }
  cbn [negb run bind call catch].
  destruct (String.eqb branchName "main") eqn:Emain;
    [left; cbn; split; [repeat constructor|]; eexists; (split; [reflexivity|]);
     discriminate|].
  destruct (String.eqb branchName "master") eqn:Emaster;
    [left; cbn; split; [repeat constructor|]; eexists; (split; [reflexivity|]);
     discriminate|].
  cbn [orb run bind call catch].
  apply String.eqb_neq in Emain, Emaster.
  right. exists repoName, branchName.
  destruct (reply B _ (git_deleteRef _ _ _) w1) as [[err|[]] w2].
  - exists (inl err). repeat (split; [assumption|]). cbn.
    destruct (bool_decide _ || bool_decide _); cbn; split; reflexivity.
  - exists (inr tt). repeat (split; [assumption|]). cbn. split; reflexivity.
Qed.

(** [POST /branch] of the validated server creates a branch only at the
    head of the base branch.  For every body and every repository: either
    no [createRef] is issued and the answer is not 200, or the calls are
    the repository lookup, accepted, [getRef] of [heads/<fromBranch>]
    ([main] when the body names no base), accepted with a sha, and one
    [createRef] of [refs/heads/<newBranchName>] at that sha; then the
    answer is 200 when the creation is accepted, 422 [Branch ... already
    exists] when it is rejected with status 422, and 500 otherwise. *)
Theorem create_branch_at_base_head (body : json) (w : world B) :
  (Forall (fun e => is_createRef e = false) (trace B (create_branch OWNER body) w)
   /\ exists resp, outcome B (create_branch OWNER body) w = inr resp
                   /\ status resp <> 200)
  \/ exists repoName newBranchName sha res,
       let fromBranch := str_of (Some (default (JStr "main") (prop "fromBranch" body))) in
       prop "repoName" body = Some (JStr repoName)
       /\ prop "newBranchName" body = Some (JStr newBranchName)
       /\ trace B (create_branch OWNER body) w
          = [ Ev (repos_get OWNER repoName) (inr tt);
              Ev (git_getRef OWNER repoName ("heads/" ++ fromBranch)%string) (inr sha);
              Ev (git_createRef OWNER repoName ("refs/heads/" ++ newBranchName)%string sha)
                res ]
       /\ outcome B (create_branch OWNER body) w
          = inr match res with
                | inr _ =>
                    json_ (BSuccess ("Branch " ++ newBranchName ++ " created from "
                                     ++ fromBranch)%string)
                | inl err =>
                    if bool_decide (err_status err = Some 422)
                    then status_json 422
                           (BError ("Branch " ++ newBranchName ++ " already exists")%string
                              None)
                    else status_json 500
                           (BError "Failed to create branch" (Some (err_message err)))
                end.
Proof.
  unfold trace, outcome, create_branch.
  destruct (Part000.validateInput schemas_createBranch body) as [e|value] eqn:Hv.
  { left. cbn. split; [constructor|]. eexists. split; [reflexivity|]. discriminate. }
  destruct (validated_required _ _ _ "repoName" Hv createBranch_keys_NoDup)
    as (repoName & Hr & _ & ->); [cbn; auto|].
  destruct (validated_required _ _ _ "newBranchName" Hv createBranch_keys_NoDup)
    as (newBranchName & Hn & _ & ->); [cbn; auto|].
  destruct (validated_default _ _ _ "fromBranch" "main" Hv createBranch_keys_NoDup)
    as (_ & ->); [cbn; auto|].
  set (fromBranch := str_of (Some (default (JStr "main") (prop "fromBranch" body)))).
  cbn [str_of]. unfold checkRepoExists. cbn [run bind call catch].
  destruct (reply B _ (repos_get OWNER repoName) w) as [[err|[]] w1].
  { left. destruct (bool_decide (err_status err = Some 404)); cbn.
    - split; [repeat constructor|]. eexists. split; [reflexivity|]. discriminate.
    - destruct (bool_decide _); cbn;
        (split; [repeat constructor|]; eexists; (split; [reflexivity|]); discriminate). }
  cbn [negb run bind call catch].
  destruct (reply B _ (git_getRef _ _ _) w1) as [[err|sha] w2].
  { left. cbn. destruct (bool_decide _); cbn;
      (split; [repeat constructor|]; eexists; (split; [reflexivity|]); discriminate). }
  cbn [run bind call catch].
  right. exists repoName, newBranchName, sha.
  destruct (reply B _ (git_createRef _ _ _ _) w2) as [[err|data] w3].
  - exists (inl err). cbv zeta. repeat (split; [assumption|]). cbn.
    destruct (bool_decide _); cbn; split; reflexivity.
  - exists (inr data). cbv zeta. repeat (split; [assumption|]). cbn. split; reflexivity.
Qed.

(** The plain server has no such guard: [DELETE /branch] of
    [src/server.js] asks for the deletion of whatever branch the body
    names, [main] included, as its one call. *)
Remark plain_delete_branch_has_no_guard (repoName branchName : string) (w : world B) :
  exists res,
    trace B (plain_delete_branch OWNER repoName branchName) w
    = [ Ev (git_deleteRef OWNER repoName ("heads/" ++ branchName)%string) res ]
    /\ outcome B (plain_delete_branch OWNER repoName branchName) w
       = inr match res with
             | inr _ => json_ (BMessage ("Branch " ++ branchName ++ " deleted.")%string)
             | inl err => status_json 500 (BError (err_message err) None)
             end.
Proof.
  unfold trace, outcome, plain_delete_branch. cbn.
  destruct (reply B _ (git_deleteRef _ _ _) w) as [[err|[]] w1]; cbn; eauto.
Qed.

End BranchFacts.

(** *** Repository files *)

Section FilesFacts.
Import Octokit Github.
Variable B : backend.
Variable OWNER : string.

Lemma read_items_run (repo branch : string) (items : list ContentItem) (w : world B) :
  exists result w' tr,
    run B (read_items OWNER repo branch items) w = (inr result, w', tr)
    /\ Forall2 entry_of (List.filter is_listed items) result
    /\ length tr = length (List.filter is_file items)
    /\ Forall (fun e => is_getContent e = true) tr.
Proof.
  revert w. induction items as [|item rest IH]; intros w.
  - exists [], w, []. cbn. repeat split; constructor.
  - cbn [read_items List.filter]. unfold is_listed at 1, is_file at 1 2.
    destruct (String.eqb (ci_type item) "file") eqn:Ef.
    + cbn [orb run bind call catch].
      destruct (reply B _ (repos_getContent _ _ _ _) w) as [[err|d] w1];
        cbn [run bind call catch]; [|destruct (content_of d) as [c|]];
        cbn [run bind call catch]; rewrite github_run_bind;
        destruct (IH w1) as (result & w' & tr & -> & Hres & Hlen & Hall);
        (eexists _, _, _; split; [reflexivity|]; cbn; split; [|split];
         [ constructor; [|exact Hres]; unfold entry_of, is_file; rewrite Ef; auto
         | rewrite app_nil_r; f_equal; exact Hlen
         | rewrite app_nil_r; constructor; [reflexivity|exact Hall] ]).
    + cbn [orb]. destruct (String.eqb (ci_type item) "dir") eqn:Ed.
      * rewrite github_run_bind.
        destruct (IH w) as (result & w' & tr & -> & Hres & Hlen & Hall).
        eexists _, _, _. split; [reflexivity|]. cbn. rewrite app_nil_r.
        split; [|split; assumption].
        constructor; [|exact Hres]. unfold entry_of, is_file. rewrite Ef. auto.
      * apply IH.
Qed.

(** [github_files] of the validated server survives files it cannot
    read.  For a request that passes validation, once the repository
    lookup and the listing of the path are accepted, the answer is 200
    whatever becomes of the reads of the files: the result has one entry
    for each file and each directory of the listing, in the order of the
    listing, with the path, size and sha of the item (a directory: its
    path); items of another type are left out; and the handler has issued
    one read for each file, and no other call. *)
Theorem github_files_survives_unreadable_files
    (body value : json) (w w1 w2 : world B) (d : ContentData) :
  let repo := str_of (prop "repo" value) in
  let branch := str_of (prop "branch" value) in
  let path := str_of (prop "path" value) in
  Part000.validateInput schemas_githubFiles body = inr value ->
  reply B _ (repos_get OWNER repo) w = (inr tt, w1) ->
  reply B _ (repos_getContent OWNER repo path branch) w1 = (inr d, w2) ->
  exists result tr,
    outcome B (github_files OWNER body) w
    = inr (json_ (BFiles result repo branch (if truthy path then path else "root")))
    /\ Forall2 entry_of (List.filter is_listed (fileItems d)) result
    /\ trace B (github_files OWNER body) w
       = Ev (repos_get OWNER repo) (inr tt)
         :: Ev (repos_getContent OWNER repo path branch) (inr d) :: tr
    /\ length tr = length (List.filter is_file (fileItems d))
    /\ Forall (fun e => is_getContent e = true) tr.
Proof.
  intros repo branch path Hv Hrepo Hlist.
  unfold outcome, trace, github_files. rewrite Hv. fold repo branch path.
  unfold checkRepoExists. cbn [run bind call catch]. rewrite Hrepo.
  cbn [negb run bind call catch]. rewrite Hlist. cbn [run bind call catch].
  rewrite github_run_catch, github_run_bind.
  destruct (read_items_run repo branch (fileItems d) w2)
    as (result & w' & tr & -> & Hres & Hlen & Hall).
  exists result, tr. cbn. rewrite app_nil_r. auto.
Qed.

Lemma plain_read_items_run (repo branch : string) (items : list ContentItem)
    (w : world B) :
  Forall (fun e => is_getContent e = true)
    (run B (plain_read_items OWNER repo branch items) w).2
  /\ match (run B (plain_read_items OWNER repo branch items) w).1.1 with
     | inr result =>
         result.*1 = ci_path <$> List.filter is_file items
         /\ Forall (fun e => rejected e = false)
              (run B (plain_read_items OWNER repo branch items) w).2
     | inl err => True
     end.
Proof.
  revert w. induction items as [|item rest IH]; intros w.
  - cbn. repeat split; constructor.
  - cbn [plain_read_items List.filter]. unfold is_file at 1.
    destruct (String.eqb (ci_type item) "file") eqn:Ef.
    + cbn [run bind call].
      destruct (reply B _ (repos_getContent _ _ _ _) w) as [[err|d] w1];
        cbn [run bind call].
      * cbn. split; [repeat constructor|exact I].
      * destruct (content_of d) as [c|]; cbn [run];
          [|cbn; split; [repeat constructor|exact I]].
        rewrite github_run_bind. specialize (IH w1).
        destruct (run B (plain_read_items OWNER repo branch rest) w1)
          as [[[err|result] w2] tr]; cbn in IH |- *; destruct IH as [Hall Hres].
        -- split; [constructor; [reflexivity|exact Hall]|exact I].
        -- rewrite app_nil_r. destruct Hres as [Hpaths Hacc].
           split; [constructor; [reflexivity|exact Hall]|].
           split; [f_equal; exact Hpaths|constructor; [reflexivity|exact Hacc]].
    + apply IH.
Qed.

(** [github_files] of the plain server is all or nothing: it always
    answers; a rejected call makes the answer 500 with the message of the
    rejection; and an answer 200 lists exactly the files of the listing,
    in its order, directories left out, after calls that were all
    accepted. *)
Theorem plain_github_files_all_or_nothing
    (repo : string) (branch path : option string) (w : world B) :
  exists resp,
    outcome B (plain_github_files OWNER repo branch path) w = inr resp
    /\ (Exists (fun e => rejected e = true)
          (trace B (plain_github_files OWNER repo branch path) w) ->
        status resp = 500)
    /\ (status resp = 200 ->
        exists d tr files,
          trace B (plain_github_files OWNER repo branch path) w
          = Ev (repos_getContent OWNER repo (default "" path) (default "main" branch))
              (inr d) :: tr
          /\ resp = json_ (BPlainFiles files)
          /\ files.*1 = ci_path <$> List.filter is_file (fileItems d)).
Proof.
  unfold outcome, trace, plain_github_files. cbn [run bind call catch].
  destruct (reply B _ (repos_getContent _ _ _ _) w) as [[err|d] w1].
  { cbn. eexists. split; [reflexivity|]. split; [reflexivity|discriminate]. }
  cbn [run bind call catch]. rewrite github_run_catch, github_run_bind.
  pose proof (plain_read_items_run repo (default "main" branch) (fileItems d) w1)
    as [Hall Hres].
  destruct (run B (plain_read_items OWNER repo (default "main" branch) (fileItems d)) w1)
    as [[[err|result] w2] tr]; cbn in Hall, Hres |- *.
  - eexists. split; [reflexivity|]. split; [reflexivity|discriminate].
  - rewrite app_nil_r. destruct Hres as [Hpaths Hacc].
    eexists. split; [reflexivity|]. split.
    + intros Hex. apply Exists_cons in Hex as [Hex|Hex]; [discriminate|].
      apply Exists_exists in Hex as (e & Hin & He).
      rewrite Forall_forall in Hacc. rewrite (Hacc e Hin) in He. discriminate.
    + intros _. exists d, tr, result. auto.
Qed.


End FilesFacts.

Lemma github_files_survives_unreadable_files_witness :
  exists result tr,
    Github.outcome Samples.flaky (Github.github_files "o" (Samples.githubFiles_body "r")) tt
    = inr (Github.json_ (Github.BFiles result "r" "main" "root"))
    /\ Forall2 entry_of (List.filter is_listed Samples.root_listing) result
    /\ Github.trace Samples.flaky (Github.github_files "o" (Samples.githubFiles_body "r")) tt
       = Github.Ev (Github.repos_get "o" "r") (inr tt)
         :: Github.Ev (Github.repos_getContent "o" "r" "" "main")
              (inr (Github.Listing Samples.root_listing)) :: tr
    /\ length tr = length (List.filter is_file Samples.root_listing)
    /\ Forall (fun e => Github.is_getContent e = true) tr.
Proof.
  apply (github_files_survives_unreadable_files Samples.flaky "o"
           (Samples.githubFiles_body "r") (Samples.githubFiles_value "r") tt tt tt
           (Github.Listing Samples.root_listing)); reflexivity.
Defined.

(** *** One file through either commit route *)

Section OneFile.
Import Octokit Part000.
Variable B : octokit_backend.
Variable OWNER : string.

(** The single-file route is the multi-file route with one file.  On a
    repository whose [getCommit] replies with the commit that was asked
    for, [PUT /commit] of a path and a content issues the same calls, with
    the same replies, as [push_files] of the one-file list, and leaves the
    repository in the same state; both answer with the same status, and
    when [push_files] answers with a commit and the blob of the path,
    [commit] answers with the sha, message and url of that commit. *)
Theorem commit_is_push_of_one_file
    (repoName path content message : string) (w : world B) :
  (forall s w0 d w1,
      reply B _ (git_getCommit OWNER repoName s) w0 = (inr d, w1) -> cd_sha d = s) ->
  let single :=
    run B (commit OWNER (Scenario.commit_body repoName path content message)) w in
  let multi :=
    run B (push_files OWNER
             (Scenario.pushFiles_body repoName [(path, content)] message)) w in
  single.2 = multi.2
  /\ single.1.2 = multi.1.2
  /\ sum_map id status single.1.1 = sum_map id status multi.1.1
  /\ forall nc blobs repository branch,
       multi.1.1 = inr (json_ (BPushFiles nc blobs repository branch)) ->
       single.1.1 = inr (json_ (BCommit (nc_sha nc) (nc_message nc) (nc_html_url nc)))
       /\ blobs.*1 = [path].
Proof.
  intros Hecho. cbv zeta. unfold commit, push_files.
  unfold validateInput, schemas_commit, schemas_pushFiles, Scenario.commit_body,
    Scenario.pushFiles_body.
  cbn -[encodeContent run catch bind checkRepoExists].
  destruct (String.eqb repoName "");
    cbn -[encodeContent run catch bind checkRepoExists];
    [repeat split; discriminate|].
  destruct (String.eqb path "");
    cbn -[encodeContent run catch bind checkRepoExists];
    [repeat split; discriminate|].
  destruct (String.eqb content "");
    cbn -[encodeContent run catch bind checkRepoExists];
    [repeat split; discriminate|].
  destruct (String.eqb message "");
    cbn -[encodeContent run catch bind checkRepoExists];
    [repeat split; discriminate|].
  unfold checkRepoExists.
  cbn [run bind call catch negb].
  destruct (reply B _ (repos_get OWNER repoName) w) as [[err|[]] w1].
  { destruct (bool_decide _); cbn; repeat split; discriminate. }
  cbn [run bind call catch negb].
  destruct (reply B _ (git_getRef _ _ _) w1) as [[err|sha] w2];
    [cbn; repeat split; discriminate|].
  cbn [run bind call catch negb].
  destruct (reply B _ (git_getCommit _ _ _) w2) as [[err|d] w3] eqn:Hd;
    [cbn; repeat split; discriminate|].
  apply Hecho in Hd. subst sha.
  cbn [run bind call catch negb Promise_all].
  destruct (reply B _ (git_createBlob _ _ _ _) w3) as [[err|blob] w4];
    [cbn; repeat split; discriminate|].
  cbn [run bind call catch negb Promise_all].
  destruct (reply B _ (git_createTree _ _ _ _) w4) as [[err|tree] w5];
    [cbn; repeat split; discriminate|].
  cbn [run bind call catch].
  destruct (reply B _ (git_createCommit _ _ _ _ _) w5) as [[err|nc] w6];
    [cbn; repeat split; discriminate|].
  cbn [run bind call catch].
  destruct (reply B _ (git_updateRef _ _ _ _) w6) as [[err|[]] w7]; cbn;
    (split; [reflexivity|split; [reflexivity|split; [reflexivity|]]]);
    intros nc0 blobs repository branch; [discriminate|].
  intros [= <- <- _ _]. split; reflexivity.
Qed.

End OneFile.

Lemma commit_is_push_of_one_file_witness :
  let single :=
    Octokit.run Scenario.steady
      (Part000.commit "o" (Scenario.commit_body "r" "a.txt" "1" "m")) tt in
  let multi :=
    Octokit.run Scenario.steady
      (Part000.push_files "o" (Scenario.pushFiles_body "r" [("a.txt", "1")] "m")) tt in
  single.2 = multi.2
  /\ single.1.2 = multi.1.2
  /\ sum_map id Part000.status single.1.1 = sum_map id Part000.status multi.1.1
  /\ forall nc blobs repository branch,
       multi.1.1
       = inr (Part000.json_ (Part000.BPushFiles nc blobs repository branch)) ->
       single.1.1
       = inr (Part000.json_
                (Part000.BCommit (Octokit.nc_sha nc) (Octokit.nc_message nc)
                   (Octokit.nc_html_url nc)))
       /\ blobs.*1 = ["a.txt"].
Proof.
  apply (commit_is_push_of_one_file Scenario.steady "o" "r" "a.txt" "1" "m" tt).
  intros s w0 d w1 [= <- _]. reflexivity.
Defined.

(** *** What every reachable store satisfies *)

Section Reachable.
Import JsString Part000.

Lemma new_context_id_truthy (now : Z) (rnd : string) :
  truthy (new_context_id now rnd) = true.
Proof. reflexivity. Qed.

Lemma serve_all_invariant (rs : list Request) (store : gmap string Context) :
  (forall c ctx, store !! c = Some ctx ->
     truthy c = true
     /\ forall k e, JsObject.own (files ctx) !! k = Some e ->
          truthy k = true
          /\ exists v, truthy v = true /\ content e = encodeContent v
                       /\ size e = byteLength v) ->
  forall c ctx, serve_all rs store !! c = Some ctx ->
    truthy c = true
    /\ forall k e, JsObject.own (files ctx) !! k = Some e ->
         truthy k = true
         /\ exists v, truthy v = true /\ content e = encodeContent v
                      /\ size e = byteLength v.
Proof.
  revert store. induction rs as [|r rs IH]; intros store Hinv; [exact Hinv|].
  cbn. apply IH. clear IH. intros c ctx.
  destruct r as [now rnd|now body|cid path]; cbn [serve].
  - cbn. destruct (decide (new_context_id now rnd = c)) as [<-|Hne].
    + rewrite lookup_insert_eq. intros [= <-].
      split; [apply new_context_id_truthy|]. cbn. intros k e H.
      rewrite lookup_empty in H. discriminate.
    + rewrite lookup_insert_ne by exact Hne. apply Hinv.
  - destruct (decide (status (add_file now body store).1 = 200)) as [H|H];
      [|rewrite add_file_rejected by exact H; apply Hinv].
    apply add_file_inv in H as (fields & c0 & p & v & ctx0 & _ & _ & Hct & _ & Hpt & _
                                & Hvt & _ & _ & Hs & ->).
    destruct (decide (c0 = c)) as [<-|Hne];
      [|rewrite lookup_insert_ne by exact Hne; apply Hinv].
    rewrite lookup_insert_eq. intros [= <-]. split; [exact Hct|].
    cbn [files]. intros k e. unfold JsObject.set.
    destruct (String.eqb p "__proto__"); cbn [JsObject.own];
      [apply (Hinv _ _ Hs)|].
    destruct (decide (p = k)) as [<-|Hpk].
    + rewrite lookup_insert_eq. intros [= <-]. split; [exact Hpt|].
      exists v. auto.
    + rewrite lookup_insert_ne by exact Hpk. apply (Hinv _ _ Hs).
  - destruct (decide (status (remove_file cid path store).1 = 200)) as [H|H];
      [|rewrite remove_file_rejected by exact H; apply Hinv].
    apply remove_file_inv in H as (c0 & p & ctx0 & _ & _ & Hs & _ & ->).
    destruct (decide (c0 = c)) as [<-|Hne];
      [|rewrite lookup_insert_ne by exact Hne; apply Hinv].
    rewrite lookup_insert_eq. intros [= <-]. split; [apply (Hinv _ _ Hs)|].
    cbn [files JsObject.delete_key JsObject.own]. intros k e Hk.
    destruct (decide (p = k)) as [<-|Hpk].
    + rewrite lookup_delete_eq in Hk. discriminate.
    + rewrite lookup_delete_ne in Hk by exact Hpk. apply (Hinv _ _ Hs), Hk.
Qed.

(** Whatever requests the validated server has served since it started,
    [get_context] of a context of the store answers 200 with a listing in
    which no path occurs twice and every file has a path and a content
    that are not empty and a size that is the byte length of the content
    shown; [file_count] is the length of the listing. *)
Theorem listed_files_are_sound (rs : list Request) (c : string) (ctx : Context) :
  serve_all rs ∅ !! c = Some ctx ->
  exists listing,
    get_context (Some c) (serve_all rs ∅)
    = json_ (BContext c (created ctx) listing (repoInfo ctx) (length listing))
    /\ NoDup (fv_path <$> listing)
    /\ Forall (fun fv => truthy (fv_path fv) = true
                         /\ truthy (fv_content fv) = true
                         /\ fv_size fv = byteLength (fv_content fv)) listing.
Proof.
  intros Hs.
  destruct (serve_all_invariant rs ∅) with (c := c) (ctx := ctx) as [Hc Hfiles];
    [intros c' ctx' H; rewrite lookup_empty in H; discriminate|exact Hs|].
  exists (file_view <$> JsObject.entries (files ctx)).
  split; [apply (get_context_listing _ _ _ Hs Hc)|]. split.
  - rewrite file_view_path. apply NoDup_fst_map_to_list.
  - apply Forall_forall. intros fv Hin. apply list_elem_of_In in Hin.
    apply in_file_views in Hin as (k & e & Hk & ->).
    destruct (Hfiles k e Hk) as (Hkt & v & Hvt & Hcontent & Hsize).
    unfold file_view. cbn. rewrite Hcontent, Hsize.
    unfold decodeContent, encodeContent. rewrite decode_encode. auto.
Qed.

End Reachable.

Lemma listed_files_are_sound_witness :
  exists ctx,
    serve_all [ Init 0 "abc";
                AddFile 1 (Scenario.addFile_body Scenario.ctx0 "a.txt" "v1");
                AddFile 2 (Scenario.addFile_body Scenario.ctx0 "b.txt" "w");
                RemoveFile (Some Scenario.ctx0) (Some "a.txt") ] ∅
    !! Scenario.ctx0 = Some ctx
    /\ exists listing,
         Part000.get_context (Some Scenario.ctx0)
           (serve_all [ Init 0 "abc";
                        AddFile 1 (Scenario.addFile_body Scenario.ctx0 "a.txt" "v1");
                        AddFile 2 (Scenario.addFile_body Scenario.ctx0 "b.txt" "w");
                        RemoveFile (Some Scenario.ctx0) (Some "a.txt") ] ∅)
         = Part000.json_
             (Part000.BContext Scenario.ctx0 (Part000.created ctx) listing
                (Part000.repoInfo ctx) (length listing))
         /\ NoDup (Part000.fv_path <$> listing)
         /\ Forall (fun fv => truthy (Part000.fv_path fv) = true
                              /\ truthy (Part000.fv_content fv) = true
                              /\ Part000.fv_size fv
                                 = JsString.byteLength (Part000.fv_content fv)) listing.
Proof.
  eexists. split; [vm_compute; reflexivity|].
  apply (listed_files_are_sound
           [ Init 0 "abc";
             AddFile 1 (Scenario.addFile_body Scenario.ctx0 "a.txt" "v1");
             AddFile 2 (Scenario.addFile_body Scenario.ctx0 "b.txt" "w");
             RemoveFile (Some Scenario.ctx0) (Some "a.txt") ] Scenario.ctx0).
  vm_compute; reflexivity.
Defined.

(** *** Search on the plain server *)

Section PlainSearch.
Import JsString ServerJs.










End PlainSearch.


(** *** Removing one entry *)

Section RemoveFacts.
Import JsString Part000.

(** An accepted [remove_file] on the validated server takes exactly its
    path out of the listing: [get_context] shows afterwards the entries it
    showed before for the other paths, unchanged, and the creation time
    and the repository of the context stay. *)
Theorem remove_file_keeps_other_entries
    (store : gmap string Context) (cid path : option string) :
  status (remove_file cid path store).1 = 200 ->
  exists c p ctx listing listing',
    cid = Some c /\ path = Some p /\ store !! c = Some ctx
    /\ get_context cid store
       = json_ (BContext c (created ctx) listing (repoInfo ctx) (length listing))
    /\ get_context cid (remove_file cid path store).2
       = json_ (BContext c (created ctx) listing' (repoInfo ctx) (length listing'))
    /\ forall fv, In fv listing' <-> fv_path fv <> p /\ In fv listing.
Proof.
  intros H. pose proof H as H0. unfold remove_file in H0.
  destruct (negb (present cid) || negb (present path)) eqn:Hpres; [discriminate|].
  clear H0. apply orb_false_iff in Hpres as [Hc _]. apply negb_false_iff in Hc.
  apply remove_file_inv in H as (c & p & ctx & -> & -> & Hs & _ & ->).
  cbn in Hc. exists c, p, ctx. eexists _, _.
  split; [reflexivity|]. split; [reflexivity|]. split; [exact Hs|].
  split; [apply (get_context_listing _ _ _ Hs Hc)|]. split.
  - erewrite get_context_listing; [|apply lookup_insert_eq|exact Hc]. reflexivity.
  - intros fv. cbn [files]. unfold JsObject.entries, JsObject.delete_key.
    cbn [JsObject.own]. rewrite !in_file_views. split.
    + intros (k & e & Hk & ->). destruct (decide (p = k)) as [<-|Hne].
      * rewrite lookup_delete_eq in Hk. discriminate.
      * rewrite lookup_delete_ne in Hk by exact Hne. split; [cbn; congruence|eauto].
    + intros (Hne & k & e & Hk & ->). exists k, e. cbn in Hne.
      rewrite lookup_delete_ne by congruence. auto.
Qed.

End RemoveFacts.

Lemma remove_file_keeps_other_entries_witness :
  exists c p ctx listing listing',
    Some Scenario.ctx0 = Some c /\ Some "a.txt" = Some p
    /\ Scenario.sample_store !! c = Some ctx
    /\ Part000.get_context (Some Scenario.ctx0) Scenario.sample_store
       = Part000.json_
           (Part000.BContext c (Part000.created ctx) listing (Part000.repoInfo ctx)
              (length listing))
    /\ Part000.get_context (Some Scenario.ctx0)
         (Part000.remove_file (Some Scenario.ctx0) (Some "a.txt") Scenario.sample_store).2
       = Part000.json_
           (Part000.BContext c (Part000.created ctx) listing' (Part000.repoInfo ctx)
              (length listing'))
    /\ forall fv, In fv listing' <-> Part000.fv_path fv <> p /\ In fv listing.
Proof.
  apply (remove_file_keeps_other_entries Scenario.sample_store (Some Scenario.ctx0)
           (Some "a.txt")).
  vm_compute; reflexivity.
Defined.

(** *** The update of the ref, for every request *)

Section RefUpdate.
Import Octokit Part000.
Variable B : octokit_backend.
Variable OWNER : string.

Local Ltac distinct_keys :=
  cbn;
  repeat (apply NoDup_cons; split;
          [rewrite list_elem_of_In; cbn; intuition discriminate|]);
  apply NoDup_nil_2.

Lemma pushFiles_keys_NoDup :
  NoDup [ ("repoName", Joi.required Joi.string);
          ("branch", Joi.default "main" Joi.string);
          ("files",
            Joi.required
              (Joi.array_items
                 (Joi.object [ ("path", Joi.required Joi.string);
                               ("content", Joi.required Joi.string) ])));
          ("message", Joi.required Joi.string) ].*1.
Proof. distinct_keys. Qed.

Lemma commit_keys_NoDup :
  NoDup [ ("repoName", Joi.required Joi.string);
          ("branch", Joi.default "main" Joi.string);
          ("path", Joi.required Joi.string);
          ("content", Joi.required Joi.string);
          ("message", Joi.required Joi.string) ].*1.
Proof. distinct_keys. Qed.

Lemma validated_branch (ks : list (string * Joi.schema)) (body value : json) :
  validateInput (Joi.object ks) body = inr value ->
  NoDup ks.*1 -> In ("branch", Joi.default "main" Joi.string) ks ->
  str_of (prop "branch" value) = requested_branch body.
Proof.
  intros Hv Hnd Hin.
  destruct (validated_default _ _ _ "branch" "main" Hv Hnd Hin) as [Hopt ->].
  unfold requested_branch, optional_string in *.
  destruct (prop "branch" body) as [[| | |b| |]|]; try discriminate; reflexivity.
Qed.

(** The attempt of a request, with the repository and the branch of its
    body. *)
Lemma push_files_attempt_body (body : json) (w : world B) :
  Forall (fun e => is_updateRef e = false) (trace B (push_files OWNER body) w)
  \/ exists repoName,
       prop "repoName" body = Some (JStr repoName)
       /\ commit_attempt OWNER repoName (requested_branch body) "Failed to push files"
            (outcome B (push_files OWNER body) w) (trace B (push_files OWNER body) w).
Proof.
  destruct (validateInput schemas_pushFiles body) as [e|value] eqn:Hv.
  { left. unfold trace, push_files. rewrite Hv. constructor. }
  right. pose proof (push_files_attempt_value B OWNER body value w Hv) as H.
  destruct (validated_required _ _ _ "repoName" Hv pushFiles_keys_NoDup)
    as (repoName & Hr & _ & Hrv); [cbn; auto|].
  rewrite Hrv in H. cbn [str_of] in H.
  rewrite (validated_branch _ _ _ Hv pushFiles_keys_NoDup) in H by (cbn; auto).
  eauto.
Qed.

Lemma commit_attempt_body (body : json) (w : world B) :
  Forall (fun e => is_updateRef e = false) (trace B (commit OWNER body) w)
  \/ exists repoName,
       prop "repoName" body = Some (JStr repoName)
       /\ commit_attempt OWNER repoName (requested_branch body) "Failed to commit file"
            (outcome B (commit OWNER body) w) (trace B (commit OWNER body) w).
Proof.
  destruct (validateInput schemas_commit body) as [e|value] eqn:Hv.
  { left. unfold trace, commit. rewrite Hv. constructor. }
  right. pose proof (commit_route_attempt_value B OWNER body value w Hv) as H.
  destruct (validated_required _ _ _ "repoName" Hv commit_keys_NoDup)
    as (repoName & Hr & _ & Hrv); [cbn; auto|].
  rewrite Hrv in H. cbn [str_of] in H.
  rewrite (validated_branch _ _ _ Hv commit_keys_NoDup) in H by (cbn; auto).
  eauto.
Qed.

(** In an attempt, a call that updates the ref is the last call, and it is
    the update of the branch ref to the sha of the commit just created. *)
Lemma attempt_update_event (repoName branch fail : string)
    (out : RequestError + Response) (tr : list Event) (e : Event) :
  commit_attempt OWNER repoName branch fail out tr ->
  In e tr -> is_updateRef e = true ->
  exists nc m t ps r,
    In (Ev (git_createCommit OWNER repoName m t ps) (inr nc)) tr
    /\ e = Ev (git_updateRef OWNER repoName ("heads/" ++ branch)%string (nc_sha nc)) r
    /\ (forall err, r = inl err ->
          out = inr (status_json 500 (BError fail (Some (err_message err))))).
Proof.
  intros [Hno|(tr0 & nc & m & t & ps & r & -> & Hacc & Hnc & Hrej & _)] Hin Hupd.
  { rewrite (updateRef_not_in _ _ Hno Hin) in Hupd. discriminate. }
  exists nc, m, t, ps, r. apply in_app_iff in Hin as [Hin|[<-|[]]].
  - rewrite Forall_forall in Hacc. apply list_elem_of_In, Hacc in Hin.
    destruct Hin as [_ Hin]. congruence.
  - split; [apply in_app_iff; left; exact Hnc|]. split; [reflexivity|exact Hrej].
Qed.

End RefUpdate.

(** C1, amended.  In both commit routes, for every request and every
    repository: a call that updates the ref is the update of
    [heads/<branch>], the branch of the request ([main] when it names
    none), in the repository of the request, for the owner, to the sha
    that [createCommit] returned in the same attempt; these four are all
    its arguments, so that the head read in step 1 is not passed.  When the
    backend rejects the update, for whatever reason, the route answers with
    status 500, an upstream failure, with the failure text of the route and
    the message of the rejection as details. *)
Theorem update_ref_is_unconditional
    (B : Octokit.octokit_backend) (OWNER : string) (body : json)
    (w : Octokit.world B) (p : Octokit.Prog Part000.Response) (fail : string)
    (e : Octokit.Event) :
  p = Part000.push_files OWNER body /\ fail = "Failed to push files"
  \/ p = Part000.commit OWNER body /\ fail = "Failed to commit file" ->
  In e (trace B p w) ->
  Octokit.is_updateRef e = true ->
  exists repoName nc m t ps r,
    prop "repoName" body = Some (JStr repoName)
    /\ In (Octokit.Ev (Octokit.git_createCommit OWNER repoName m t ps) (inr nc)) (trace B p w)
    /\ e = Octokit.Ev
             (Octokit.git_updateRef OWNER repoName
                ("heads/" ++ requested_branch body)%string (Octokit.nc_sha nc)) r
    /\ Octokit.event_args e
       = [OWNER; repoName; ("heads/" ++ requested_branch body)%string; Octokit.nc_sha nc]
    /\ (forall err,
          r = inl err ->
          outcome B p w
          = inr (Part000.status_json 500
                   (Part000.BError fail (Some (Octokit.err_message err))))
          /\ kind_of_status 500 = Some Upstream).
Proof.
  intros Hp Hin Hupd.
  assert (Hshape :
    Forall (fun e' => Octokit.is_updateRef e' = false) (trace B p w)
    \/ exists repoName,
         prop "repoName" body = Some (JStr repoName)
         /\ commit_attempt OWNER repoName (requested_branch body) fail
              (outcome B p w) (trace B p w)).
  { destruct Hp as [[-> ->]|[-> ->]];
      [apply push_files_attempt_body|apply commit_attempt_body]. }
  destruct Hshape as [Hno|(repoName & Hr & Hshape)].
  { rewrite (updateRef_not_in _ _ Hno Hin) in Hupd. discriminate. }
  destruct (attempt_update_event OWNER _ _ _ _ _ _ Hshape Hin Hupd)
    as (nc & m & t & ps & r & Hnc & -> & Hrej).
  exists repoName, nc, m, t, ps, r.
  split; [exact Hr|]. split; [exact Hnc|]. split; [reflexivity|].
  split; [reflexivity|]. intros err ->. split; [apply Hrej; reflexivity|reflexivity].
Qed.

Lemma update_ref_is_unconditional_witness :
  exists repoName nc m t ps r,
    prop "repoName" (Samples.pushFiles_body_on "r" (Some "dev") [("a.txt", "1")] "m")
    = Some (JStr repoName)
    /\ In (Octokit.Ev (Octokit.git_createCommit "o" repoName m t ps) (inr nc))
         (trace Scenario.racing
            (Part000.push_files "o"
               (Samples.pushFiles_body_on "r" (Some "dev") [("a.txt", "1")] "m")) "h0")
    /\ Octokit.Ev (Octokit.git_updateRef "o" "r" "heads/dev" "c1")
         (inl {| Octokit.err_status := Some 422;
                 Octokit.err_message := "Update is not a fast forward" |})
       = Octokit.Ev
           (Octokit.git_updateRef "o" repoName
              ("heads/"
               ++ requested_branch
                    (Samples.pushFiles_body_on "r" (Some "dev") [("a.txt", "1")] "m"))%string
              (Octokit.nc_sha nc)) r
    /\ ["o"; "r"; "heads/dev"; "c1"]
       = ["o"; repoName;
          ("heads/"
           ++ requested_branch
                (Samples.pushFiles_body_on "r" (Some "dev") [("a.txt", "1")] "m"))%string;
          Octokit.nc_sha nc]
    /\ (forall err,
          r = inl err ->
          outcome Scenario.racing
            (Part000.push_files "o"
               (Samples.pushFiles_body_on "r" (Some "dev") [("a.txt", "1")] "m")) "h0"
          = inr (Part000.status_json 500
                   (Part000.BError "Failed to push files"
                      (Some (Octokit.err_message err))))
          /\ kind_of_status 500 = Some Upstream).
Proof.
  apply (update_ref_is_unconditional Scenario.racing "o"
           (Samples.pushFiles_body_on "r" (Some "dev") [("a.txt", "1")] "m") "h0" _ _
           (Octokit.Ev (Octokit.git_updateRef "o" "r" "heads/dev" "c1")
              (inl {| Octokit.err_status := Some 422;
                      Octokit.err_message := "Update is not a fast forward" |}))).
  - left. split; reflexivity.
  - vm_compute. do 6 right. left. reflexivity.
  - reflexivity.
Defined.
